(** * Electrical inventory tracker: a shallow embedding of [inventory_repl.py]

    The development follows the layout of the source file: the Python
    builtins the program relies on (text, numbers, decoded JSON values),
    then the models ([RangeSpec], [Part]), the store, parsing and
    validation, and the actions.  Theorems come after all definitions.

    Conventions.
    - A Python [str] is a [string] read as a sequence of code points below
      256; whitespace and case mapping are Python's on that range.
    - A Python [float] is an IEEE binary64 value, [spec_float] at precision
      53 and maximal exponent 1024.
    - A Python [int] is a [Z].
    - Code that may raise returns a [result]; an action that raises leaves
      the file as it was, and what it printed before is not recorded.

    The prompts read from a console that holds the lines still to be
    typed.  Not modelled: the command loop beyond the flags of search,
    the tokenizer, the text written to the file, and errors of the file
    system. *)

From Stdlib Require Import ZArith List String Ascii Bool Lia.
From Stdlib Require Import SpecFloat.
Import ListNotations.

Local Open Scope string_scope.
Local Open Scope Z_scope.

(* ================================================================== *)
(** * Exceptions *)

(** The class of an exception raised by a builtin; its text is not modelled. *)
Inductive exn_class := EValue | EType | EKey | EAttribute | EOverflow.

Inductive exn :=
| ValueError (msg : string)      (* [raise ValueError(msg)] in the source *)
| Builtin (c : exn_class).       (* raised inside a builtin *)

Inductive result (A : Type) :=
| Ok (a : A)
| Raise (e : exn).
Arguments Ok {A} a.
Arguments Raise {A} e.

Definition bind {A B : Type} (r : result A) (k : A -> result B) : result B :=
  match r with
  | Ok a => k a
  | Raise e => Raise e
  end.

Notation "x <- c ;; k" := (bind c (fun x => k))
  (at level 61, c at next level, right associativity).

(* ================================================================== *)
(** * Text builtins *)

Module PyStr.

Definition code (c : ascii) : N := N_of_ascii c.

(** [str.isspace] on one code point below 256. *)
Definition is_space (c : ascii) : bool :=
  let n := code c in
  (((9 <=? n) && (n <=? 13)) || ((28 <=? n) && (n <=? 32))
   || (n =? 133) || (n =? 160))%N.

(** The blanks [float()] and [int()] skip around their argument: the
    information separators 28..31 are not among them. *)
Definition is_blank (c : ascii) : bool :=
  let n := code c in
  (((9 <=? n) && (n <=? 13)) || (n =? 32) || (n =? 133) || (n =? 160))%N.

Definition is_digit (c : ascii) : bool :=
  let n := code c in ((48 <=? n) && (n <=? 57))%N.

Definition digit_val (c : ascii) : Z := Z.of_N (code c) - 48.

Definition is_empty (s : string) : bool :=
  match s with
  | EmptyString => true
  | String _ _ => false
  end.

Fixpoint drop_while (p : ascii -> bool) (s : string) : string :=
  match s with
  | EmptyString => EmptyString
  | String c r => if p c then drop_while p r else s
  end.

(** Removes the longest suffix whose characters all satisfy [p]. *)
Fixpoint drop_end (p : ascii -> bool) (s : string) : string :=
  match s with
  | EmptyString => EmptyString
  | String c r =>
      let t := drop_end p r in
      if p c && is_empty t then EmptyString else String c t
  end.

Definition strip_with (p : ascii -> bool) (s : string) : string :=
  drop_end p (drop_while p s).

(** [s.strip()] *)
Definition strip (s : string) : string := strip_with is_space s.

(** [str.lower] on one code point below 256: A-Z and the Latin-1 capitals
    (192..222 except the multiplication sign 215) move up by 32. *)
Definition lower_char (c : ascii) : ascii :=
  let n := code c in
  if (((65 <=? n) && (n <=? 90))
      || ((192 <=? n) && (n <=? 222) && negb (n =? 215)))%N
  then ascii_of_N (n + 32) else c.

(** [s.lower()] *)
Fixpoint lower (s : string) : string :=
  match s with
  | EmptyString => EmptyString
  | String c r => String (lower_char c) (lower r)
  end.

(** [s.replace(ch, "")] for a one-character [ch]. *)
Fixpoint remove_char (ch : ascii) (s : string) : string :=
  match s with
  | EmptyString => EmptyString
  | String c r =>
      if Ascii.eqb c ch then remove_char ch r else String c (remove_char ch r)
  end.

(** [ch in s] for a one-character [ch]. *)
Fixpoint contains (ch : ascii) (s : string) : bool :=
  match s with
  | EmptyString => false
  | String c r => Ascii.eqb c ch || contains ch r
  end.

(** [s.split(ch, 1)] when [ch in s]: the text before the first [ch] and the
    text after it.  Without a [ch] the second component is empty. *)
Fixpoint split_first (ch : ascii) (s : string) : string * string :=
  match s with
  | EmptyString => (EmptyString, EmptyString)
  | String c r =>
      if Ascii.eqb c ch then (EmptyString, r)
      else let '(a, b) := split_first ch r in (String c a, b)
  end.

(** The longest prefix of characters satisfying [p], and the rest. *)
Fixpoint span (p : ascii -> bool) (s : string) : string * string :=
  match s with
  | EmptyString => (EmptyString, EmptyString)
  | String c r =>
      if p c then let '(a, b) := span p r in (String c a, b)
      else (EmptyString, s)
  end.

Fixpoint repeat_char (c : ascii) (n : nat) : string :=
  match n with
  | O => EmptyString
  | S k => String c (repeat_char c k)
  end.

(** The value of a run of decimal digits, most significant first. *)
Fixpoint digits_value (acc : Z) (s : string) : Z :=
  match s with
  | EmptyString => acc
  | String c r => digits_value (10 * acc + digit_val c) r
  end.

Definition digit_char (d : Z) : ascii := ascii_of_N (Z.to_N (48 + d)).

Fixpoint digits_loop (fuel : nat) (n : Z) (acc : string) : string :=
  let acc' := String (digit_char (n mod 10)) acc in
  match fuel with
  | O => acc'
  | S f => if n <? 10 then acc' else digits_loop f (n / 10) acc'
  end.

(** The decimal digits of a natural number; a number below 2^k has at most
    k digits, which bounds the loop. *)
Definition digits_of (n : Z) : string :=
  digits_loop (Z.to_nat (Z.log2 n)) n EmptyString.

(** Underscores in a numeric literal: each one stands between two digits. *)
Fixpoint underscores_ok (prev : ascii) (s : string) : bool :=
  match s with
  | EmptyString => negb (Ascii.eqb prev "_")
  | String c r =>
      (if Ascii.eqb c "_" then is_digit prev
       else negb (Ascii.eqb prev "_") || is_digit c)
      && underscores_ok c r
  end.

(** An optional leading sign: [true] for a minus. *)
Definition split_sign (s : string) : bool * string :=
  match s with
  | String "-" r => (true, r)
  | String "+" r => (false, r)
  | _ => (false, s)
  end.

Definition head_is (p : ascii -> bool) (s : string) : bool :=
  match s with
  | EmptyString => false
  | String c _ => p c
  end.

Fixpoint last_is (p : ascii -> bool) (s : string) : bool :=
  match s with
  | EmptyString => false
  | String c EmptyString => p c
  | String _ r => last_is p r
  end.

Fixpoint all_chars (p : ascii -> bool) (s : string) : bool :=
  match s with
  | EmptyString => true
  | String c r => p c && all_chars p r
  end.

(** No whitespace at either end. *)
Definition trimmed (s : string) : bool :=
  negb (head_is is_space s) && negb (last_is is_space s).

End PyStr.

(* ================================================================== *)
(** * Floating-point builtins *)

Module PyFloat.

Definition float := spec_float.

Definition prec : Z := 53.
Definition emax : Z := 1024.

(** [a <= b], [a < b], [a == b] on floats: false whenever a NaN is involved. *)
Definition leb (a b : float) : bool := SFleb a b.
Definition ltb (a b : float) : bool := SFltb a b.
Definition eqb (a b : float) : bool := SFeqb a b.

Definition is_nan (a : float) : bool :=
  match a with
  | S754_nan => true
  | _ => false
  end.

Definition zero : float := S754_zero false.

(** [float(n)] for an integer: the nearest double, ties to even; an
    infinite result stands for Python's OverflowError. *)
Definition of_Z (n : Z) : float := binary_normalize prec emax n 0 false.

(** The double nearest to [n * 10^k], ties to even. *)
Definition of_decimal (sgn : bool) (n k : Z) : float :=
  match n with
  | Z0 => S754_zero sgn
  | Zpos p =>
      if 0 <=? k then binary_round prec emax sgn (Z.to_pos (n * 10 ^ k)) 0
      else
        let '(q, e, l) := SFdiv_core_binary prec emax n 0 (10 ^ (- k)) 0 in
        binary_round_aux prec emax sgn q e l
  | Zneg _ => S754_nan
  end.

(** The exponent part of a decimal literal, after the mantissa: nothing,
    or [e], an optional sign and at least one digit, up to the end. *)
Definition parse_exponent (s : string) : option Z :=
  match s with
  | EmptyString => Some 0
  | String c r =>
      if Ascii.eqb (PyStr.lower_char c) "e" then
        let '(neg, r1) := PyStr.split_sign r in
        let '(ds, r2) := PyStr.span PyStr.is_digit r1 in
        if PyStr.is_empty ds || negb (PyStr.is_empty r2) then None
        else
          let v := PyStr.digits_value 0 ds in
          Some (if neg then - v else v)
      else None
  end.

(** A decimal literal [digits [. digits] [exponent]] with a digit in the
    mantissa: its digits as an integer, and the power of ten to apply. *)
Definition parse_decimal (s : string) : option (Z * Z) :=
  let '(ip, r1) := PyStr.span PyStr.is_digit s in
  let '(fp, r2) :=
    match r1 with
    | String "." r => PyStr.span PyStr.is_digit r
    | _ => (EmptyString, r1)
    end in
  if PyStr.is_empty ip && PyStr.is_empty fp then None
  else
    match parse_exponent r2 with
    | Some ex =>
        Some (PyStr.digits_value 0 (ip ++ fp), ex - Z.of_nat (String.length fp))
    | None => None
    end.

(** [float(s)] for a string; [None] stands for ValueError. *)
Definition of_string (s : string) : option float :=
  let t := PyStr.strip_with PyStr.is_blank s in
  if PyStr.underscores_ok "000" t then
    let '(sgn, body) := PyStr.split_sign (PyStr.remove_char "_" t) in
    let name := PyStr.lower body in
    if String.eqb name "inf" || String.eqb name "infinity"
    then Some (S754_infinity sgn)
    else if String.eqb name "nan" then Some S754_nan
    else
      match parse_decimal body with
      | Some (n, k) => Some (of_decimal sgn n k)
      | None => None
      end
  else None.

(** [int(x)] for a float: truncation towards zero. *)
Definition trunc (x : float) : result Z :=
  match x with
  | S754_zero _ => Ok 0
  | S754_finite s m e =>
      let a := if 0 <=? e then Zpos m * 2 ^ e else Zpos m / 2 ^ (- e) in
      Ok (if s then - a else a)
  | S754_infinity _ => Raise (Builtin EOverflow)
  | S754_nan => Raise (Builtin EValue)
  end.

(** ** The [g] presentation type with its default precision of 6 *)

Definition round_half_even (a b : Z) : Z :=
  let q := a / b in
  match (2 * (a mod b) ?= b) with
  | Lt => q
  | Gt => q + 1
  | Eq => if Z.even q then q else q + 1
  end.

(** The largest [k >= k0] with [den * 10^k <= num], searched upwards. *)
Fixpoint dec_exp_up (fuel : nat) (num den k : Z) : Z :=
  match fuel with
  | O => k
  | S f =>
      if den * 10 ^ (k + 1) <=? num then dec_exp_up f num den (k + 1) else k
  end.

(** The largest [k <= k0] with [den <= num * 10^(-k)], searched downwards. *)
Fixpoint dec_exp_down (fuel : nat) (num den k : Z) : Z :=
  match fuel with
  | O => k
  | S f =>
      if den <=? num * 10 ^ (- k) then k else dec_exp_down f num den (k - 1)
  end.

(** The decimal exponent of the positive rational [num / den]. *)
Definition dec_exp (num den : Z) : Z :=
  let fuel := S (Z.to_nat (Z.log2 num + Z.log2 den)) in
  if den <=? num then dec_exp_up fuel num den 0
  else dec_exp_down fuel num den (-1).

(** [num / den] rounded to [p] significant digits: the digits as an integer
    in [10^(p-1), 10^p), and the decimal exponent of the rounded value. *)
Definition sig_digits (p num den : Z) : Z * Z :=
  let k0 := dec_exp num den in
  let s := p - 1 - k0 in
  let d := if 0 <=? s then round_half_even (num * 10 ^ s) den
           else round_half_even num (den * 10 ^ (- s)) in
  if d =? 10 ^ p then (10 ^ (p - 1), k0 + 1) else (d, k0).

Definition take (n : nat) (s : string) : string := substring 0 n s.
Definition drop (n : nat) (s : string) : string :=
  substring n (String.length s - n) s.

(** An integer part and fraction digits, trailing zeros of the fraction
    removed and the point with them when nothing is left. *)
Definition with_fraction (ip fp : string) : string :=
  let f := PyStr.drop_end (fun c => Ascii.eqb c "0") fp in
  if PyStr.is_empty f then ip else ip ++ "." ++ f.

Definition exponent_text (k : Z) : string :=
  let a := PyStr.digits_of (Z.abs k) in
  String "e" (String (if k <? 0 then "-"%char else "+"%char)
    (if Z.abs k <? 10 then String "0" a else a)).

(** The text of the positive value [m * 2^e]. *)
Definition fmt_g_pos (m e : Z) : string :=
  let num := if 0 <=? e then m * 2 ^ e else m in
  let den := if 0 <=? e then 1 else 2 ^ (- e) in
  let '(d, k) := sig_digits 6 num den in
  let ds := PyStr.digits_of d in
  if (-4 <=? k) && (k <? 6) then
    if 0 <=? k then
      with_fraction (take (Z.to_nat (k + 1)) ds) (drop (Z.to_nat (k + 1)) ds)
    else
      with_fraction "0" (PyStr.repeat_char "0" (Z.to_nat (- k - 1)) ++ ds)
  else
    with_fraction (take 1 ds) (drop 1 ds) ++ exponent_text k.

Definition sign_text (s : bool) : string := if s then "-" else "".

(** [f"{x:g}"] *)
Definition fmt_g (x : float) : string :=
  match x with
  | S754_nan => "nan"
  | S754_infinity s => sign_text s ++ "inf"
  | S754_zero s => sign_text s ++ "0"
  | S754_finite s m e => sign_text s ++ fmt_g_pos (Zpos m) e
  end.

End PyFloat.

(* ================================================================== *)
(** * Decoded JSON values *)

(** What [json.loads] returns: [None], [bool], [int], [float], [str],
    [list] and [dict].  A dict keeps its keys in insertion order; a lookup
    reads the first entry of a key. *)
#[warnings="-register-all"]
Inductive json :=
| JNull
| JBool (b : bool)
| JInt (n : Z)
| JFloat (x : PyFloat.float)
| JStr (s : string)
| JList (l : list json)
| JDict (d : list (string * json)).

Fixpoint dict_get (k : string) (d : list (string * json)) : option json :=
  match d with
  | [] => None
  | (k', v) :: r => if String.eqb k k' then Some v else dict_get k r
  end.

(** [d[k] = v]: an existing key keeps its place, a new one goes last. *)
Fixpoint dict_set (k : string) (v : json) (d : list (string * json))
  : list (string * json) :=
  match d with
  | [] => [(k, v)]
  | (k', v') :: r =>
      if String.eqb k k' then (k, v) :: r else (k', v') :: dict_set k v r
  end.

(** [d.get(k, default)]: only a dict has the method. *)
Definition py_get (d : json) (k : string) (default : json) : result json :=
  match d with
  | JDict kv =>
      Ok (match dict_get k kv with
          | Some v => v
          | None => default
          end)
  | _ => Raise (Builtin EAttribute)
  end.

(** [d[k]] for a string [k]. *)
Definition py_getitem (d : json) (k : string) : result json :=
  match d with
  | JDict kv =>
      match dict_get k kv with
      | Some v => Ok v
      | None => Raise (Builtin EKey)
      end
  | _ => Raise (Builtin EType)
  end.

(** [d[k] = v] for a string [k]. *)
Definition py_setitem (d : json) (k : string) (v : json) : result json :=
  match d with
  | JDict kv => Ok (JDict (dict_set k v kv))
  | _ => Raise (Builtin EType)
  end.

(** [int(s)] for a string, base 10. *)
Definition int_of_string (s : string) : result Z :=
  let t := PyStr.strip_with PyStr.is_blank s in
  if PyStr.underscores_ok "000" t then
    let '(neg, body) := PyStr.split_sign (PyStr.remove_char "_" t) in
    let '(ds, rest) := PyStr.span PyStr.is_digit body in
    if PyStr.is_empty ds || negb (PyStr.is_empty rest)
    then Raise (Builtin EValue)
    else
      let v := PyStr.digits_value 0 ds in
      Ok (if neg then - v else v)
  else Raise (Builtin EValue).

(** [int(v)] *)
Definition py_int (v : json) : result Z :=
  match v with
  | JInt n => Ok n
  | JBool b => Ok (if b then 1 else 0)
  | JFloat x => PyFloat.trunc x
  | JStr s => int_of_string s
  | JNull | JList _ | JDict _ => Raise (Builtin EType)
  end.

(** [float(s)] for a string. *)
Definition py_float (s : string) : result PyFloat.float :=
  match PyFloat.of_string s with
  | Some x => Ok x
  | None => Raise (Builtin EValue)
  end.

(* ================================================================== *)
(** * Models *)

Module RangeSpec.

Record t := mk { min : PyFloat.float; max : PyFloat.float; unit : string }.

Definition normalized (self : t) : t :=
  let '(lo, hi) :=
    if PyFloat.leb (min self) (max self) then (min self, max self)
    else (max self, min self) in
  mk lo hi (PyStr.strip (unit self)).

Definition fmt (self : t) : string :=
  let r := normalized self in
  if PyFloat.eqb (min r) (max r) then PyFloat.fmt_g (min r) ++ unit r
  else PyFloat.fmt_g (min r) ++ "-" ++ PyFloat.fmt_g (max r) ++ unit r.

Definition key (self : t) : string :=
  let r := normalized self in
  PyStr.lower (PyFloat.fmt_g (min r) ++ "-" ++ PyFloat.fmt_g (max r) ++ unit r).

(** The [==] the dataclass generates: the field tuples compared with [==]. *)
Definition eqb (a b : t) : bool :=
  PyFloat.eqb (min a) (min b) && PyFloat.eqb (max a) (max b)
  && String.eqb (unit a) (unit b).

End RangeSpec.

Module Part.

Record t := mk {
  category : string;
  name : string;
  voltage : RangeSpec.t;
  current : RangeSpec.t;
  quantity : Z;
  notes : string
}.

Definition normalized (self : t) : t :=
  mk (PyStr.strip (category self))
     (PyStr.strip (name self))
     (RangeSpec.normalized (voltage self))
     (RangeSpec.normalized (current self))
     (quantity self)
     (PyStr.strip (notes self)).

Definition dedupe_key (self : t) : string * string * string * string :=
  let p := normalized self in
  (PyStr.lower (category p), PyStr.lower (name p),
   RangeSpec.key (voltage p), RangeSpec.key (current p)).

End Part.

(** [==] on two dedupe keys. *)
Definition key_eqb (a b : string * string * string * string) : bool :=
  let '(a1, a2, a3, a4) := a in
  let '(b1, b2, b3, b4) := b in
  String.eqb a1 b1 && String.eqb a2 b2 && String.eqb a3 b3 && String.eqb a4 b4.

(** ** Objects built from stored records

    [part_from_dict] checks no field type, so the [Part] it returns may hold
    any decoded value where the dataclass announces a [str] or a [float]. *)

Record DynRange := { dmin : json; dmax : json; dunit : json }.

Record DynPart := {
  dcategory : json;
  dname : json;
  dvoltage : DynRange;
  dcurrent : DynRange;
  dquantity : Z;
  dnotes : string
}.

(** A bound usable as a number: a float, or an [int] or [bool], which
    comparison and the [g] format read through their double (exactly so up
    to 2^53; an [int] past the largest double is refused by the format). *)
Definition num_value (v : json) : option PyFloat.float :=
  match v with
  | JFloat x => Some x
  | JInt n =>
      match PyFloat.of_Z n with
      | S754_infinity _ => None
      | x => Some x
      end
  | JBool b => Some (PyFloat.of_Z (if b then 1 else 0))
  | _ => None
  end.

Definition str_value (v : json) : option string :=
  match v with
  | JStr s => Some s
  | _ => None
  end.

Definition typed_range (r : DynRange) : option RangeSpec.t :=
  match num_value (dmin r), num_value (dmax r), str_value (dunit r) with
  | Some lo, Some hi, Some u => Some (RangeSpec.mk lo hi u)
  | _, _, _ => None
  end.

(** The object as the dataclass announces it, when every field has its type. *)
Definition typed_part (p : DynPart) : option Part.t :=
  match str_value (dcategory p), str_value (dname p),
        typed_range (dvoltage p), typed_range (dcurrent p) with
  | Some c, Some n, Some v, Some i =>
      Some (Part.mk c n v i (dquantity p) (dnotes p))
  | _, _, _, _ => None
  end.

(** [r.fmt()] on a stored range: the comparison, [strip] or the [g] format
    raises on a field of another type. *)
Definition dyn_fmt (r : DynRange) : result string :=
  match typed_range r with
  | Some t => Ok (RangeSpec.fmt t)
  | None => Raise (Builtin EType)
  end.

(** [p.dedupe_key()] on a stored part: [normalized] and [key] call [strip],
    [<=] and the [g] format on the fields, and raise on one of another type. *)
Definition dyn_dedupe_key (p : DynPart)
  : result (string * string * string * string) :=
  match typed_part p with
  | Some t => Ok (Part.dedupe_key t)
  | None => Raise (Builtin EType)
  end.

(* ================================================================== *)
(** * DB *)

Definition DB_VERSION : Z := 1.

Definition empty_db : list (string * json) :=
  [("version", JInt DB_VERSION); ("parts", JList [])].

(** The backing file as [load_db] meets it. *)
Inductive file :=
| Missing                 (* [path.exists()] is false *)
| NotText                 (* [read_text] raises UnicodeDecodeError *)
| NotJson                 (* [json.loads] raises JSONDecodeError *)
| Content (v : json).     (* [json.loads] returns [v] *)

(** The handler of [load_db] is for JSONDecodeError alone: the error of
    [read_text] on bytes that are not UTF-8 leaves the function. *)
Definition load_db (f : file) : result (list (string * json)) :=
  match f with
  | Missing => Ok empty_db
  | NotText => Raise (Builtin EValue)
  | NotJson => Ok empty_db
  | Content (JDict data) =>
      let data1 :=
        match dict_get "parts" data with
        | Some (JList _) => data
        | _ => dict_set "parts" (JList []) data
        end in
      Ok (match dict_get "version" data1 with
          | Some _ => data1
          | None => dict_set "version" (JInt DB_VERSION) data1
          end)
  | Content _ => Ok empty_db
  end.

(** The [try] body of [next_id]'s loop. *)
Definition record_id (default : Z) (p : json) : result Z :=
  v <- py_get p "id" (JInt default) ;; py_int v.

Definition next_id (parts : list json) : Z :=
  fold_left
    (fun m p =>
       match record_id 0 p with
       | Ok n => Z.max m n
       | Raise _ => m
       end)
    parts 0 + 1.

(** [RangeSpec] called with the entries of [v] as keyword arguments: [v]
    is a dict with the keys min, max and unit, and no other. *)
Definition range_of_kwargs (v : json) : result DynRange :=
  match v with
  | JDict kv =>
      if forallb (fun e => String.eqb (fst e) "min" || String.eqb (fst e) "max"
                           || String.eqb (fst e) "unit") kv
      then
        match dict_get "min" kv, dict_get "max" kv, dict_get "unit" kv with
        | Some lo, Some hi, Some u => Ok {| dmin := lo; dmax := hi; dunit := u |}
        | _, _, _ => Raise (Builtin EType)
        end
      else Raise (Builtin EType)
  | _ => Raise (Builtin EType)
  end.

Definition part_to_dict (p : Part.t) : json :=
  let q := Part.normalized p in
  let range (r : RangeSpec.t) :=
    JDict [("min", JFloat (RangeSpec.min r)); ("max", JFloat (RangeSpec.max r));
           ("unit", JStr (RangeSpec.unit r))] in
  JDict [("category", JStr (Part.category q)); ("name", JStr (Part.name q));
         ("voltage", range (Part.voltage q)); ("current", range (Part.current q));
         ("quantity", JInt (Part.quantity q)); ("notes", JStr (Part.notes q))].

(* ================================================================== *)
(** * Parsing + Validation *)

Definition parse_range (text unit : string) : result RangeSpec.t :=
  let s := PyStr.remove_char " " (PyStr.lower (PyStr.strip text)) in
  if PyStr.is_empty s then Raise (ValueError "range is empty")
  else if PyStr.is_empty (PyStr.strip unit) then Raise (ValueError "unit is empty")
  else if PyStr.contains "-" s then
    let '(a, b) := PyStr.split_first "-" s in
    lo <- py_float a ;;
    hi <- py_float b ;;
    Ok (RangeSpec.mk lo hi (PyStr.strip unit))
  else
    lo <- py_float s ;;
    Ok (RangeSpec.mk lo lo (PyStr.strip unit)).

Definition validate_part (p : Part.t) : result Part.t :=
  let p := Part.normalized p in
  if PyStr.is_empty (Part.category p) then Raise (ValueError "category is required")
  else if PyStr.is_empty (Part.name p) then Raise (ValueError "name is required")
  else if Part.quantity p <=? 0 then Raise (ValueError "quantity must be > 0")
  else if PyFloat.ltb (RangeSpec.min (Part.voltage p)) PyFloat.zero
          || PyFloat.ltb (RangeSpec.max (Part.voltage p)) PyFloat.zero
  then Raise (ValueError "voltage cannot be negative")
  else if PyFloat.ltb (RangeSpec.min (Part.current p)) PyFloat.zero
          || PyFloat.ltb (RangeSpec.max (Part.current p)) PyFloat.zero
  then Raise (ValueError "current cannot be negative")
  else Ok p.

(** The range text [action_edit] offers as the default answer: the two
    [g]-formatted bounds, or one when they are equal, without the unit. *)
Definition range_default (r : RangeSpec.t) : string :=
  if negb (PyFloat.eqb (RangeSpec.min r) (RangeSpec.max r))
  then PyFloat.fmt_g (RangeSpec.min r) ++ "-" ++ PyFloat.fmt_g (RangeSpec.max r)
  else PyFloat.fmt_g (RangeSpec.min r).

(* ================================================================== *)
(** * Actions *)

(** What an action prints. *)
Inductive message :=
| Merged (total : Z)        (* Merged with existing item. New quantity: .. *)
| Added (id : Z)            (* Added. id=.. *)
| Deleted                   (* Deleted. *)
| DecrementUsage            (* Decrement must be > 0. *)
| Decremented (q2 : Z)      (* Decremented. New quantity: .. *)
| HitZero                   (* Quantity hit 0; removed. *)
| NotFound                  (* Not found. *)
| Shown (lines : list string).

(** The state an action leaves: the records of [db["parts"]], whether
    [save_db] wrote them to the file, and the message. *)
Record outcome := {
  parts_after : list json;
  saved : bool;
  printed : message
}.

Section Actions.

(** [str(v)] on a decoded value.  The program applies it to the stored
    notes and to what [action_show] prints; nothing proved here depends on
    the text it gives. *)
Variable py_str : json -> string.

Definition part_from_dict (d : json) : result DynPart :=
  c <- py_getitem d "category" ;;
  n <- py_getitem d "name" ;;
  v <- (x <- py_getitem d "voltage" ;; range_of_kwargs x) ;;
  i <- (x <- py_getitem d "current" ;; range_of_kwargs x) ;;
  q <- (x <- py_getitem d "quantity" ;; py_int x) ;;
  o <- py_get d "notes" (JStr "") ;;
  Ok {| dcategory := c; dname := n; dvoltage := v; dcurrent := i;
        dquantity := q; dnotes := py_str o |}.

(** The merge loop of [action_add]: [None] when it runs to its end, else
    the records after the merge and the new quantity. *)
Fixpoint merge_scan (k : string * string * string * string) (qty : Z)
  (parts : list json) : result (option (list json * Z)) :=
  match parts with
  | [] => Ok None
  | item :: rest =>
      let continue :=
        r <- merge_scan k qty rest ;;
        Ok (option_map (fun '(l, n) => (item :: l, n)) r) in
      match part_from_dict item with
      | Raise _ => continue
      | Ok existing =>
          k' <- dyn_dedupe_key existing ;;
          if key_eqb k' k then
            old <- (x <- py_get item "quantity" (JInt 0) ;; py_int x) ;;
            item' <- py_setitem item "quantity" (JInt (old + qty)) ;;
            Ok (Some (item' :: rest, old + qty))
          else continue
      end
  end.

(** [action_add], from the [Part] the prompts have assembled. *)
Definition action_add (candidate : Part.t) (parts : list json)
  : result outcome :=
  p <- validate_part candidate ;;
  let k := Part.dedupe_key p in
  r <- merge_scan k (Part.quantity p) parts ;;
  match r with
  | Some (parts', total) =>
      Ok {| parts_after := parts'; saved := true; printed := Merged total |}
  | None =>
      d <- py_setitem (part_to_dict p) "id" (JInt (next_id parts)) ;;
      Ok {| parts_after := parts ++ [d]; saved := true;
            printed := Added (next_id parts) |}
  end.

Definition action_show (parts : list json) (id_ : Z) : result message :=
  (fix scan (l : list json) : result message :=
     match l with
     | [] => Ok NotFound
     | d :: rest =>
         n <- record_id (-1) d ;;
         if n =? id_ then
           p <- part_from_dict d ;;
           i <- py_get d "id" JNull ;;
           v <- dyn_fmt (dvoltage p) ;;
           c <- dyn_fmt (dcurrent p) ;;
           Ok (Shown (["ID:       " ++ py_str i;
                       "Category: " ++ py_str (dcategory p);
                       "Name:     " ++ py_str (dname p);
                       "Voltage:  " ++ v;
                       "Current:  " ++ c;
                       "Quantity: " ++ py_str (JInt (dquantity p))]
                      ++ (if PyStr.is_empty (dnotes p) then []
                          else ["Notes:    " ++ dnotes p])))
         else scan rest
     end) parts.

End Actions.

Fixpoint action_remove (parts : list json) (id_ : Z) (decrement : option Z)
  : result outcome :=
  match parts with
  | [] => Ok {| parts_after := []; saved := false; printed := NotFound |}
  | d :: rest =>
      n <- record_id (-1) d ;;
      if n =? id_ then
        match decrement with
        | None => Ok {| parts_after := rest; saved := true; printed := Deleted |}
        | Some dec =>
            if dec <=? 0 then
              Ok {| parts_after := parts; saved := false;
                    printed := DecrementUsage |}
            else
              q <- (x <- py_get d "quantity" (JInt 0) ;; py_int x) ;;
              let q2 := q - dec in
              if 0 <? q2 then
                d' <- py_setitem d "quantity" (JInt q2) ;;
                Ok {| parts_after := d' :: rest; saved := true;
                      printed := Decremented q2 |}
              else
                Ok {| parts_after := rest; saved := true; printed := HitZero |}
        end
      else
        o <- action_remove rest id_ decrement ;;
        Ok {| parts_after := d :: parts_after o; saved := saved o;
              printed := printed o |}
  end.

(* ================================================================== *)
(** * Vocabulary of the statements *)

(** ** Validation: the checks and the invariants *)

Inductive field := FCategory | FName | FQuantity | FVoltage | FCurrent.

Definition field_name (f : field) : string :=
  match f with
  | FCategory => "category"
  | FName => "name"
  | FQuantity => "quantity"
  | FVoltage => "voltage"
  | FCurrent => "current"
  end.

(** The test of [validate_part] on a range: a bound below zero. *)
Definition negative_bound (r : RangeSpec.t) : bool :=
  PyFloat.ltb (RangeSpec.min r) PyFloat.zero
  || PyFloat.ltb (RangeSpec.max r) PyFloat.zero.

(** The invariant of a range as section 3 of the specification states
    it, not as the code tests it: [min >= 0] and [max >= 0]. *)
Definition non_negative (r : RangeSpec.t) : bool :=
  PyFloat.leb PyFloat.zero (RangeSpec.min r)
  && PyFloat.leb PyFloat.zero (RangeSpec.max r).

(** The invariants of a part as section 3 of the specification states
    them: category and name non-empty after trimming, [quantity >= 1],
    both voltage bounds [>= 0], both current bounds [>= 0]. *)
Definition invariant_holds (p : Part.t) (f : field) : bool :=
  match f with
  | FCategory => negb (PyStr.is_empty (PyStr.strip (Part.category p)))
  | FName => negb (PyStr.is_empty (PyStr.strip (Part.name p)))
  | FQuantity => 1 <=? Part.quantity p
  | FVoltage => non_negative (Part.voltage p)
  | FCurrent => non_negative (Part.current p)
  end.

Definition check_order : list field :=
  [FCategory; FName; FQuantity; FVoltage; FCurrent].

(** The first invariant of the specification that the part violates, in
    the order of the checks. *)
Definition first_violated (p : Part.t) : option field :=
  find (fun f => negb (invariant_holds p f)) check_order.

(** ** Text *)

(** A character that [strip], [lower] and the removal of spaces leave
    alone. *)
Definition plain (c : ascii) : bool :=
  negb (PyStr.is_space c) && Ascii.eqb (PyStr.lower_char c) c.

(** ** Scans by id *)

(** [int(d.get("quantity", 0))] *)
Definition record_quantity (d : json) : result Z :=
  x <- py_get d "quantity" (JInt 0) ;; py_int x.

(** The id test of the lookup loops passes over [d]: its id converts and
    differs from [id_]. *)
Definition passed_over (id_ : Z) (d : json) : bool :=
  match record_id (-1) d with
  | Ok n => negb (n =? id_)
  | Raise _ => false
  end.

(** ** Files for which [load_db] falls back *)

Definition is_dict (v : json) : bool :=
  match v with
  | JDict _ => true
  | _ => false
  end.

Definition has_parts_list (data : list (string * json)) : bool :=
  match dict_get "parts" data with
  | Some (JList _) => true
  | _ => false
  end.

Definition degraded (f : file) : bool :=
  match f with
  | Missing | NotJson => true
  | NotText => false
  | Content (JDict data) => negb (has_parts_list data)
  | Content _ => true
  end.

(** ** Stored records as [action_add] reads them *)

(** The stored part [p] with another quantity. *)
Definition with_quantity (p : DynPart) (q : Z) : DynPart :=
  {| dcategory := dcategory p; dname := dname p; dvoltage := dvoltage p;
     dcurrent := dcurrent p; dquantity := q; dnotes := dnotes p |}.

Definition id_or_zero (d : json) : Z :=
  match record_id 0 d with
  | Ok n => n
  | Raise _ => 0
  end.

(** The maximum of the existing ids, malformed or missing ones counted as
    0; 0 for no record at all. *)
Definition max_id (parts : list json) : Z :=
  match map id_or_zero parts with
  | [] => 0
  | x :: xs => fold_left Z.max xs x
  end.

Section Records.

Variable py_str : json -> string.

(** The dedupe key of a record that decodes. *)
Definition record_key (d : json)
  : option (string * string * string * string) :=
  match part_from_dict py_str d with
  | Ok p =>
      match dyn_dedupe_key p with
      | Ok k => Some k
      | Raise _ => None
      end
  | Raise _ => None
  end.

Definition matches (k : string * string * string * string) (d : json) : bool :=
  match record_key d with
  | Some k' => key_eqb k' k
  | None => false
  end.

(** A record of a valid database: when [part_from_dict] accepts it, its
    fields have the types the dataclasses announce; its id, when it has a
    numeric one, is not negative. *)
Definition valid_record (d : json) : bool :=
  match part_from_dict py_str d with
  | Ok p =>
      match typed_part p with
      | Some _ => true
      | None => false
      end
  | Raise _ => true
  end
  && (0 <=? id_or_zero d).

Definition valid_db (parts : list json) : bool := forallb valid_record parts.

End Records.

(** ** Sample values *)

Definition sample_nan_range : RangeSpec.t :=
  RangeSpec.mk S754_nan (PyFloat.of_Z 1) "V".

Definition sample_point_range : RangeSpec.t :=
  RangeSpec.mk (PyFloat.of_Z 5) (PyFloat.of_Z 5) "V".

Definition sample_span_range : RangeSpec.t :=
  RangeSpec.mk (PyFloat.of_Z 24) (PyFloat.of_Z 1) " V ".

Definition sample_zero_range (u : string) : RangeSpec.t :=
  RangeSpec.mk PyFloat.zero PyFloat.zero u.

Definition sample_str (v : json) : string :=
  match v with
  | JStr s => s
  | _ => ""
  end.

Definition sample_part : Part.t :=
  Part.mk " Resistor " "10k" sample_span_range (sample_zero_range "A") 5 "".

Definition sample_nan_part : Part.t :=
  Part.mk "Sensor" "DHT22" sample_nan_range (sample_zero_range "A") 1 "".

Definition sample_candidate : Part.t :=
  Part.mk "resistor " "10K" (sample_zero_range "V") (sample_zero_range " a") 3 "".

Definition sample_fine_range : RangeSpec.t :=
  RangeSpec.mk (PyFloat.of_decimal false 12345678 (-7))
               (PyFloat.of_decimal false 12345678 (-7)) "V".

Definition sample_tiny_range : RangeSpec.t :=
  RangeSpec.mk (PyFloat.of_decimal false 1 (-5))
               (PyFloat.of_decimal false 1 (-5)) "A".

Definition sample_versioned_file : file :=
  Content (JDict [("version", JInt 2); ("parts", JStr "x"); ("owner", JStr "lab")]).

Definition sample_record (id : json) (qty : Z) : json :=
  JDict [("category", JStr "Resistor"); ("name", JStr "10k");
         ("voltage", JDict [("min", JFloat PyFloat.zero);
                            ("max", JFloat PyFloat.zero); ("unit", JStr "V")]);
         ("current", JDict [("min", JFloat PyFloat.zero);
                            ("max", JFloat PyFloat.zero); ("unit", JStr "A")]);
         ("quantity", JInt qty); ("notes", JStr ""); ("id", id)].

(** A database whose first record has a text that is no number as its id. *)
Definition sample_bad_id_db : list json :=
  [sample_record (JStr "abc") 2; sample_record (JInt 1) 5].

(** ** Further vocabulary *)

(** The id of a stored record converts, as the lookup loops need it to. *)
Definition id_converts (d : json) : bool :=
  match record_id (-1) d with
  | Ok _ => true
  | Raise _ => false
  end.

Definition not_nan_range (r : RangeSpec.t) : bool :=
  negb (PyFloat.is_nan (RangeSpec.min r))
  && negb (PyFloat.is_nan (RangeSpec.max r)).

(** Both ranges of a part have numbers as bounds. *)
Definition not_nan_part (p : Part.t) : bool :=
  not_nan_range (Part.voltage p) && not_nan_range (Part.current p).

Definition sample_sensor : Part.t :=
  Part.mk "Sensor" " DHT22" (sample_zero_range "V") (sample_zero_range "A") 3 "".

(** A part that violates several invariants: a blank category, no name,
    no quantity, a negative current bound. *)
Definition sample_broken_part : Part.t :=
  Part.mk "  " "" (sample_zero_range "V")
    (RangeSpec.mk (PyFloat.of_Z 1) (PyFloat.of_Z (-1)) "A") 0 "".

(** A part with two NaN as voltage bounds and a negative current bound. *)
Definition sample_nan_negative : Part.t :=
  Part.mk "Sensor" "DHT22" (RangeSpec.mk S754_nan S754_nan "V")
    (RangeSpec.mk (PyFloat.of_Z 1) (PyFloat.of_Z (-1)) "A") 1 "".

Definition sample_sensor_record (qty id : Z) : json :=
  JDict [("category", JStr "Sensor"); ("name", JStr "DHT22");
         ("voltage", JDict [("min", JFloat PyFloat.zero);
                            ("max", JFloat PyFloat.zero); ("unit", JStr "V")]);
         ("current", JDict [("min", JFloat PyFloat.zero);
                            ("max", JFloat PyFloat.zero); ("unit", JStr "A")]);
         ("quantity", JInt qty); ("notes", JStr ""); ("id", JInt id)].

(** The sign of a float is not set (a NaN has none). *)
Definition sign_clear (x : PyFloat.float) : bool :=
  match x with
  | S754_zero s | S754_infinity s | S754_finite s _ _ => negb s
  | S754_nan => true
  end.

(** The text [parse_range] works on: stripped, lower-cased, spaces removed. *)
Definition squeezed (text : string) : string :=
  PyStr.remove_char " " (PyStr.lower (PyStr.strip text)).

(* ================================================================== *)
(** * UI helpers *)

(** ** The console

    [input] takes the next line of the standard input and raises EOFError
    when there is none; the lines are what the user will type.  What is
    written is recorded as a list of events: a prompt by its label, a
    fixed line by its text, the complaint of [prompt_range] by its label
    and the exception it reports. *)
Inductive echo :=
| Asked (text : string)
| Told (line : string)
| Invalid (label : string) (e : exn).

Record console := { stdin : list string; stdout : list echo }.

Inductive io_result (A : Type) :=
| Done (a : A) (c : console)
| Failed (e : exn)
| Eof.
Arguments Done {A} a c.
Arguments Failed {A} e.
Arguments Eof {A}.

Definition io (A : Type) : Type := console -> io_result A.

Definition io_bind {A B : Type} (m : io A) (k : A -> io B) : io B :=
  fun c =>
    match m c with
    | Done a c' => k a c'
    | Failed e => Failed e
    | Eof => Eof
    end.

Definition io_ret {A : Type} (a : A) : io A := fun c => Done a c.

Definition io_lift {A : Type} (r : result A) : io A :=
  fun c =>
    match r with
    | Ok a => Done a c
    | Raise e => Failed e
    end.

Notation "x <~ m ;; k" := (io_bind m (fun x => k))
  (at level 61, m at next level, right associativity).

(** [str(n)] for an integer. *)
Definition str_of_Z (n : Z) : string :=
  if n <? 0 then String "-" (PyStr.digits_of (- n)) else PyStr.digits_of n.

(** [prompt]: the stripped line, or the default when the line is blank and
    a default is given.  [entered] says how the typed text stands among
    the values a default may be. *)
Definition prompt {A : Type} (entered : string -> A) (text : string)
  (default : option A) : io A :=
  fun c =>
    match stdin c with
    | [] => Eof
    | line :: rest =>
        let v := PyStr.strip line in
        let c' := {| stdin := rest; stdout := stdout c ++ [Asked text] |} in
        match default with
        | None => Done (entered v) c'
        | Some d => Done (if PyStr.is_empty v then d else entered v) c'
        end
    end.

(** The loop of [prompt_int]; each turn reads one line. *)
Fixpoint prompt_int_loop (text : string) (default : Z) (lines : list string)
  (out : list echo) : io_result Z :=
  match lines with
  | [] => Eof
  | _ :: rest =>
      match prompt (fun s => s) text (Some (str_of_Z default))
              {| stdin := lines; stdout := out |} with
      | Done raw c =>
          match int_of_string raw with
          | Ok n =>
              if n <=? 0 then
                prompt_int_loop text default rest
                  (stdout c ++ [Told "Enter a positive integer."])
              else Done n c
          | Raise _ =>
              prompt_int_loop text default rest
                (stdout c ++ [Told "Enter a valid integer."])
          end
      | Failed e => Failed e
      | Eof => Eof
      end
  end.

Definition prompt_int (text : string) (default : Z) : io Z :=
  fun c => prompt_int_loop text default (stdin c) (stdout c).

(** [parse_range] with the unit [prompt] hands over, which is the default
    as it stands when the line is blank: [strip] is called on the text
    first and on the unit after the test for an empty text. *)
Definition parse_range_dyn (text : string) (unit : json) : result RangeSpec.t :=
  match unit with
  | JStr u => parse_range text u
  | _ =>
      if PyStr.is_empty (squeezed text) then Raise (ValueError "range is empty")
      else Raise (Builtin EAttribute)
  end.

(** The loop of [prompt_range]; each turn reads two lines. *)
Fixpoint prompt_range_loop (label def_range : string) (def_unit : json)
  (lines : list string) (out : list echo) : io_result RangeSpec.t :=
  match lines with
  | _ :: _ :: rest =>
      match
        (r <~ prompt (fun s => s) (label ++ " range (e.g. 1-24)")
                (Some def_range) ;;
         u <~ prompt JStr (label ++ " unit (e.g. V, mA, A)") (Some def_unit) ;;
         io_ret (r, u)) {| stdin := lines; stdout := out |}
      with
      | Done (r, u) c =>
          match parse_range_dyn r u with
          | Ok x => Done x c
          | Raise e =>
              prompt_range_loop label def_range def_unit rest
                (stdout c ++ [Invalid (PyStr.lower label) e])
          end
      | Failed e => Failed e
      | Eof => Eof
      end
  | _ => Eof
  end.

Definition prompt_range (label def_range : string) (def_unit : json)
  : io RangeSpec.t :=
  fun c => prompt_range_loop label def_range def_unit (stdin c) (stdout c).

(** [Part(category, name, ...)] with what the prompts returned, validated:
    [normalized] calls [strip] on the category and the name, which only a
    string has. *)
Definition validate_entered (category name : json)
  (voltage current : RangeSpec.t) (qty : Z) (notes : string) : result Part.t :=
  match str_value category, str_value name with
  | Some c, Some n => validate_part (Part.mk c n voltage current qty notes)
  | _, _ => Raise (Builtin EAttribute)
  end.

(** The default range text of [action_edit] for a stored range: the [g]
    format raises on a bound that is no number. *)
Definition dyn_range_default (r : DynRange) : result string :=
  match num_value (dmin r), num_value (dmax r) with
  | Some lo, Some hi => Ok (range_default (RangeSpec.mk lo hi ""))
  | _, _ => Raise (Builtin EType)
  end.

(** [d.update(src)] *)
Definition dict_update (src dst : list (string * json)) : list (string * json) :=
  fold_left (fun acc kv => dict_set (fst kv) (snd kv) acc) src dst.

Definition py_update (d src : json) : result json :=
  match d, src with
  | JDict dst, JDict kv => Ok (JDict (dict_update kv dst))
  | _, _ => Raise (Builtin EType)
  end.

(** What [action_edit] leaves: the records, whether it saved them, and
    whether it printed Updated (or else Not found). *)
Record edit_outcome := {
  edit_parts : list json;
  edit_saved : bool;
  edit_updated : bool
}.

Section Prompted.

Variable py_str : json -> string.

(** [action_add] as the command loop calls it: the prompts, then the add. *)
Definition action_add_prompted (parts : list json) : io outcome :=
  category <~ prompt (fun s => s) "Category (Power/Sensor/Conductor/etc)" None ;;
  name <~ prompt (fun s => s) "Name" None ;;
  voltage <~ prompt_range "Voltage" "1-24" (JStr "V") ;;
  current <~ prompt_range "Current" "0-1" (JStr "A") ;;
  qty <~ prompt_int "Quantity" 1 ;;
  notes <~ prompt (fun s => s) "Notes (optional)" (Some "") ;;
  io_lift (action_add py_str (Part.mk category name voltage current qty notes)
             parts).

Fixpoint action_edit (parts : list json) (id_ : Z) : io edit_outcome :=
  match parts with
  | [] =>
      io_ret {| edit_parts := []; edit_saved := false; edit_updated := false |}
  | d :: rest =>
      n <~ io_lift (record_id (-1) d) ;;
      if n =? id_ then
        p <~ io_lift (part_from_dict py_str d) ;;
        category <~ prompt JStr "Category" (Some (dcategory p)) ;;
        name <~ prompt JStr "Name" (Some (dname p)) ;;
        v_def <~ io_lift (dyn_range_default (dvoltage p)) ;;
        i_def <~ io_lift (dyn_range_default (dcurrent p)) ;;
        voltage <~ prompt_range "Voltage" v_def (dunit (dvoltage p)) ;;
        current <~ prompt_range "Current" i_def (dunit (dcurrent p)) ;;
        qty <~ prompt_int "Quantity" (dquantity p) ;;
        notes <~ prompt (fun s => s) "Notes" (Some (dnotes p)) ;;
        updated <~ io_lift (validate_entered category name voltage current
                              qty notes) ;;
        d' <~ io_lift (py_update d (part_to_dict updated)) ;;
        io_ret {| edit_parts := d' :: rest; edit_saved := true;
                  edit_updated := true |}
      else
        o <~ action_edit rest id_ ;;
        io_ret {| edit_parts := d :: edit_parts o; edit_saved := edit_saved o;
                  edit_updated := edit_updated o |}
  end.

End Prompted.

(** What [prompt] returns for a line when it has a default. *)
Definition answered {A : Type} (entered : string -> A) (default : A)
  (line : string) : A :=
  if PyStr.is_empty (PyStr.strip line) then default
  else entered (PyStr.strip line).

(** The fields [part_to_dict] writes. *)
Definition part_keys : list string :=
  ["category"; "name"; "voltage"; "current"; "quantity"; "notes"].

(** ** Tables and searching *)

(** [" ".join(cells)] and the like. *)
Fixpoint join (sep : string) (cells : list string) : string :=
  match cells with
  | [] => ""
  | [x] => x
  | x :: rest => x ++ sep ++ join sep rest
  end.

(** [s.ljust(w)] *)
Definition ljust (s : string) (w : nat) : string :=
  s ++ PyStr.repeat_char " " (w - String.length s).

(** One more row in front of columns: the shorter side decides how many
    columns there are. *)
Fixpoint zip_cons {A : Type} (r : list A) (cols : list (list A))
  : list (list A) :=
  match r, cols with
  | x :: r', col :: cols' => (x :: col) :: zip_cons r' cols'
  | _, _ => []
  end.

(** [zip] applied to the rows: their columns, as many as the shortest row
    has cells. *)
Fixpoint columns {A : Type} (rows : list (list A)) : list (list A) :=
  match rows with
  | [] => []
  | r :: rest =>
      match rest with
      | [] => map (fun x => [x]) r
      | _ => zip_cons r (columns rest)
      end
  end.

(** [max] of a column of lengths. *)
Definition list_max (l : list nat) : nat := fold_right Nat.max 0%nat l.

(** [k in s] for strings. *)
Fixpoint starts_with (k s : string) : bool :=
  match k, s with
  | EmptyString, _ => true
  | String a k', String b s' => Ascii.eqb a b && starts_with k' s'
  | String _ _, EmptyString => false
  end.

Fixpoint is_infix (k s : string) : bool :=
  starts_with k s
  || match s with
     | EmptyString => false
     | String _ r => is_infix k r
     end.

(** The flags of [search] in the command loop: [--cat] followed by a token
    sets the category, every other token is a keyword. *)
Fixpoint parse_search (args : list string) (category : option string)
  (keywords : list string) : option string * list string :=
  match args with
  | [] => (category, keywords)
  | a :: rest =>
      match rest with
      | c :: rest' =>
          if String.eqb a "--cat" then parse_search rest' (Some c) keywords
          else parse_search rest category (keywords ++ [a])%list
      | [] => (category, (keywords ++ [a])%list)
      end
  end.

Section Tables.

Variable py_str : json -> string.

(** [str(cell)]: a string is itself. *)
Definition str_of (v : json) : string :=
  match v with
  | JStr s => s
  | _ => py_str v
  end.

Definition cell_width (cell : json) : nat := String.length (str_of cell).

Definition widths (rows : list (list json)) : list nat :=
  map (fun col => list_max (map cell_width col)) (columns rows).

(** The cells of a row, each filled up to the width of its column; [None]
    is the IndexError of a row with more cells than there are widths. *)
Fixpoint pad_cells (ws : list nat) (row : list json) : option (list string) :=
  match row with
  | [] => Some []
  | cell :: r =>
      match ws with
      | [] => None
      | w :: ws' =>
          match pad_cells ws' r with
          | Some cells => Some (ljust (str_of cell) w :: cells)
          | None => None
          end
      end
  end.

Fixpoint pad_rows (ws : list nat) (rows : list (list json))
  : option (list string) :=
  match rows with
  | [] => Some []
  | row :: rest =>
      match pad_cells ws row, pad_rows ws rest with
      | Some cells, Some lines => Some (join "  " cells :: lines)
      | _, _ => None
      end
  end.

Definition rule (ws : list nat) : string :=
  join "  " (map (fun w => PyStr.repeat_char "-" w) ws).

(** [print_table]: the lines it prints, the rule after the first; [None]
    when it ends in an IndexError. *)
Definition print_table (rows : list (list json)) : option (list string) :=
  match rows with
  | [] => Some ["(no results)"]
  | first :: rest =>
      let ws := widths rows in
      match pad_cells ws first, pad_rows ws rest with
      | Some cells, Some lines => Some (join "  " cells :: rule ws :: lines)
      | _, _ => None
      end
  end.

Definition table_header : list json :=
  [JStr "ID"; JStr "Category"; JStr "Name"; JStr "Voltage"; JStr "Current";
   JStr "Qty"].

(** The haystack of [matches_keywords]. *)
Definition haystack (p : DynPart) : result string :=
  v <- dyn_fmt (dvoltage p) ;;
  c <- dyn_fmt (dcurrent p) ;;
  Ok (PyStr.lower (str_of (dcategory p) ++ " " ++ str_of (dname p) ++ " "
                   ++ dnotes p ++ " " ++ v ++ " " ++ c)).

Definition matches_keywords (p : DynPart) (keywords : list string)
  : result bool :=
  hay <- haystack p ;;
  Ok (forallb (fun k => is_infix (PyStr.lower k) hay) keywords).

(** [category and p.category.lower() != category.lower()] *)
Definition other_category (category : option string) (p : DynPart)
  : result bool :=
  match category with
  | None => Ok false
  | Some c =>
      if PyStr.is_empty c then Ok false
      else
        match str_value (dcategory p) with
        | Some pc => Ok (negb (String.eqb (PyStr.lower pc) (PyStr.lower c)))
        | None => Raise (Builtin EAttribute)
        end
  end.

(** The row of a record in the tables. *)
Definition table_row (d : json) (p : DynPart) : result (list json) :=
  i <- py_get d "id" (JStr "") ;;
  v <- dyn_fmt (dvoltage p) ;;
  c <- dyn_fmt (dcurrent p) ;;
  Ok [JStr (str_of i); dcategory p; dname p; JStr v; JStr c;
      JStr (str_of_Z (dquantity p))].

Fixpoint list_rows (category : option string) (parts : list json)
  : result (list (list json)) :=
  match parts with
  | [] => Ok []
  | d :: rest =>
      match part_from_dict py_str d with
      | Raise _ => list_rows category rest
      | Ok p =>
          skip <- other_category category p ;;
          if skip then list_rows category rest
          else
            row <- table_row d p ;;
            rows <- list_rows category rest ;;
            Ok (row :: rows)
      end
  end.

Definition action_list (parts : list json) (category : option string)
  : result (option (list string)) :=
  rows <- list_rows category parts ;;
  Ok (print_table (table_header :: rows)).

Fixpoint search_rows (keywords : list string) (category : option string)
  (parts : list json) : result (list (list json)) :=
  match parts with
  | [] => Ok []
  | d :: rest =>
      match part_from_dict py_str d with
      | Raise _ => search_rows keywords category rest
      | Ok p =>
          skip <- other_category category p ;;
          if skip then search_rows keywords category rest
          else
            found <- matches_keywords p keywords ;;
            if found then
              row <- table_row d p ;;
              rows <- search_rows keywords category rest ;;
              Ok (row :: rows)
            else search_rows keywords category rest
      end
  end.

Definition action_search (parts : list json) (keywords : list string)
  (category : option string) : result (option (list string)) :=
  rows <- search_rows keywords category parts ;;
  Ok (print_table (table_header :: rows)).

End Tables.

(** The larger of two widths, column by column. *)
Fixpoint zip_max (a b : list nat) : list nat :=
  match a, b with
  | x :: a', y :: b' => Nat.max x y :: zip_max a' b'
  | _, _ => []
  end.

(** [part_from_dict] accepts the record. *)
Definition decodes (py_str : json -> string) (d : json) : bool :=
  match part_from_dict py_str d with
  | Ok _ => true
  | Raise _ => false
  end.

(** [str] on the values the samples hold. *)
Definition sample_show (v : json) : string :=
  match v with
  | JStr s => s
  | JInt n => str_of_Z n
  | JNull => "None"
  | JBool true => "True"
  | JBool false => "False"
  | _ => ""
  end.

(** The answers of one edit: a new category, six lines left blank, a
    quantity and a note. *)
Definition sample_answers : console :=
  {| stdin := ["Capacitor"; ""; ""; ""; ""; ""; "7"; "spare"]; stdout := [] |}.

Definition sample_stock : list json :=
  [sample_record (JInt 1) 5; JStr "scrap"; sample_sensor_record 3 2].

(** The same float, field by field. *)
Definition same_float (a b : PyFloat.float) : bool :=
  match a, b with
  | S754_zero s, S754_zero t => Bool.eqb s t
  | S754_infinity s, S754_infinity t => Bool.eqb s t
  | S754_nan, S754_nan => true
  | S754_finite s m e, S754_finite t m' e' =>
      Bool.eqb s t && Pos.eqb m m' && Z.eqb e e'
  | _, _ => false
  end.

(** The [g] format prints the bound without a minus sign and [float] reads
    the bound back from the print. *)
Definition prints_back (x : PyFloat.float) : bool :=
  negb (PyStr.contains "-" (PyFloat.fmt_g x))
  && match PyFloat.of_string (PyFloat.fmt_g x) with
     | Some y => same_float y x
     | None => false
     end.

(** A range as [parse_range] returns them for a text of at most six
    digits a bound: a unit that is stripped and not empty, bounds that
    print back. *)
Definition entered_range (r : RangeSpec.t) : bool :=
  prints_back (RangeSpec.min r) && prints_back (RangeSpec.max r)
  && negb (PyStr.is_empty (RangeSpec.unit r))
  && String.eqb (PyStr.strip (RangeSpec.unit r)) (RangeSpec.unit r).

(** The line is blank: [prompt] answers with its default. *)
Definition blank (line : string) : bool := PyStr.is_empty (PyStr.strip line).

Definition sample_supply : Part.t :=
  Part.mk "Power" "Buck converter"
    (RangeSpec.mk (PyFloat.of_decimal false 33 (-1)) (PyFloat.of_Z 5) "V")
    (RangeSpec.mk PyFloat.zero (PyFloat.of_decimal false 15 (-1)) "A")
    2 "bench".

Definition sample_supply_record : json :=
  match py_setitem (part_to_dict sample_supply) "id" (JInt 1) with
  | Ok d => d
  | Raise _ => JNull
  end.

(** Every cell of the row is at most as wide as its column. *)
Definition fits (py_str : json -> string) (ws : list nat) (row : list json)
  : Prop :=
  Forall2 (fun w cell => (cell_width py_str cell <= w)%nat) ws row.

(* ================================================================== *)
(** * Theorems *)

(** ** Text *)

Section StripFacts.

Variable p : ascii -> bool.

Lemma head_drop_while (s : string) :
  PyStr.head_is p (PyStr.drop_while p s) = false.
Proof.
  induction s as [|c r IH]; simpl; [reflexivity|].
  destruct (p c) eqn:E; [exact IH | simpl; exact E].
Qed.

Lemma drop_while_fixed (s : string) :
  PyStr.head_is p s = false -> PyStr.drop_while p s = s.
Proof.
  destruct s as [|c r]; simpl; [reflexivity|].
  intros ->. reflexivity.
Qed.

Lemma head_drop_end (s : string) :
  PyStr.head_is p s = false -> PyStr.head_is p (PyStr.drop_end p s) = false.
Proof.
  destruct s as [|c r]; simpl; [reflexivity|].
  intros E. rewrite E. simpl. exact E.
Qed.

Lemma drop_end_idem (s : string) :
  PyStr.drop_end p (PyStr.drop_end p s) = PyStr.drop_end p s.
Proof.
  induction s as [|c r IH]; simpl; [reflexivity|].
  destruct (p c && PyStr.is_empty (PyStr.drop_end p r)) eqn:E;
    [reflexivity|].
  simpl. rewrite IH, E. reflexivity.
Qed.

Lemma last_drop_end (s : string) :
  PyStr.last_is p (PyStr.drop_end p s) = false.
Proof.
  induction s as [|c r IH]; simpl; [reflexivity|].
  destruct (p c && PyStr.is_empty (PyStr.drop_end p r)) eqn:E;
    [reflexivity|].
  destruct (PyStr.drop_end p r) as [|c' r'] eqn:D.
  - simpl in *. rewrite andb_true_r in E. exact E.
  - exact IH.
Qed.

Lemma strip_with_idem (s : string) :
  PyStr.strip_with p (PyStr.strip_with p s) = PyStr.strip_with p s.
Proof.
  unfold PyStr.strip_with.
  rewrite (drop_while_fixed (PyStr.drop_end p (PyStr.drop_while p s))).
  - apply drop_end_idem.
  - apply head_drop_end, head_drop_while.
Qed.

End StripFacts.

Lemma strip_idem (s : string) : PyStr.strip (PyStr.strip s) = PyStr.strip s.
Proof. apply strip_with_idem. Qed.

Lemma strip_trimmed (s : string) : PyStr.trimmed (PyStr.strip s) = true.
Proof.
  unfold PyStr.trimmed, PyStr.strip, PyStr.strip_with.
  rewrite head_drop_end by apply head_drop_while.
  rewrite last_drop_end. reflexivity.
Qed.

(** ** Float comparison *)

Lemma compare_cont_antisym (a b : positive) (c : comparison) :
  Pos.compare_cont (CompOpp c) b a = CompOpp (Pos.compare_cont c a b).
Proof.
  revert b c. induction a as [a IH|a IH|]; intros [b|b|] c; simpl;
    try reflexivity; try apply IH; try (apply (IH b Lt)); try (apply (IH b Gt)).
Qed.

Lemma SFcompare_antisym (a b : spec_float) :
  SFcompare b a = option_map CompOpp (SFcompare a b).
Proof.
  destruct a as [sa|sa| |sa ma ea], b as [sb|sb| |sb mb eb]; simpl;
    try reflexivity;
    try (destruct sa; reflexivity); try (destruct sb; reflexivity);
    try (destruct sa, sb; reflexivity).
  destruct sa, sb; simpl; try reflexivity;
    rewrite (Z.compare_antisym ea eb);
    destruct (ea ?= eb); simpl; try reflexivity;
    rewrite <- (compare_cont_antisym ma mb Eq); simpl;
    destruct (Pos.compare_cont Eq mb ma); reflexivity.
Qed.

Lemma SFcompare_some (a b : spec_float) :
  PyFloat.is_nan a = false -> PyFloat.is_nan b = false ->
  exists c, SFcompare a b = Some c.
Proof.
  destruct a, b; simpl; intros; try discriminate; eauto.
Qed.

(** Among numbers, when [a <= b] fails, [b <= a] holds. *)
Lemma leb_total (a b : PyFloat.float) :
  PyFloat.is_nan a = false -> PyFloat.is_nan b = false ->
  PyFloat.leb a b = false -> PyFloat.leb b a = true.
Proof.
  intros Ha Hb. unfold PyFloat.leb, SFleb.
  rewrite (SFcompare_antisym a b).
  destruct (SFcompare_some a b Ha Hb) as [c ->]. simpl.
  destruct c; simpl; congruence.
Qed.

(** ** RangeSpec *)

Lemma normalized_ordered (r : RangeSpec.t) :
  PyFloat.is_nan (RangeSpec.min r) = false ->
  PyFloat.is_nan (RangeSpec.max r) = false ->
  PyFloat.leb (RangeSpec.min (RangeSpec.normalized r))
              (RangeSpec.max (RangeSpec.normalized r)) = true.
Proof.
  intros Hlo Hhi. unfold RangeSpec.normalized.
  destruct (PyFloat.leb (RangeSpec.min r) (RangeSpec.max r)) eqn:E; simpl.
  - exact E.
  - apply leb_total; assumption.
Qed.

Lemma normalized_idem (r : RangeSpec.t) :
  PyFloat.is_nan (RangeSpec.min r) = false ->
  PyFloat.is_nan (RangeSpec.max r) = false ->
  RangeSpec.normalized (RangeSpec.normalized r) = RangeSpec.normalized r.
Proof.
  intros Hlo Hhi.
  pose proof (normalized_ordered r Hlo Hhi) as Hord.
  unfold RangeSpec.normalized in *.
  destruct (PyFloat.leb (RangeSpec.min r) (RangeSpec.max r)); simpl in *;
    rewrite Hord, strip_idem; reflexivity.
Qed.

Lemma normalized_not_nan (r : RangeSpec.t) :
  PyFloat.is_nan (RangeSpec.min r) = false ->
  PyFloat.is_nan (RangeSpec.max r) = false ->
  PyFloat.is_nan (RangeSpec.min (RangeSpec.normalized r)) = false
  /\ PyFloat.is_nan (RangeSpec.max (RangeSpec.normalized r)) = false.
Proof.
  intros Hlo Hhi. unfold RangeSpec.normalized.
  destruct (PyFloat.leb (RangeSpec.min r) (RangeSpec.max r)); simpl; auto.
Qed.

(** C9, as amended.  For every RangeSpec whose bounds are numbers (neither
    is a NaN), normalization is idempotent, and the normalized range has
    [min <= max] and a unit without leading or trailing whitespace. *)
Theorem normalized_idempotent_ordered_trimmed (r : RangeSpec.t) :
  PyFloat.is_nan (RangeSpec.min r) = false ->
  PyFloat.is_nan (RangeSpec.max r) = false ->
  RangeSpec.normalized (RangeSpec.normalized r) = RangeSpec.normalized r
  /\ PyFloat.leb (RangeSpec.min (RangeSpec.normalized r))
                 (RangeSpec.max (RangeSpec.normalized r)) = true
  /\ PyStr.trimmed (RangeSpec.unit (RangeSpec.normalized r)) = true.
Proof.
  intros Hlo Hhi. split; [|split].
  - apply normalized_idem; assumption.
  - apply normalized_ordered; assumption.
  - unfold RangeSpec.normalized.
    destruct (PyFloat.leb (RangeSpec.min r) (RangeSpec.max r)); simpl;
      apply strip_trimmed.
Qed.

Lemma normalized_idempotent_ordered_trimmed_witness :
  RangeSpec.normalized (RangeSpec.normalized sample_span_range)
  = RangeSpec.normalized sample_span_range
  /\ PyFloat.leb (RangeSpec.min (RangeSpec.normalized sample_span_range))
                 (RangeSpec.max (RangeSpec.normalized sample_span_range)) = true
  /\ PyStr.trimmed (RangeSpec.unit (RangeSpec.normalized sample_span_range))
     = true.
Proof.
  apply (normalized_idempotent_ordered_trimmed sample_span_range);
    reflexivity.
Defined.

(** C9 fails as stated: with a NaN lower bound and upper bound 1, the first
    normalization gives (1, nan) and the second (nan, 1); the two are
    different, also under the dataclass [==], and (1, nan) is not ordered. *)
Lemma normalized_nan_not_idempotent :
  RangeSpec.normalized sample_nan_range
    = RangeSpec.mk (PyFloat.of_Z 1) S754_nan "V"
  /\ RangeSpec.normalized (RangeSpec.normalized sample_nan_range)
    = RangeSpec.mk S754_nan (PyFloat.of_Z 1) "V"
  /\ RangeSpec.normalized (RangeSpec.normalized sample_nan_range)
     <> RangeSpec.normalized sample_nan_range
  /\ RangeSpec.eqb (RangeSpec.normalized (RangeSpec.normalized sample_nan_range))
                   (RangeSpec.normalized sample_nan_range) = false
  /\ PyFloat.leb (RangeSpec.min (RangeSpec.normalized sample_nan_range))
                 (RangeSpec.max (RangeSpec.normalized sample_nan_range)) = false.
Proof.
  repeat split; try reflexivity. vm_compute. discriminate.
Qed.

(** The unit of a normalized range is trimmed whatever the bounds are. *)
Lemma normalized_unit_trimmed (r : RangeSpec.t) :
  PyStr.trimmed (RangeSpec.unit (RangeSpec.normalized r)) = true.
Proof.
  unfold RangeSpec.normalized.
  destruct (PyFloat.leb (RangeSpec.min r) (RangeSpec.max r)); simpl;
    apply strip_trimmed.
Qed.

Lemma lower_length (s : string) :
  String.length (PyStr.lower s) = String.length s.
Proof. induction s; simpl; congruence. Qed.

Lemma append_length (a b : string) :
  String.length (a ++ b) = (String.length a + String.length b)%nat.
Proof. induction a; simpl; congruence. Qed.

(** C3, as amended.  For every RangeSpec, the key is the lower-cased text
    [<min>-<max><unit>] of the normalized range, in all cases; it is the
    lower-cased display form exactly when the normalized bounds differ
    (under float [==]).  When they are equal the display form is the single
    value [<value><unit>] and the key still holds both bounds. *)
Theorem key_is_lowered_fmt_iff_bounds_differ (r : RangeSpec.t) :
  RangeSpec.key r
  = PyStr.lower (PyFloat.fmt_g (RangeSpec.min (RangeSpec.normalized r)) ++ "-"
                 ++ PyFloat.fmt_g (RangeSpec.max (RangeSpec.normalized r))
                 ++ RangeSpec.unit (RangeSpec.normalized r))
  /\ (RangeSpec.key r = PyStr.lower (RangeSpec.fmt r)
      <-> PyFloat.eqb (RangeSpec.min (RangeSpec.normalized r))
                      (RangeSpec.max (RangeSpec.normalized r)) = false).
Proof.
  split; [reflexivity|].
  unfold RangeSpec.key, RangeSpec.fmt.
  destruct (PyFloat.eqb (RangeSpec.min (RangeSpec.normalized r))
                        (RangeSpec.max (RangeSpec.normalized r))).
  - split; [|discriminate]. intros H.
    apply (f_equal String.length) in H.
    rewrite !lower_length in H.
    repeat (rewrite append_length in H || simpl in H). lia.
  - split; reflexivity.
Qed.

(** C3 fails as stated: the range 5..5 V is displayed as 5V, and its key is
    5-5v, not 5v. *)
Lemma key_of_point_range_is_not_lowered_fmt :
  RangeSpec.fmt sample_point_range = "5V"
  /\ RangeSpec.key sample_point_range = "5-5v"
  /\ RangeSpec.key sample_point_range
     <> PyStr.lower (RangeSpec.fmt sample_point_range).
Proof.
  repeat split; try reflexivity. vm_compute. discriminate.
Qed.

(** ** Part *)

Lemma part_normalized_idem (p : Part.t) :
  PyFloat.is_nan (RangeSpec.min (Part.voltage p)) = false ->
  PyFloat.is_nan (RangeSpec.max (Part.voltage p)) = false ->
  PyFloat.is_nan (RangeSpec.min (Part.current p)) = false ->
  PyFloat.is_nan (RangeSpec.max (Part.current p)) = false ->
  Part.normalized (Part.normalized p) = Part.normalized p.
Proof.
  intros V1 V2 I1 I2. unfold Part.normalized. simpl.
  rewrite !strip_idem, !normalized_idem by assumption. reflexivity.
Qed.




(** ** Validation *)

Lemma is_empty_eqb (s : string) : PyStr.is_empty s = String.eqb s "".
Proof. destruct s; reflexivity. Qed.

(** Among numbers, [x < 0] is the negation of [0 <= x]. *)
Lemma ltb_zero_leb (x : PyFloat.float) :
  PyFloat.is_nan x = false ->
  PyFloat.ltb x PyFloat.zero = negb (PyFloat.leb PyFloat.zero x).
Proof.
  destruct x as [[]|[]| |[] m e]; try discriminate; intros _; reflexivity.
Qed.

(** On a range whose bounds are numbers, the test of the code on the
    normalized range is the negation of the invariant of the
    specification. *)
Lemma range_check_invariant (r : RangeSpec.t) :
  not_nan_range r = true ->
  PyFloat.ltb (RangeSpec.min (RangeSpec.normalized r)) PyFloat.zero
  || PyFloat.ltb (RangeSpec.max (RangeSpec.normalized r)) PyFloat.zero
  = negb (non_negative r).
Proof.
  unfold not_nan_range, non_negative. intros H.
  apply andb_true_iff in H. destruct H as [Hlo Hhi].
  apply negb_true_iff in Hlo, Hhi.
  unfold RangeSpec.normalized.
  destruct (PyFloat.leb (RangeSpec.min r) (RangeSpec.max r));
    cbn [RangeSpec.min RangeSpec.max];
    rewrite (ltb_zero_leb _ Hlo), (ltb_zero_leb _ Hhi);
    destruct (PyFloat.leb PyFloat.zero (RangeSpec.min r)),
             (PyFloat.leb PyFloat.zero (RangeSpec.max r)); reflexivity.
Qed.

Lemma non_negative_normalized (r : RangeSpec.t) :
  non_negative (RangeSpec.normalized r) = non_negative r.
Proof.
  unfold non_negative, RangeSpec.normalized.
  destruct (PyFloat.leb (RangeSpec.min r) (RangeSpec.max r));
    cbn [RangeSpec.min RangeSpec.max]; [reflexivity | apply andb_comm].
Qed.

(** The normalized part satisfies the invariants the part satisfies. *)
Lemma invariant_holds_normalized (p : Part.t) (f : field) :
  invariant_holds (Part.normalized p) f = invariant_holds p f.
Proof.
  destruct f; cbn [invariant_holds Part.normalized Part.category Part.name
                   Part.quantity Part.voltage Part.current];
    rewrite ?strip_idem, ?non_negative_normalized; reflexivity.
Qed.

(** C8, as amended.  For every Part whose voltage and current bounds are
    numbers (none is a NaN), [validate_part] raises on the first violated
    invariant of the specification in the order category, name, quantity,
    voltage, current, with a ValueError whose message begins with the name
    of that field.  When the part violates none, it returns the normalized
    part: the category, the name and the notes stripped, the quantity as
    it was, each range with [min <= max]; that part violates none
    either. *)
Theorem validate_part_first_violated_invariant (p : Part.t) :
  not_nan_part p = true ->
  match first_violated p with
  | Some f =>
      exists msg, validate_part p = Raise (ValueError msg)
                  /\ String.prefix (field_name f) msg = true
  | None =>
      exists q,
        validate_part p = Ok q
        /\ q = Part.normalized p
        /\ first_violated q = None
        /\ Part.category q = PyStr.strip (Part.category p)
        /\ Part.name q = PyStr.strip (Part.name p)
        /\ Part.notes q = PyStr.strip (Part.notes p)
        /\ Part.quantity q = Part.quantity p
        /\ PyFloat.leb (RangeSpec.min (Part.voltage q))
                       (RangeSpec.max (Part.voltage q)) = true
        /\ PyFloat.leb (RangeSpec.min (Part.current q))
                       (RangeSpec.max (Part.current q)) = true
  end.
Proof.
  intros Hn. unfold not_nan_part in Hn. apply andb_true_iff in Hn.
  destruct Hn as [Hv Hi].
  assert (Same : first_violated (Part.normalized p) = first_violated p).
  { unfold first_violated, check_order. cbn [find].
    rewrite !invariant_holds_normalized. reflexivity. }
  revert Same.
  unfold first_violated at 2 3, check_order, validate_part.
  cbn [find invariant_holds Part.normalized Part.category Part.name
       Part.quantity Part.voltage Part.current].
  rewrite (range_check_invariant _ Hv), (range_check_invariant _ Hi).
  destruct (PyStr.is_empty (PyStr.strip (Part.category p))); cbn [negb].
  { intros _. eexists. split; reflexivity. }
  destruct (PyStr.is_empty (PyStr.strip (Part.name p))); cbn [negb].
  { intros _. eexists. split; reflexivity. }
  assert (Q : (Part.quantity p <=? 0) = negb (1 <=? Part.quantity p)).
  { destruct (1 <=? Part.quantity p) eqn:E; cbn [negb].
    - apply Z.leb_gt. apply Z.leb_le in E. lia.
    - apply Z.leb_le. apply Z.leb_gt in E. lia. }
  rewrite Q. destruct (1 <=? Part.quantity p); cbn [negb].
  2:{ intros _. eexists. split; reflexivity. }
  destruct (non_negative (Part.voltage p)); cbn [negb].
  2:{ intros _. eexists. split; reflexivity. }
  destruct (non_negative (Part.current p)); cbn [negb].
  2:{ intros _. eexists. split; reflexivity. }
  intros Same. eexists. split; [reflexivity|]. split; [reflexivity|].
  split; [exact Same|].
  unfold not_nan_range in Hv, Hi.
  apply andb_true_iff in Hv, Hi. destruct Hv as [V1 V2], Hi as [I1 I2].
  apply negb_true_iff in V1, V2, I1, I2.
  repeat split; apply normalized_ordered; assumption.
Qed.

Lemma validate_part_first_violated_invariant_witness :
  not_nan_part sample_broken_part = true
  /\ first_violated sample_broken_part = Some FCategory
  /\ exists msg, validate_part sample_broken_part = Raise (ValueError msg)
                 /\ String.prefix (field_name FCategory) msg = true.
Proof.
  split; [reflexivity|]. split; [reflexivity|].
  exact (validate_part_first_violated_invariant sample_broken_part eq_refl).
Defined.

(** C8 fails as stated.  With two NaN as voltage bounds and a negative
    current bound, the part violates the voltage invariant and the current
    invariant of the specification, so the first violated check is the one
    of the voltage; [validate_part] raises on the current, with a message
    that does not name the voltage: its tests are [bound < 0], and a NaN
    is not below zero. *)
Lemma validate_part_nan_voltage_reports_current :
  invariant_holds sample_nan_negative FVoltage = false
  /\ invariant_holds sample_nan_negative FCurrent = false
  /\ first_violated sample_nan_negative = Some FVoltage
  /\ validate_part sample_nan_negative
     = Raise (ValueError "current cannot be negative")
  /\ String.prefix (field_name FVoltage) "current cannot be negative" = false.
Proof. repeat split; reflexivity. Qed.

(** With a NaN bound alone, the voltage invariant of the specification is
    violated and [validate_part] returns all the same. *)
Lemma validate_part_accepts_nan :
  first_violated sample_nan_part = Some FVoltage
  /\ validate_part sample_nan_part = Ok (Part.normalized sample_nan_part).
Proof. split; reflexivity. Qed.

(** ** Loading *)

Lemma dict_get_set_same (k : string) (v : json) (d : list (string * json)) :
  dict_get k (dict_set k v d) = Some v.
Proof.
  induction d as [|[k' v'] r IH]; simpl.
  - rewrite String.eqb_refl. reflexivity.
  - destruct (String.eqb k k') eqn:E; simpl.
    + rewrite String.eqb_refl. reflexivity.
    + rewrite E. exact IH.
Qed.

Lemma dict_get_set_other (k k0 : string) (v : json) (d : list (string * json)) :
  k <> k0 -> dict_get k (dict_set k0 v d) = dict_get k d.
Proof.
  intros N. apply String.eqb_neq in N.
  induction d as [|[k' v'] r IH]; simpl.
  - rewrite N. reflexivity.
  - destruct (String.eqb k0 k') eqn:E; simpl.
    + apply String.eqb_eq in E. subst k'. rewrite N. reflexivity.
    + rewrite IH. reflexivity.
Qed.

(** C6, as amended.  For a missing file, text that is not valid JSON, and
    a top-level value that is not a record, [load_db] returns exactly the
    empty database (version 1, no parts, nothing else).  For a record whose
    parts field is absent or not a sequence it returns that record with
    parts set to the empty sequence: the version the file gives is kept (1
    only when it gives none), and so is every other field.  It raises in
    none of these cases. *)
Theorem load_db_fallback (f : file) :
  degraded f = true ->
  match f with
  | Content (JDict data) =>
      exists db,
        load_db f = Ok db
        /\ dict_get "parts" db = Some (JList [])
        /\ dict_get "version" db
           = Some (match dict_get "version" data with
                   | Some v => v
                   | None => JInt 1
                   end)
        /\ forall k, k <> "parts" -> k <> "version" ->
                     dict_get k db = dict_get k data
  | _ => load_db f = Ok empty_db
  end.
Proof.
  destruct f as [| | |v]; try reflexivity; try discriminate.
  destruct v; try reflexivity.
  unfold degraded, has_parts_list, load_db. intros H.
  assert (E : match dict_get "parts" d with
              | Some (JList _) => d
              | _ => dict_set "parts" (JList []) d
              end = dict_set "parts" (JList []) d).
  { destruct (dict_get "parts" d) as [[]|]; try reflexivity. discriminate. }
  rewrite E. clear E H. eexists. split; [reflexivity|].
  rewrite (dict_get_set_other "version" "parts") by discriminate.
  destruct (dict_get "version" d) as [v|] eqn:V.
  - split; [apply dict_get_set_same|]. split.
    + rewrite (dict_get_set_other "version" "parts") by discriminate. exact V.
    + intros k K1 K2. apply dict_get_set_other. exact K1.
  - split; [|split].
    + rewrite (dict_get_set_other "parts" "version") by discriminate.
      apply dict_get_set_same.
    + apply dict_get_set_same.
    + intros k K1 K2. rewrite !dict_get_set_other by assumption. reflexivity.
Qed.

Lemma load_db_fallback_witness :
  exists db,
    load_db sample_versioned_file = Ok db
    /\ dict_get "parts" db = Some (JList [])
    /\ dict_get "version" db = Some (JInt 2)
    /\ forall k, k <> "parts" -> k <> "version" ->
         dict_get k db
         = dict_get k [("version", JInt 2); ("parts", JStr "x");
                       ("owner", JStr "lab")].
Proof.
  apply (load_db_fallback sample_versioned_file). reflexivity.
Defined.

(** C6 fails as stated: a record with version 2, a parts field that is not
    a sequence and one more field loads as that record with parts emptied,
    not as the empty database. *)
Lemma load_db_keeps_version_and_fields :
  load_db sample_versioned_file
    = Ok [("version", JInt 2); ("parts", JList []); ("owner", JStr "lab")]
  /\ load_db sample_versioned_file <> Ok empty_db.
Proof.
  split; [reflexivity | vm_compute; discriminate].
Qed.

(** A file whose bytes are not UTF-8 text is not covered by the handler. *)
Lemma load_db_not_text_raises : load_db NotText = Raise (Builtin EValue).
Proof. reflexivity. Qed.

(** ** Range parsing *)

(** C5, as amended.  For every range text that begins with '-' once
    stripped, and every unit, [parse_range] fails: the text is split at its
    first '-', also when that is the first character, and the empty left
    side is no number (ValueError from [float]); a blank unit is reported
    first. *)
Theorem parse_range_leading_minus_fails (text unit rest : string) :
  PyStr.strip text = String "-" rest ->
  parse_range text unit
  = Raise (if PyStr.is_empty (PyStr.strip unit)
           then ValueError "unit is empty" else Builtin EValue).
Proof.
  intros H. unfold parse_range. rewrite H.
  change (PyStr.remove_char " " (PyStr.lower (String "-" rest)))
    with (String "-" (PyStr.remove_char " " (PyStr.lower rest))).
  cbn [PyStr.is_empty].
  destruct (PyStr.is_empty (PyStr.strip unit)); [reflexivity|].
  cbn [PyStr.contains PyStr.split_first]. rewrite Ascii.eqb_refl.
  reflexivity.
Qed.

Lemma parse_range_leading_minus_fails_witness :
  parse_range "-5" "V" = Raise (Builtin EValue).
Proof.
  apply (parse_range_leading_minus_fails "-5" "V" "5"). reflexivity.
Defined.

(** C5 fails as stated: the text -5 with unit V is not read as the point
    range -5; [parse_range] raises the ValueError of [float] on the empty
    text before the '-'. *)
Lemma parse_range_minus_five_raises :
  PyStr.split_first "-" "-5" = ("", "5")
  /\ py_float "" = Raise (Builtin EValue)
  /\ parse_range "-5" "V" = Raise (Builtin EValue)
  /\ parse_range "-5" "V"
     <> Ok (RangeSpec.mk (PyFloat.of_Z (-5)) (PyFloat.of_Z (-5)) "V").
Proof.
  repeat split; try reflexivity. vm_compute. discriminate.
Qed.

(** ** Lookups by id *)

(** The lookup loops of [action_show] and [action_remove] convert the id of
    each record outside any [try]: a record whose id does not convert ends
    the action with that exception. *)
Lemma lookup_raises_on_bad_id (py_str : json -> string) (d : json)
  (rest : list json) (id_ : Z) (dec : option Z) (e : exn) :
  record_id (-1) d = Raise e ->
  action_show py_str (d :: rest) id_ = Raise e
  /\ action_remove (d :: rest) id_ dec = Raise e.
Proof.
  intros H. unfold action_show. simpl. rewrite H. split; reflexivity.
Qed.

(** C7, on the failing input: with a record whose id is the text abc stored
    before record 1, [show 1] and [remove 1] end with the ValueError of
    [int], which the command loop reports as an error; [next_id] skips the
    record. *)
Theorem non_numeric_id_breaks_show_and_remove (py_str : json -> string) :
  action_show py_str sample_bad_id_db 1 = Raise (Builtin EValue)
  /\ action_remove sample_bad_id_db 1 None = Raise (Builtin EValue)
  /\ action_remove sample_bad_id_db 1 (Some 2) = Raise (Builtin EValue)
  /\ next_id sample_bad_id_db = 2.
Proof.
  repeat split; reflexivity.
Qed.

(** ** Remove *)

Lemma action_remove_passes (pre : list json) (rest : list json) (id_ : Z)
  (decrement : option Z) :
  forallb (passed_over id_) pre = true ->
  action_remove (pre ++ rest) id_ decrement
  = o <- action_remove rest id_ decrement ;;
    Ok {| parts_after := pre ++ parts_after o; saved := saved o;
          printed := printed o |}.
Proof.
  induction pre as [|x pre IH]; intros H.
  - simpl. destruct (action_remove rest id_ decrement) as [[]|]; reflexivity.
  - simpl in H. apply andb_true_iff in H. destruct H as [Hx Hpre].
    unfold passed_over in Hx. simpl app. cbn [action_remove].
    destruct (record_id (-1) x) as [n|]; [|discriminate]. cbn [bind].
    apply negb_true_iff in Hx. rewrite Hx.
    rewrite (IH Hpre).
    destruct (action_remove rest id_ decrement) as [[]|]; reflexivity.
Qed.

Lemma setitem_quantity (d : json) (q n : Z) :
  record_quantity d = Ok q ->
  exists d', py_setitem d "quantity" (JInt n) = Ok d'
             /\ record_quantity d' = Ok n
             /\ record_id (-1) d' = record_id (-1) d.
Proof.
  unfold record_quantity, record_id, py_get, py_setitem.
  destruct d; try discriminate. intros _.
  eexists. split; [reflexivity|]. cbn [bind].
  rewrite dict_get_set_same, (dict_get_set_other "id" "quantity") by discriminate.
  split; reflexivity.
Qed.

(** C2.  Let the lookup of [action_remove] reach a record [d] with the
    requested id (every record stored before it has an id that converts and
    differs), whose quantity converts to [q], and let [n] be the decrement.
    When [n <= 0] the action prints the usage message, saves nothing and
    leaves the records as they are.  When [n > 0] and [q - n > 0] it saves
    the records with the quantity of [d] set to [q - n], [d] kept in place.
    When [n > 0] and [q - n <= 0] it saves the records without [d].  So a
    record a decrement writes back has a positive quantity. *)
Theorem action_remove_decrement (pre post : list json) (d : json)
  (id_ q n : Z) :
  forallb (passed_over id_) pre = true ->
  record_id (-1) d = Ok id_ ->
  record_quantity d = Ok q ->
  (n <= 0 ->
   action_remove (pre ++ d :: post) id_ (Some n)
   = Ok {| parts_after := pre ++ d :: post; saved := false;
           printed := DecrementUsage |})
  /\ (0 < n -> 0 < q - n ->
      exists d',
        py_setitem d "quantity" (JInt (q - n)) = Ok d'
        /\ record_quantity d' = Ok (q - n)
        /\ record_id (-1) d' = Ok id_
        /\ action_remove (pre ++ d :: post) id_ (Some n)
           = Ok {| parts_after := pre ++ d' :: post; saved := true;
                   printed := Decremented (q - n) |})
  /\ (0 < n -> q - n <= 0 ->
      action_remove (pre ++ d :: post) id_ (Some n)
      = Ok {| parts_after := pre ++ post; saved := true; printed := HitZero |}).
Proof.
  intros Hpre Hid Hq.
  rewrite (action_remove_passes pre (d :: post) id_ (Some n) Hpre).
  cbn [action_remove]. rewrite Hid. cbn [bind]. rewrite Z.eqb_refl.
  fold (record_quantity d). rewrite Hq. cbn [bind].
  split; [|split].
  - intros Hn. apply Z.leb_le in Hn. rewrite Hn. reflexivity.
  - intros Hn Hpos.
    destruct (setitem_quantity d q (q - n) Hq) as (d' & Hset & Hq' & Hid').
    exists d'. rewrite Hid' in *. repeat split; try assumption.
    apply Z.leb_gt in Hn. apply Z.ltb_lt in Hpos.
    rewrite Hn, Hpos, Hset. reflexivity.
  - intros Hn Hneg. apply Z.leb_gt in Hn. apply Z.ltb_ge in Hneg.
    rewrite Hn, Hneg. reflexivity.
Qed.

Lemma action_remove_decrement_witness :
  (3 <= 0 ->
   action_remove ([sample_record (JInt 1) 5] ++ sample_record (JInt 2) 4 :: [])
                 2 (Some 3)
   = Ok {| parts_after := [sample_record (JInt 1) 5] ++ sample_record (JInt 2) 4 :: [];
           saved := false; printed := DecrementUsage |})
  /\ (0 < 3 -> 0 < 4 - 3 ->
      exists d',
        py_setitem (sample_record (JInt 2) 4) "quantity" (JInt (4 - 3)) = Ok d'
        /\ record_quantity d' = Ok (4 - 3)
        /\ record_id (-1) d' = Ok 2
        /\ action_remove ([sample_record (JInt 1) 5] ++ sample_record (JInt 2) 4 :: [])
                         2 (Some 3)
           = Ok {| parts_after := [sample_record (JInt 1) 5] ++ d' :: [];
                   saved := true; printed := Decremented (4 - 3) |})
  /\ (0 < 3 -> 4 - 3 <= 0 ->
      action_remove ([sample_record (JInt 1) 5] ++ sample_record (JInt 2) 4 :: [])
                    2 (Some 3)
      = Ok {| parts_after := [sample_record (JInt 1) 5] ++ []; saved := true;
              printed := HitZero |}).
Proof.
  apply (action_remove_decrement [sample_record (JInt 1) 5] []
           (sample_record (JInt 2) 4) 2 4 3); reflexivity.
Defined.

(** ** Add *)

Lemma key_eqb_eq (a b : string * string * string * string) :
  key_eqb a b = true <-> a = b.
Proof.
  destruct a as [[[a1 a2] a3] a4], b as [[[b1 b2] b3] b4]. unfold key_eqb.
  rewrite !andb_true_iff, !String.eqb_eq. split.
  - intros [[[-> ->] ->] ->]. reflexivity.
  - intros E. inversion E. auto.
Qed.

Lemma next_id_fold (parts : list json) (m : Z) :
  0 <= m ->
  fold_left (fun m p => match record_id 0 p with
                        | Ok n => Z.max m n
                        | Raise _ => m
                        end) parts m
  = fold_left Z.max (map id_or_zero parts) m.
Proof.
  revert m. induction parts as [|d parts IH]; intros m Hm; [reflexivity|].
  simpl.
  change (id_or_zero d)
    with (match record_id 0 d with Ok n => n | Raise _ => 0 end).
  destruct (record_id 0 d) as [n|e].
  - apply IH. lia.
  - rewrite Z.max_l by lia. apply IH. exact Hm.
Qed.

Lemma next_id_max_id (parts : list json) :
  forallb (fun d => 0 <=? id_or_zero d) parts = true ->
  next_id parts = 1 + max_id parts.
Proof.
  intros H. unfold next_id, max_id. rewrite next_id_fold by lia.
  destruct parts as [|d parts]; [reflexivity|].
  cbn [map fold_left forallb] in *. apply andb_true_iff in H.
  destruct H as [H _]. apply Z.leb_le in H.
  rewrite (Z.max_r 0 (id_or_zero d)) by exact H. apply Z.add_comm.
Qed.

Section AddFacts.

Variable py_str : json -> string.

Lemma part_from_dict_quantity (item : json) (dp : DynPart) :
  part_from_dict py_str item = Ok dp ->
  record_quantity item = Ok (dquantity dp).
Proof.
  unfold part_from_dict, record_quantity.
  destruct item; try discriminate. unfold py_getitem, py_get.
  destruct (dict_get "category" d); [|discriminate].
  destruct (dict_get "name" d); [|discriminate]. cbn [bind].
  destruct (dict_get "voltage" d) as [v|]; [|discriminate]. cbn [bind].
  destruct (range_of_kwargs v); [|discriminate]. cbn [bind].
  destruct (dict_get "current" d) as [i|]; [|discriminate]. cbn [bind].
  destruct (range_of_kwargs i); [|discriminate]. cbn [bind].
  destruct (dict_get "quantity" d) as [x|]; [|discriminate]. cbn [bind].
  destruct (py_int x); [|discriminate]. cbn [bind].
  intros E. inversion E. reflexivity.
Qed.

Lemma part_from_dict_set_quantity (item item' : json) (dp : DynPart) (n : Z) :
  part_from_dict py_str item = Ok dp ->
  py_setitem item "quantity" (JInt n) = Ok item' ->
  part_from_dict py_str item' = Ok (with_quantity dp n).
Proof.
  unfold part_from_dict, py_setitem.
  destruct item; try discriminate. intros H E. inversion E. subst item'.
  revert H. unfold py_getitem, py_get.
  rewrite dict_get_set_same.
  rewrite !(dict_get_set_other _ "quantity") by discriminate.
  destruct (dict_get "category" d); [|discriminate].
  destruct (dict_get "name" d); [|discriminate]. cbn [bind].
  destruct (dict_get "voltage" d) as [v|]; [|discriminate]. cbn [bind].
  destruct (range_of_kwargs v); [|discriminate]. cbn [bind].
  destruct (dict_get "current" d) as [i|]; [|discriminate]. cbn [bind].
  destruct (range_of_kwargs i); [|discriminate]. cbn [bind].
  destruct (dict_get "quantity" d) as [x|]; [|discriminate]. cbn [bind].
  destruct (py_int x); [|discriminate]. cbn [bind].
  intros H. inversion H. reflexivity.
Qed.

Lemma part_from_dict_setitem (item : json) (dp : DynPart) (n : Z) :
  part_from_dict py_str item = Ok dp ->
  exists item', py_setitem item "quantity" (JInt n) = Ok item'.
Proof.
  destruct item; try discriminate. intros _. eexists. reflexivity.
Qed.

(** The merge loop passes over a record of a valid database whose key is
    not the candidate's. *)
Lemma merge_scan_passes (k : string * string * string * string) (qty : Z)
  (pre rest : list json) :
  valid_db py_str pre = true ->
  existsb (matches py_str k) pre = false ->
  merge_scan py_str k qty (pre ++ rest)
  = r <- merge_scan py_str k qty rest ;;
    Ok (option_map (fun '(l, n) => ((pre ++ l)%list, n)) r).
Proof.
  induction pre as [|x pre IH]; intros Hv Hm.
  - simpl. destruct (merge_scan py_str k qty rest) as [[[l n]|]|]; reflexivity.
  - simpl in Hv, Hm. apply andb_true_iff in Hv. destruct Hv as [Hx Hv].
    apply orb_false_iff in Hm. destruct Hm as [Mx Hm].
    specialize (IH Hv Hm).
    simpl app. cbn [merge_scan]. rewrite IH.
    assert (C : (r <- (r <- merge_scan py_str k qty rest ;;
                       Ok (option_map (fun '(l, n) => ((pre ++ l)%list, n)) r)) ;;
                 Ok (option_map (fun '(l, n) => (x :: l, n)) r))
                = (r <- merge_scan py_str k qty rest ;;
                   Ok (option_map (fun '(l, n) => (((x :: pre) ++ l)%list, n)) r))).
    { destruct (merge_scan py_str k qty rest) as [[[l n]|]|]; reflexivity. }
    unfold valid_record in Hx. unfold matches, record_key in Mx.
    destruct (part_from_dict py_str x) as [dp|e]; [|exact C].
    unfold dyn_dedupe_key in *.
    destruct (typed_part dp) as [t|]; [|discriminate]. cbn [bind].
    rewrite Mx. exact C.
Qed.

Lemma merge_scan_at_match (qty : Z) (item : json) (post : list json)
  (dp : DynPart) (item' : json) (k : string * string * string * string) :
  part_from_dict py_str item = Ok dp ->
  dyn_dedupe_key dp = Ok k ->
  py_setitem item "quantity" (JInt (dquantity dp + qty)) = Ok item' ->
  merge_scan py_str k qty (item :: post)
  = Ok (Some (item' :: post, dquantity dp + qty)).
Proof.
  intros Hd Hk Hs. cbn [merge_scan]. rewrite Hd, Hk. cbn [bind].
  rewrite (proj2 (key_eqb_eq k k) eq_refl).
  fold (record_quantity item). rewrite (part_from_dict_quantity item dp Hd).
  cbn [bind]. rewrite Hs. reflexivity.
Qed.

(** The first record that matches, with the records before it. *)
Lemma first_match (k : string * string * string * string) (parts : list json) :
  existsb (matches py_str k) parts = true ->
  exists pre item post,
    parts = (pre ++ item :: post)%list
    /\ existsb (matches py_str k) pre = false
    /\ matches py_str k item = true.
Proof.
  induction parts as [|x parts IH]; [discriminate|]. simpl.
  destruct (matches py_str k x) eqn:Mx.
  - intros _. exists [], x, parts. auto.
  - simpl. intros H. destruct (IH H) as (pre & item & post & E & Hp & Hi).
    exists (x :: pre), item, post. subst parts. simpl. rewrite Mx. auto.
Qed.

Lemma valid_db_app (l1 l2 : list json) :
  valid_db py_str (l1 ++ l2) = valid_db py_str l1 && valid_db py_str l2.
Proof. apply forallb_app. Qed.

Lemma valid_db_ids (parts : list json) :
  valid_db py_str parts = true ->
  forallb (fun d => 0 <=? id_or_zero d) parts = true.
Proof.
  induction parts as [|x parts IH]; [reflexivity|]. simpl.
  intros H. apply andb_true_iff in H. destruct H as [Hx H].
  unfold valid_record in Hx. apply andb_true_iff in Hx.
  rewrite (proj2 Hx), (IH H). reflexivity.
Qed.

(** C1.  Let the candidate pass validation as [p] and let the database be
    valid.  If the dedupe key of [p] is the key of a stored record that
    decodes, [action_add] adds the quantity of [p] to the quantity of the
    first such record, changes no other field and no other record, appends
    nothing, and saves.  If no stored record has that key, it appends one
    record, the fields of [p] with id 1 + the maximum of the existing ids
    (malformed and missing ids counted as 0), leaves the stored records as
    they are, and saves. *)
Theorem action_add_merges_or_appends (candidate p : Part.t)
  (parts : list json) :
  validate_part candidate = Ok p ->
  valid_db py_str parts = true ->
  (existsb (matches py_str (Part.dedupe_key p)) parts = true ->
   exists pre item post dp item',
     parts = (pre ++ item :: post)%list
     /\ existsb (matches py_str (Part.dedupe_key p)) pre = false
     /\ part_from_dict py_str item = Ok dp
     /\ dyn_dedupe_key dp = Ok (Part.dedupe_key p)
     /\ py_setitem item "quantity" (JInt (dquantity dp + Part.quantity p))
        = Ok item'
     /\ part_from_dict py_str item'
        = Ok (with_quantity dp (dquantity dp + Part.quantity p))
     /\ action_add py_str candidate parts
        = Ok {| parts_after := (pre ++ item' :: post)%list; saved := true;
                printed := Merged (dquantity dp + Part.quantity p) |})
  /\ (existsb (matches py_str (Part.dedupe_key p)) parts = false ->
      exists d,
        py_setitem (part_to_dict p) "id" (JInt (1 + max_id parts)) = Ok d
        /\ record_id 0 d = Ok (1 + max_id parts)
        /\ action_add py_str candidate parts
           = Ok {| parts_after := parts ++ [d]; saved := true;
                   printed := Added (1 + max_id parts) |}).
Proof.
  intros Hval Hdb. unfold action_add. rewrite Hval. cbn [bind]. split.
  - intros Hex.
    destruct (first_match _ _ Hex) as (pre & item & post & E & Hpre & Hitem).
    subst parts. rewrite valid_db_app in Hdb.
    apply andb_true_iff in Hdb. destruct Hdb as [Hvpre _].
    unfold matches, record_key in Hitem.
    destruct (part_from_dict py_str item) as [dp|] eqn:Hd; [|discriminate].
    destruct (dyn_dedupe_key dp) as [k'|] eqn:Hk; [|discriminate].
    apply key_eqb_eq in Hitem. subst k'.
    destruct (part_from_dict_setitem item dp
                (dquantity dp + Part.quantity p) Hd) as [item' Hs].
    exists pre, item, post, dp, item'.
    repeat split; try assumption.
    + apply (part_from_dict_set_quantity item item' dp _ Hd Hs).
    + rewrite (merge_scan_passes _ _ pre (item :: post) Hvpre Hpre).
      rewrite (merge_scan_at_match _ item post dp item' _ Hd Hk Hs).
      reflexivity.
  - intros Hno.
    pose proof (merge_scan_passes (Part.dedupe_key p) (Part.quantity p)
                  parts [] Hdb Hno) as Hscan.
    rewrite app_nil_r in Hscan. rewrite Hscan. cbn [merge_scan bind option_map].
    rewrite (next_id_max_id parts (valid_db_ids parts Hdb)).
    eexists. split; [reflexivity|]. split; reflexivity.
Qed.

(** ** Valid databases are closed under [action_add] *)

Lemma next_id_positive (parts : list json) : 0 < next_id parts.
Proof.
  unfold next_id. rewrite next_id_fold by lia.
  assert (H : forall l m, 0 <= m -> 0 <= fold_left Z.max l m).
  { induction l as [|x l IH]; intros m Hm; simpl; [exact Hm|].
    apply IH. lia. }
  specialize (H (map id_or_zero parts) 0). lia.
Qed.

Lemma valid_record_new (p : Part.t) (n : Z) (d : json) :
  0 <= n ->
  py_setitem (part_to_dict p) "id" (JInt n) = Ok d ->
  valid_record py_str d = true.
Proof.
  intros Hn E. inversion E. subst d. clear E.
  unfold valid_record, id_or_zero. cbn. apply Z.leb_le. exact Hn.
Qed.

Lemma record_id_set_quantity (default n : Z) (item item' : json) :
  py_setitem item "quantity" (JInt n) = Ok item' ->
  record_id default item' = record_id default item.
Proof.
  destruct item; try discriminate. intros E. inversion E.
  unfold record_id, py_get.
  rewrite (dict_get_set_other "id" "quantity") by discriminate. reflexivity.
Qed.

Lemma valid_record_set_quantity (item item' : json) (dp : DynPart) (n : Z) :
  part_from_dict py_str item = Ok dp ->
  py_setitem item "quantity" (JInt n) = Ok item' ->
  valid_record py_str item = true ->
  valid_record py_str item' = true.
Proof.
  intros Hd Hs. unfold valid_record, id_or_zero.
  rewrite (record_id_set_quantity 0 n item item' Hs), Hd.
  rewrite (part_from_dict_set_quantity item item' dp n Hd Hs).
  unfold typed_part. cbn [dcategory dname dvoltage dcurrent with_quantity].
  destruct (str_value (dcategory dp)), (str_value (dname dp)),
    (typed_range (dvoltage dp)), (typed_range (dcurrent dp)); auto.
Qed.

Lemma merge_scan_keeps_valid (k : string * string * string * string)
  (qty : Z) (parts parts' : list json) (total : Z) :
  valid_db py_str parts = true ->
  merge_scan py_str k qty parts = Ok (Some (parts', total)) ->
  valid_db py_str parts' = true.
Proof.
  revert parts' total. induction parts as [|x parts IH];
    intros parts' total Hv H; [discriminate|].
  simpl in Hv. apply andb_true_iff in Hv. destruct Hv as [Hx Hv].
  cbn [merge_scan] in H.
  assert (C : (r <- merge_scan py_str k qty parts ;;
               Ok (option_map (fun '(l, n) => (x :: l, n)) r))
              = Ok (Some (parts', total)) ->
              valid_db py_str parts' = true).
  { destruct (merge_scan py_str k qty parts) as [[[l n]|]|];
      try discriminate.
    cbn. intros E. inversion E. subst parts' total. simpl.
    rewrite Hx. apply (IH l n Hv eq_refl). }
  destruct (part_from_dict py_str x) as [dp|e] eqn:Hd; [|exact (C H)].
  destruct (dyn_dedupe_key dp) as [k'|]; [|discriminate]. cbn [bind] in H.
  destruct (key_eqb k' k); [|exact (C H)].
  fold (record_quantity x) in H.
  rewrite (part_from_dict_quantity x dp Hd) in H. cbn [bind] in H.
  destruct (py_setitem x "quantity" (JInt (dquantity dp + qty)))
    as [x'|] eqn:Hs; [|discriminate].
  cbn [bind] in H. inversion H. subst parts' total. simpl.
  rewrite (valid_record_set_quantity x x' dp _ Hd Hs Hx). exact Hv.
Qed.

(** X25.  [action_add] leaves a valid database valid; the empty database
    is valid, so every database the program builds by adding parts is
    one. *)
Lemma action_add_keeps_valid (candidate : Part.t) (parts : list json)
  (o : outcome) :
  valid_db py_str parts = true ->
  action_add py_str candidate parts = Ok o ->
  valid_db py_str (parts_after o) = true.
Proof.
  intros Hv. unfold action_add.
  destruct (validate_part candidate) as [p|]; [|discriminate]. cbn [bind].
  destruct (merge_scan py_str (Part.dedupe_key p) (Part.quantity p) parts)
    as [[[l n]|]|] eqn:Hm; try discriminate; cbn [bind].
  - intros E. inversion E. simpl.
    apply (merge_scan_keeps_valid _ _ parts l n Hv Hm).
  - destruct (py_setitem (part_to_dict p) "id" (JInt (next_id parts)))
      as [d|] eqn:Hs; [|discriminate].
    cbn [bind]. intros E. inversion E. simpl.
    rewrite valid_db_app, Hv. simpl.
    rewrite (valid_record_new p (next_id parts) d); [reflexivity| |exact Hs].
    pose proof (next_id_positive parts). lia.
Qed.

End AddFacts.

Lemma action_add_merges_or_appends_witness :
  (exists pre item post dp item',
     [sample_record (JInt 1) 5] = (pre ++ item :: post)%list
     /\ existsb (matches sample_str
                   (Part.dedupe_key (Part.normalized sample_candidate))) pre
        = false
     /\ part_from_dict sample_str item = Ok dp
     /\ dyn_dedupe_key dp
        = Ok (Part.dedupe_key (Part.normalized sample_candidate))
     /\ py_setitem item "quantity"
          (JInt (dquantity dp + Part.quantity (Part.normalized sample_candidate)))
        = Ok item'
     /\ part_from_dict sample_str item'
        = Ok (with_quantity dp
                (dquantity dp + Part.quantity (Part.normalized sample_candidate)))
     /\ action_add sample_str sample_candidate [sample_record (JInt 1) 5]
        = Ok {| parts_after := (pre ++ item' :: post)%list; saved := true;
                printed := Merged (dquantity dp
                           + Part.quantity (Part.normalized sample_candidate)) |})
  /\ (exists d,
        py_setitem (part_to_dict (Part.normalized sample_candidate)) "id"
          (JInt (1 + max_id [])) = Ok d
        /\ record_id 0 d = Ok (1 + max_id [])
        /\ action_add sample_str sample_candidate []
           = Ok {| parts_after := [] ++ [d]; saved := true;
                   printed := Added (1 + max_id []) |}).
Proof.
  split.
  - apply (proj1 (action_add_merges_or_appends sample_str sample_candidate
                    (Part.normalized sample_candidate)
                    [sample_record (JInt 1) 5] eq_refl eq_refl)).
    reflexivity.
  - apply (proj2 (action_add_merges_or_appends sample_str sample_candidate
                    (Part.normalized sample_candidate) [] eq_refl eq_refl)).
    reflexivity.
Defined.

(** The scenario of the specification: two adds of the same part merge into
    record 1 with quantity 8, and [remove 1 -n 8] deletes it. *)
Lemma add_add_remove_scenario :
  let p5 := Part.mk "Resistor" "10k" (sample_zero_range "V")
                    (sample_zero_range "A") 5 "" in
  let p3 := Part.mk "Resistor" "10k" (sample_zero_range "V")
                    (sample_zero_range "A") 3 "" in
  action_add sample_str p5 []
    = Ok {| parts_after := [sample_record (JInt 1) 5]; saved := true;
            printed := Added 1 |}
  /\ action_add sample_str p3 [sample_record (JInt 1) 5]
    = Ok {| parts_after := [sample_record (JInt 1) 8]; saved := true;
            printed := Merged 8 |}
  /\ action_remove [sample_record (JInt 1) 8] 1 (Some 8)
    = Ok {| parts_after := []; saved := true; printed := HitZero |}
  /\ action_show sample_str [] 1 = Ok NotFound.
Proof.
  repeat split; reflexivity.
Qed.

(** ** The text of the [g] format *)

Section AllChars.

Variable q : ascii -> bool.

Lemma all_chars_app (a b : string) :
  PyStr.all_chars q (a ++ b) = PyStr.all_chars q a && PyStr.all_chars q b.
Proof.
  induction a as [|c a IH]; simpl; [reflexivity|].
  rewrite IH. apply andb_assoc.
Qed.

Lemma all_chars_substring (s : string) (n m : nat) :
  PyStr.all_chars q s = true -> PyStr.all_chars q (substring n m s) = true.
Proof.
  revert n m. induction s as [|c s IH]; intros n m H.
  - destruct n, m; reflexivity.
  - simpl in H. apply andb_true_iff in H. destruct H as [Hc Hs].
    destruct n as [|n]; simpl.
    + destruct m as [|m]; simpl; [reflexivity|].
      rewrite Hc. apply (IH 0%nat m Hs).
    + apply IH. exact Hs.
Qed.

Lemma all_chars_drop_end (p : ascii -> bool) (s : string) :
  PyStr.all_chars q s = true -> PyStr.all_chars q (PyStr.drop_end p s) = true.
Proof.
  induction s as [|c s IH]; simpl; intros H; [reflexivity|].
  apply andb_true_iff in H. destruct H as [Hc Hs].
  destruct (p c && PyStr.is_empty (PyStr.drop_end p s)); simpl;
    [reflexivity|].
  rewrite Hc. apply IH. exact Hs.
Qed.

Lemma all_chars_repeat (c : ascii) (n : nat) :
  q c = true -> PyStr.all_chars q (PyStr.repeat_char c n) = true.
Proof. intros H. induction n; simpl; [reflexivity|]. rewrite H. exact IHn. Qed.

End AllChars.

Lemma plain_digit_char (d : Z) :
  0 <= d < 10 -> plain (PyStr.digit_char d) = true.
Proof.
  intros H.
  assert (C : d = 0 \/ d = 1 \/ d = 2 \/ d = 3 \/ d = 4 \/ d = 5 \/ d = 6
              \/ d = 7 \/ d = 8 \/ d = 9) by lia.
  repeat (destruct C as [-> | C]; [reflexivity|]). subst d. reflexivity.
Qed.

Lemma plain_digits_loop (fuel : nat) (n : Z) (acc : string) :
  PyStr.all_chars plain acc = true ->
  PyStr.all_chars plain (PyStr.digits_loop fuel n acc) = true.
Proof.
  revert n acc. induction fuel as [|fuel IH]; intros n acc H;
    cbn [PyStr.digits_loop].
  - cbn [PyStr.all_chars].
    rewrite plain_digit_char by (apply Z.mod_pos_bound; lia). exact H.
  - assert (H' : PyStr.all_chars plain
                   (String (PyStr.digit_char (n mod 10)) acc) = true).
    { cbn [PyStr.all_chars].
      rewrite plain_digit_char by (apply Z.mod_pos_bound; lia). exact H. }
    destruct (n <? 10); [exact H' | apply IH; exact H'].
Qed.

Lemma plain_digits_of (n : Z) : PyStr.all_chars plain (PyStr.digits_of n) = true.
Proof. apply plain_digits_loop. reflexivity. Qed.

Lemma plain_with_fraction (ip fp : string) :
  PyStr.all_chars plain ip = true -> PyStr.all_chars plain fp = true ->
  PyStr.all_chars plain (PyFloat.with_fraction ip fp) = true.
Proof.
  intros Hi Hf. unfold PyFloat.with_fraction.
  destruct (PyStr.is_empty _); [exact Hi|].
  rewrite !all_chars_app, Hi.
  rewrite (all_chars_drop_end plain _ fp Hf). reflexivity.
Qed.

Lemma plain_exponent_text (k : Z) :
  PyStr.all_chars plain (PyFloat.exponent_text k) = true.
Proof.
  unfold PyFloat.exponent_text. cbn [PyStr.all_chars].
  pose proof (plain_digits_of (Z.abs k)) as H.
  destruct (k <? 0), (Z.abs k <? 10); cbn [PyStr.all_chars]; rewrite H;
    reflexivity.
Qed.

Lemma plain_fmt_g_pos (m e : Z) :
  PyStr.all_chars plain (PyFloat.fmt_g_pos m e) = true.
Proof.
  unfold PyFloat.fmt_g_pos.
  destruct (PyFloat.sig_digits 6 _ _) as [d k].
  pose proof (plain_digits_of d) as Hd.
  destruct ((-4 <=? k) && (k <? 6)).
  - destruct (0 <=? k).
    + apply plain_with_fraction; apply all_chars_substring; exact Hd.
    + apply plain_with_fraction; [reflexivity|].
      rewrite all_chars_app, Hd, all_chars_repeat; reflexivity.
  - rewrite all_chars_app, plain_exponent_text, andb_true_r.
    apply plain_with_fraction; apply all_chars_substring; exact Hd.
Qed.

Lemma plain_fmt_g (x : PyFloat.float) :
  PyStr.all_chars plain (PyFloat.fmt_g x) = true.
Proof.
  destruct x as [s|s| |s m e]; try (destruct s; reflexivity);
    try reflexivity.
  unfold PyFloat.fmt_g. rewrite all_chars_app, plain_fmt_g_pos.
  destruct s; reflexivity.
Qed.

Lemma plain_strip (s : string) :
  PyStr.all_chars plain s = true -> PyStr.strip s = s.
Proof.
  intros H. unfold PyStr.strip, PyStr.strip_with.
  rewrite drop_while_fixed.
  - induction s as [|c s IH]; [reflexivity|].
    simpl in H. apply andb_true_iff in H. destruct H as [Hc Hs].
    cbn [PyStr.drop_end]. rewrite (IH Hs).
    unfold plain in Hc. apply andb_true_iff in Hc. destruct Hc as [Hc _].
    apply negb_true_iff in Hc. rewrite Hc. reflexivity.
  - destruct s as [|c s]; [reflexivity|]. simpl in *.
    apply andb_true_iff in H. destruct H as [Hc _].
    unfold plain in Hc. apply andb_true_iff in Hc. destruct Hc as [Hc _].
    apply negb_true_iff in Hc. exact Hc.
Qed.

Lemma plain_lower (s : string) :
  PyStr.all_chars plain s = true -> PyStr.lower s = s.
Proof.
  induction s as [|c s IH]; [reflexivity|]. simpl. intros H.
  apply andb_true_iff in H. destruct H as [Hc Hs].
  unfold plain in Hc. apply andb_true_iff in Hc. destruct Hc as [_ Hc].
  apply Ascii.eqb_eq in Hc. rewrite Hc, (IH Hs). reflexivity.
Qed.

Lemma plain_remove_space (s : string) :
  PyStr.all_chars plain s = true -> PyStr.remove_char " " s = s.
Proof.
  induction s as [|c s IH]; [reflexivity|]. simpl. intros H.
  apply andb_true_iff in H. destruct H as [Hc Hs].
  rewrite (IH Hs).
  destruct (Ascii.eqb c " ") eqn:E; [|reflexivity].
  apply Ascii.eqb_eq in E. subst c. discriminate.
Qed.

Lemma contains_app (ch : ascii) (a b : string) :
  PyStr.contains ch (a ++ b) = PyStr.contains ch a || PyStr.contains ch b.
Proof.
  induction a as [|c a IH]; simpl; [reflexivity|].
  rewrite IH. apply orb_assoc.
Qed.

Lemma split_first_app (ch : ascii) (a b : string) :
  PyStr.contains ch a = false ->
  PyStr.split_first ch (a ++ String ch b) = (a, b).
Proof.
  induction a as [|c a IH]; simpl.
  - intros _. rewrite Ascii.eqb_refl. reflexivity.
  - intros H. apply orb_false_iff in H. destruct H as [Hc Ha].
    rewrite Hc, (IH Ha). reflexivity.
Qed.

Lemma leb_zero_eqb_refl (x : PyFloat.float) :
  PyFloat.leb PyFloat.zero x = true -> PyFloat.eqb x x = true.
Proof.
  destruct x as [s|s| |s m e]; try discriminate; intros _.
  - reflexivity.
  - destruct s; reflexivity.
  - unfold PyFloat.eqb, SFeqb, SFcompare.
    destruct s; rewrite Z.compare_refl, Pos.compare_cont_refl; reflexivity.
Qed.

Lemma normalized_unit (r : RangeSpec.t) :
  RangeSpec.unit (RangeSpec.normalized r) = PyStr.strip (RangeSpec.unit r).
Proof.
  unfold RangeSpec.normalized.
  destruct (PyFloat.leb (RangeSpec.min r) (RangeSpec.max r)); reflexivity.
Qed.

(** C4, as amended.  Take a RangeSpec with a non-blank unit whose
    normalized bounds are non-negative, are printed by the [g] format
    without a '-', and are read back by [float] from their print.  Parsing
    the bounds text of its normalized form (the display form without the
    unit suffix, which [action_edit] offers as the default answer) with the
    unit of the range succeeds and gives a range equal, under the dataclass
    [==], to the normalized range. *)
Theorem parse_range_of_range_default (r : RangeSpec.t) :
  PyStr.is_empty (PyStr.strip (RangeSpec.unit r)) = false ->
  PyFloat.leb PyFloat.zero (RangeSpec.min (RangeSpec.normalized r)) = true ->
  PyFloat.leb PyFloat.zero (RangeSpec.max (RangeSpec.normalized r)) = true ->
  PyStr.contains "-" (PyFloat.fmt_g (RangeSpec.min (RangeSpec.normalized r)))
  = false ->
  PyStr.contains "-" (PyFloat.fmt_g (RangeSpec.max (RangeSpec.normalized r)))
  = false ->
  PyFloat.of_string (PyFloat.fmt_g (RangeSpec.min (RangeSpec.normalized r)))
  = Some (RangeSpec.min (RangeSpec.normalized r)) ->
  PyFloat.of_string (PyFloat.fmt_g (RangeSpec.max (RangeSpec.normalized r)))
  = Some (RangeSpec.max (RangeSpec.normalized r)) ->
  exists r',
    parse_range (range_default (RangeSpec.normalized r)) (RangeSpec.unit r)
    = Ok r'
    /\ RangeSpec.eqb r' (RangeSpec.normalized r) = true.
Proof.
  intros Hu Hlo Hhi Dlo Dhi Rlo Rhi.
  pose proof (normalized_unit r) as Hunit.
  set (n := RangeSpec.normalized r) in *.
  pose proof (plain_fmt_g (RangeSpec.min n)) as Plo.
  pose proof (plain_fmt_g (RangeSpec.max n)) as Phi.
  assert (Ne : PyStr.is_empty (PyFloat.fmt_g (RangeSpec.min n)) = false).
  { destruct (PyFloat.fmt_g (RangeSpec.min n)); [discriminate Rlo | reflexivity]. }
  assert (Pd : PyStr.all_chars plain (range_default n) = true).
  { unfold range_default. destruct (negb _); [|exact Plo].
    rewrite !all_chars_app, Plo, Phi. reflexivity. }
  unfold parse_range.
  rewrite (plain_strip _ Pd), (plain_lower _ Pd), (plain_remove_space _ Pd).
  rewrite Hu. unfold range_default.
  destruct (PyFloat.eqb (RangeSpec.min n) (RangeSpec.max n)) eqn:E;
    cbn [negb].
  - rewrite Ne, Dlo. unfold py_float. rewrite Rlo. cbn [bind].
    eexists. split; [reflexivity|].
    unfold RangeSpec.eqb. cbn [RangeSpec.min RangeSpec.max RangeSpec.unit].
    rewrite (leb_zero_eqb_refl _ Hlo), E, Hunit, String.eqb_refl. reflexivity.
  - assert (Ne2 : PyStr.is_empty
                    (PyFloat.fmt_g (RangeSpec.min n) ++ "-"
                     ++ PyFloat.fmt_g (RangeSpec.max n)) = false).
    { destruct (PyFloat.fmt_g (RangeSpec.min n)); [discriminate Ne | reflexivity]. }
    rewrite Ne2, contains_app. cbn [append PyStr.contains].
    rewrite Ascii.eqb_refl, orb_true_r.
    rewrite (split_first_app "-" _ _ Dlo). unfold py_float.
    rewrite Rlo, Rhi. cbn [bind].
    eexists. split; [reflexivity|].
    unfold RangeSpec.eqb. cbn [RangeSpec.min RangeSpec.max RangeSpec.unit].
    rewrite (leb_zero_eqb_refl _ Hlo), (leb_zero_eqb_refl _ Hhi), Hunit,
      String.eqb_refl. reflexivity.
Qed.

Lemma parse_range_of_range_default_witness :
  exists r',
    parse_range (range_default (RangeSpec.normalized sample_span_range))
                (RangeSpec.unit sample_span_range)
    = Ok r'
    /\ RangeSpec.eqb r' (RangeSpec.normalized sample_span_range) = true.
Proof.
  apply (parse_range_of_range_default sample_span_range); reflexivity.
Defined.

(** C4 fails as stated.  The normalized range 5..5 V is formatted as 5V;
    parsed with the unit V, that text goes to [float] whole and raises
    ValueError.  Without the unit suffix, a bound with more than six
    significant digits still does not come back: 1.2345678 is printed as
    1.23457 and read as that number; and a bound below 0.0001 is printed
    with a negative exponent, 1e-05, which is split at its '-'. *)
Lemma parse_range_of_fmt_raises :
  RangeSpec.fmt (RangeSpec.normalized sample_point_range) = "5V"
  /\ parse_range (RangeSpec.fmt (RangeSpec.normalized sample_point_range))
                 (RangeSpec.unit sample_point_range)
     = Raise (Builtin EValue)
  /\ parse_range (RangeSpec.fmt (RangeSpec.normalized sample_point_range))
                 (RangeSpec.unit sample_point_range)
     <> Ok (RangeSpec.normalized sample_point_range)
  /\ range_default (RangeSpec.normalized sample_fine_range) = "1.23457"
  /\ parse_range (range_default (RangeSpec.normalized sample_fine_range)) "V"
     = Ok (RangeSpec.mk (PyFloat.of_decimal false 123457 (-5))
                        (PyFloat.of_decimal false 123457 (-5)) "V")
  /\ RangeSpec.eqb (RangeSpec.mk (PyFloat.of_decimal false 123457 (-5))
                                 (PyFloat.of_decimal false 123457 (-5)) "V")
                   (RangeSpec.normalized sample_fine_range) = false
  /\ range_default (RangeSpec.normalized sample_tiny_range) = "1e-05"
  /\ parse_range (range_default (RangeSpec.normalized sample_tiny_range)) "A"
     = Raise (Builtin EValue).
Proof.
  repeat split; try reflexivity. vm_compute. discriminate.
Qed.

(* ================================================================== *)
(** * Further properties of the store and the actions *)

(** ** Stored records *)

Lemma range_eta (r : RangeSpec.t) :
  RangeSpec.mk (RangeSpec.min r) (RangeSpec.max r) (RangeSpec.unit r) = r.
Proof. destruct r; reflexivity. Qed.

(** X1.  What [part_to_dict] writes, [part_from_dict] reads back: the
    record of a part decodes, every field has its announced type, and the
    part read is the normalized part.  ([str] leaves a string as it is.) *)
Theorem part_to_dict_round_trip (py_str : json -> string) (p : Part.t) :
  (forall s, py_str (JStr s) = s) ->
  exists dp,
    part_from_dict py_str (part_to_dict p) = Ok dp
    /\ typed_part dp = Some (Part.normalized p).
Proof.
  intros Hstr. eexists. split; [reflexivity|].
  unfold typed_part. cbn. rewrite Hstr.
  unfold Part.normalized. rewrite !range_eta. reflexivity.
Qed.

Lemma part_to_dict_round_trip_witness :
  exists dp,
    part_from_dict sample_str (part_to_dict sample_part) = Ok dp
    /\ typed_part dp = Some (Part.normalized sample_part).
Proof.
  apply (part_to_dict_round_trip sample_str sample_part). reflexivity.
Defined.

Lemma record_id_default (d : json) (a b n : Z) :
  record_id a d = Ok n -> record_id b d = Ok n \/ (n = a /\ record_id b d = Ok b).
Proof.
  unfold record_id, py_get. destruct d; try discriminate. cbn [bind].
  destruct (dict_get "id" d) as [v|]; [auto|].
  cbn. intros E. inversion E. auto.
Qed.

Lemma fold_max_ge (l : list Z) (m : Z) :
  m <= fold_left Z.max l m /\ forall n, In n l -> n <= fold_left Z.max l m.
Proof.
  revert m. induction l as [|x l IH]; intros m; simpl.
  - split; [lia | intros n []].
  - destruct (IH (Z.max m x)) as [H1 H2]. split; [lia|].
    intros n [->|Hn]; [lia | auto].
Qed.

(** X2.  The id [next_id] returns is at least 1 and above the id under
    which the lookup loops find any stored record: a new record never
    shares its id with a stored one. *)
Theorem next_id_fresh (parts : list json) (d : json) (n : Z) :
  In d parts -> record_id (-1) d = Ok n -> n < next_id parts /\ 1 <= next_id parts.
Proof.
  intros Hin Hid. unfold next_id. rewrite next_id_fold by lia.
  destruct (fold_max_ge (map id_or_zero parts) 0) as [H0 Hall].
  split; [|lia].
  destruct (record_id_default d (-1) 0 n Hid) as [H|[-> _]]; [|lia].
  assert (Hn : n <= fold_left Z.max (map id_or_zero parts) 0).
  { apply Hall. apply in_map_iff. exists d. split; [|exact Hin].
    unfold id_or_zero. rewrite H. reflexivity. }
  lia.
Qed.

Lemma next_id_fresh_witness :
  1 < next_id [sample_record (JInt 1) 5; sample_record (JStr "abc") 2]
  /\ 1 <= next_id [sample_record (JInt 1) 5; sample_record (JStr "abc") 2].
Proof.
  apply (next_id_fresh [sample_record (JInt 1) 5; sample_record (JStr "abc") 2]
           (sample_record (JInt 1) 5) 1).
  - left. reflexivity.
  - reflexivity.
Defined.

(** ** Loading *)

(** X3.  Whatever the file holds, a database [load_db] returns has a
    sequence under "parts" and a value under "version": the actions can
    read [db["parts"]] and iterate over it. *)
Theorem load_db_shape (f : file) (db : list (string * json)) :
  load_db f = Ok db ->
  has_parts_list db = true /\ dict_get "version" db <> None.
Proof.
  assert (E : has_parts_list empty_db = true
              /\ dict_get "version" empty_db <> None)
    by (split; [reflexivity | discriminate]).
  destruct f as [| | |v]; simpl; try discriminate;
    try (intros H; inversion H; subst; exact E).
  destruct v; try (intros H; inversion H; subst; exact E).
  intros H. inversion H. clear H. subst db. unfold has_parts_list.
  set (d1 := match dict_get "parts" d with
             | Some (JList _) => d
             | _ => dict_set "parts" (JList []) d
             end).
  assert (P : exists l, dict_get "parts" d1 = Some (JList l)).
  { subst d1. destruct (dict_get "parts" d) as [[]|] eqn:G;
      try (exists []; apply dict_get_set_same).
    exists l. exact G. }
  destruct P as [l P].
  destruct (dict_get "version" d1) eqn:V.
  - rewrite P, V. split; [reflexivity | discriminate].
  - rewrite (dict_get_set_other "parts" "version") by discriminate.
    rewrite P, dict_get_set_same. split; [reflexivity | discriminate].
Qed.

Lemma load_db_shape_witness :
  has_parts_list [("version", JInt 2); ("parts", JList []); ("owner", JStr "lab")]
  = true
  /\ dict_get "version"
       [("version", JInt 2); ("parts", JList []); ("owner", JStr "lab")]
     <> None.
Proof.
  apply (load_db_shape sample_versioned_file). reflexivity.
Defined.

(** X4.  A file whose top-level record has a sequence under "parts" loses
    nothing on loading: the records are the file's, and so is every field
    but "version", which is the file's when it has one and 1 otherwise. *)
Theorem load_db_keeps_parts (data : list (string * json)) (l : list json) :
  dict_get "parts" data = Some (JList l) ->
  exists db,
    load_db (Content (JDict data)) = Ok db
    /\ dict_get "parts" db = Some (JList l)
    /\ dict_get "version" db
       = Some (match dict_get "version" data with
               | Some v => v
               | None => JInt 1
               end)
    /\ forall k, k <> "version" -> dict_get k db = dict_get k data.
Proof.
  intros P. unfold load_db. rewrite P. eexists. split; [reflexivity|].
  destruct (dict_get "version" data) as [v|] eqn:V.
  - repeat split; auto.
  - rewrite (dict_get_set_other "parts" "version") by discriminate.
    rewrite dict_get_set_same. repeat split; auto.
    intros k K. apply dict_get_set_other. exact K.
Qed.

Lemma load_db_keeps_parts_witness :
  exists db,
    load_db (Content (JDict [("parts", JList [sample_record (JInt 1) 5])]))
    = Ok db
    /\ dict_get "parts" db = Some (JList [sample_record (JInt 1) 5])
    /\ dict_get "version" db = Some (JInt 1)
    /\ forall k, k <> "version" ->
         dict_get k db
         = dict_get k [("parts", JList [sample_record (JInt 1) 5])].
Proof.
  apply (load_db_keeps_parts [("parts", JList [sample_record (JInt 1) 5])]
           [sample_record (JInt 1) 5]).
  reflexivity.
Defined.

(** ** Remove *)

(** X5.  Without a decrement, [action_remove] deletes the first record
    whose id is the requested one, whatever its other fields hold, keeps
    every other record in its place, and saves. *)
Theorem action_remove_deletes (pre post : list json) (d : json) (id_ : Z) :
  forallb (passed_over id_) pre = true ->
  record_id (-1) d = Ok id_ ->
  action_remove (pre ++ d :: post) id_ None
  = Ok {| parts_after := pre ++ post; saved := true; printed := Deleted |}.
Proof.
  intros Hpre Hid.
  rewrite (action_remove_passes pre (d :: post) id_ None Hpre).
  cbn [action_remove]. rewrite Hid. cbn [bind]. rewrite Z.eqb_refl.
  reflexivity.
Qed.

Lemma action_remove_deletes_witness :
  action_remove ([sample_record (JInt 1) 5] ++ sample_record (JInt 2) 4
                 :: [sample_record (JInt 2) 9]) 2 None
  = Ok {| parts_after := [sample_record (JInt 1) 5] ++ [sample_record (JInt 2) 9];
          saved := true; printed := Deleted |}.
Proof.
  apply (action_remove_deletes [sample_record (JInt 1) 5]
           [sample_record (JInt 2) 9] (sample_record (JInt 2) 4) 2);
    reflexivity.
Defined.

(** X6.  When no stored record has the requested id, [action_remove]
    prints Not found, saves nothing and leaves the records as they are;
    the decrement is not looked at, so a decrement of zero or less gets no
    usage message here. *)
Theorem action_remove_not_found (parts : list json) (id_ : Z)
  (decrement : option Z) :
  forallb (passed_over id_) parts = true ->
  action_remove parts id_ decrement
  = Ok {| parts_after := parts; saved := false; printed := NotFound |}.
Proof.
  intros H.
  pose proof (action_remove_passes parts [] id_ decrement H) as E.
  rewrite !app_nil_r in E. rewrite E. cbn. rewrite app_nil_r. reflexivity.
Qed.

Lemma action_remove_not_found_witness :
  action_remove [sample_record (JInt 1) 5] 7 (Some 0)
  = Ok {| parts_after := [sample_record (JInt 1) 5]; saved := false;
          printed := NotFound |}.
Proof.
  apply (action_remove_not_found [sample_record (JInt 1) 5] 7 (Some 0)).
  reflexivity.
Defined.

(** ** Validation *)

Lemma validate_part_ok (p q : Part.t) :
  validate_part p = Ok q ->
  q = Part.normalized p
  /\ PyStr.is_empty (Part.category q) = false
  /\ PyStr.is_empty (Part.name q) = false
  /\ 0 < Part.quantity q
  /\ negative_bound (Part.voltage q) = false
  /\ negative_bound (Part.current q) = false.
Proof.
  unfold validate_part, negative_bound.
  destruct (PyStr.is_empty (Part.category (Part.normalized p))) eqn:C;
    [discriminate|].
  destruct (PyStr.is_empty (Part.name (Part.normalized p))) eqn:N;
    [discriminate|].
  destruct (Part.quantity (Part.normalized p) <=? 0) eqn:Q; [discriminate|].
  destruct (PyFloat.ltb (RangeSpec.min (Part.voltage (Part.normalized p)))
                        PyFloat.zero
            || PyFloat.ltb (RangeSpec.max (Part.voltage (Part.normalized p)))
                           PyFloat.zero) eqn:V; [discriminate|].
  destruct (PyFloat.ltb (RangeSpec.min (Part.current (Part.normalized p)))
                        PyFloat.zero
            || PyFloat.ltb (RangeSpec.max (Part.current (Part.normalized p)))
                           PyFloat.zero) eqn:I; [discriminate|].
  intros E. inversion E. subst q. apply Z.leb_gt in Q. auto 10.
Qed.

Lemma not_nan_part_bounds (p : Part.t) :
  not_nan_part p = true ->
  PyFloat.is_nan (RangeSpec.min (Part.voltage p)) = false
  /\ PyFloat.is_nan (RangeSpec.max (Part.voltage p)) = false
  /\ PyFloat.is_nan (RangeSpec.min (Part.current p)) = false
  /\ PyFloat.is_nan (RangeSpec.max (Part.current p)) = false.
Proof.
  unfold not_nan_part, not_nan_range. intros H.
  apply andb_true_iff in H. destruct H as [V I].
  apply andb_true_iff in V. apply andb_true_iff in I.
  destruct V as [V1 V2], I as [I1 I2].
  apply negb_true_iff in V1, V2, I1, I2. auto.
Qed.

Lemma part_normalized_idem_b (p : Part.t) :
  not_nan_part p = true ->
  Part.normalized (Part.normalized p) = Part.normalized p.
Proof.
  intros H. destruct (not_nan_part_bounds p H) as (V1 & V2 & I1 & I2).
  apply part_normalized_idem; assumption.
Qed.

(** X7.  A part that passed validation passes it again unchanged, when
    the bounds of its ranges are numbers: validating is idempotent. *)
Theorem validate_part_idempotent (p q : Part.t) :
  not_nan_part p = true ->
  validate_part p = Ok q ->
  validate_part q = Ok q.
Proof.
  intros Hn Hv.
  destruct (validate_part_ok p q Hv) as (-> & _).
  revert Hv. unfold validate_part.
  rewrite (part_normalized_idem_b p Hn). auto.
Qed.

Lemma validate_part_idempotent_witness :
  validate_part (Part.normalized sample_part)
  = Ok (Part.normalized sample_part).
Proof.
  apply (validate_part_idempotent sample_part (Part.normalized sample_part));
    reflexivity.
Defined.

(** ** Bound order *)

Lemma ltb_leb (a b : PyFloat.float) :
  PyFloat.ltb a b = true -> PyFloat.leb a b = true /\ PyFloat.leb b a = false.
Proof.
  unfold PyFloat.ltb, PyFloat.leb, SFltb, SFleb.
  rewrite (SFcompare_antisym a b).
  destruct (SFcompare a b) as [[]|]; simpl; try discriminate. auto.
Qed.

(** X8.  The order in which two different bounds are given does not
    matter: a range entered as b-a with a < b normalizes to the range a-b,
    and has its display form and its key. *)
Theorem range_bound_order (a b : PyFloat.float) (u : string) :
  PyFloat.ltb a b = true ->
  RangeSpec.normalized (RangeSpec.mk b a u)
  = RangeSpec.normalized (RangeSpec.mk a b u)
  /\ RangeSpec.fmt (RangeSpec.mk b a u) = RangeSpec.fmt (RangeSpec.mk a b u)
  /\ RangeSpec.key (RangeSpec.mk b a u) = RangeSpec.key (RangeSpec.mk a b u).
Proof.
  intros H. destruct (ltb_leb a b H) as [Hab Hba].
  assert (E : RangeSpec.normalized (RangeSpec.mk b a u)
              = RangeSpec.normalized (RangeSpec.mk a b u)).
  { unfold RangeSpec.normalized. simpl. rewrite Hab, Hba. reflexivity. }
  unfold RangeSpec.fmt, RangeSpec.key. rewrite E. auto.
Qed.

Lemma range_bound_order_witness :
  RangeSpec.normalized (RangeSpec.mk (PyFloat.of_Z 24) (PyFloat.of_Z 1) "V")
  = RangeSpec.normalized (RangeSpec.mk (PyFloat.of_Z 1) (PyFloat.of_Z 24) "V")
  /\ RangeSpec.fmt (RangeSpec.mk (PyFloat.of_Z 24) (PyFloat.of_Z 1) "V")
     = RangeSpec.fmt (RangeSpec.mk (PyFloat.of_Z 1) (PyFloat.of_Z 24) "V")
  /\ RangeSpec.key (RangeSpec.mk (PyFloat.of_Z 24) (PyFloat.of_Z 1) "V")
     = RangeSpec.key (RangeSpec.mk (PyFloat.of_Z 1) (PyFloat.of_Z 24) "V").
Proof.
  apply (range_bound_order (PyFloat.of_Z 1) (PyFloat.of_Z 24) "V").
  reflexivity.
Defined.

(** ** Add, then add or remove *)

Lemma next_id_above (parts : list json) (d : json) (n : Z) :
  In d parts -> record_id (-1) d = Ok n -> n < next_id parts.
Proof.
  intros Hin Hid. pose proof (next_id_positive parts) as Hpos.
  destruct (record_id_default d (-1) 0 n Hid) as [H|[-> _]]; [|lia].
  unfold next_id in *. rewrite next_id_fold in * by lia.
  destruct (fold_max_ge (map id_or_zero parts) 0) as [_ Hall].
  assert (Hn : n <= fold_left Z.max (map id_or_zero parts) 0).
  { apply Hall. apply in_map_iff. exists d. split; [|exact Hin].
    unfold id_or_zero. rewrite H. reflexivity. }
  lia.
Qed.

Lemma passed_over_next_id (parts : list json) :
  forallb id_converts parts = true ->
  forallb (passed_over (next_id parts)) parts = true.
Proof.
  intros H. apply forallb_forall. intros d Hin.
  rewrite forallb_forall in H. specialize (H d Hin).
  unfold id_converts in H. unfold passed_over.
  destruct (record_id (-1) d) as [k|] eqn:E; [|discriminate].
  pose proof (next_id_above parts d k Hin E).
  apply negb_true_iff, Z.eqb_neq. lia.
Qed.

Lemma dedupe_key_fields (c n : string) (v i : RangeSpec.t) (q1 q2 : Z)
  (o1 o2 : string) :
  Part.dedupe_key (Part.mk c n v i q1 o1) = Part.dedupe_key (Part.mk c n v i q2 o2).
Proof. reflexivity. Qed.

Lemma new_record_facts (p : Part.t) (n : Z) (d : json) :
  py_setitem (part_to_dict p) "id" (JInt n) = Ok d ->
  record_id (-1) d = Ok n /\ record_quantity d = Ok (Part.quantity p).
Proof. intros E. injection E as <-. split; reflexivity. Qed.

Section AddCompositions.

Variable py_str : json -> string.

(** What [action_add] does when the merge loop finds nothing. *)
Lemma action_add_appended (candidate : Part.t) (parts : list json)
  (o : outcome) (n : Z) :
  action_add py_str candidate parts = Ok o ->
  printed o = Added n ->
  exists p d,
    validate_part candidate = Ok p
    /\ merge_scan py_str (Part.dedupe_key p) (Part.quantity p) parts = Ok None
    /\ py_setitem (part_to_dict p) "id" (JInt n) = Ok d
    /\ n = next_id parts
    /\ o = {| parts_after := parts ++ [d]; saved := true; printed := Added n |}.
Proof.
  unfold action_add.
  destruct (validate_part candidate) as [p|]; [|discriminate]. cbn [bind].
  destruct (merge_scan py_str (Part.dedupe_key p) (Part.quantity p) parts)
    as [[[l t]|]|] eqn:Hm; try discriminate; cbn [bind].
  - intros E. injection E as <-. discriminate.
  - unfold py_setitem, part_to_dict. cbn [bind].
    intros E. injection E as <-. cbn [printed].
    intros N. injection N as <-.
    exists p. eexists.
    split; [reflexivity|]. split; [exact Hm|]. repeat split; reflexivity.
Qed.

(** X9.  A part that was added as a new record is gone again after
    [remove <id> -n <quantity>] with the id that add reported and the
    quantity that was added: the stored records are the ones from before
    the add.  (The ids of the stored records convert.) *)
Theorem add_then_remove_restores (candidate : Part.t) (parts : list json)
  (o : outcome) (n : Z) :
  forallb id_converts parts = true ->
  action_add py_str candidate parts = Ok o ->
  printed o = Added n ->
  action_remove (parts_after o) n (Some (Part.quantity candidate))
  = Ok {| parts_after := parts; saved := true; printed := HitZero |}.
Proof.
  intros Hids Hadd Hn.
  destruct (action_add_appended candidate parts o n Hadd Hn)
    as (p & d & Hv & _ & Hd & -> & ->).
  clear Hadd Hn.
  destruct (validate_part_ok candidate p Hv) as (Hp & _ & _ & Hq & _).
  destruct (new_record_facts p _ d Hd) as [Hid Hqty].
  assert (Q : Part.quantity p = Part.quantity candidate)
    by (subst p; reflexivity).
  rewrite Q in *.
  cbn [parts_after].
  rewrite (action_remove_passes parts [d] (next_id parts) _
             (passed_over_next_id parts Hids)).
  cbn [action_remove]. rewrite Hid. cbn [bind]. rewrite Z.eqb_refl.
  apply Z.leb_gt in Hq. rewrite Hq.
  fold (record_quantity d). rewrite Hqty. cbn [bind].
  rewrite Z.sub_diag. cbn. rewrite app_nil_r. reflexivity.
Qed.

Lemma merge_scan_none_no_match (k : string * string * string * string)
  (qty : Z) (parts : list json) :
  valid_db py_str parts = true ->
  merge_scan py_str k qty parts = Ok None ->
  existsb (matches py_str k) parts = false.
Proof.
  induction parts as [|x parts IH]; intros Hv H; [reflexivity|].
  simpl in Hv. apply andb_true_iff in Hv. destruct Hv as [Hx Hv].
  cbn [merge_scan] in H. simpl. unfold matches at 1, record_key.
  assert (C : (r <- merge_scan py_str k qty parts ;;
               Ok (option_map (fun '(l, n) => (x :: l, n)) r)) = Ok None ->
              existsb (matches py_str k) parts = false).
  { destruct (merge_scan py_str k qty parts) as [[[l n]|]|];
      try discriminate. intros _. apply IH; [exact Hv | reflexivity]. }
  destruct (part_from_dict py_str x) as [dp|e] eqn:Hd; [|exact (C H)].
  destruct (dyn_dedupe_key dp) as [k'|]; [|discriminate]. cbn [bind] in H.
  destruct (key_eqb k' k); [|exact (C H)].
  exfalso. fold (record_quantity x) in H.
  rewrite (part_from_dict_quantity py_str x dp Hd) in H. cbn [bind] in H.
  destruct (py_setitem x "quantity" (JInt (dquantity dp + qty)));
    discriminate.
Qed.

(** The record [action_add] appends decodes, with the quantity and the
    key of the part. *)
Lemma new_record_key (p : Part.t) (n : Z) (d : json) :
  py_setitem (part_to_dict p) "id" (JInt n) = Ok d ->
  exists dp,
    part_from_dict py_str d = Ok dp
    /\ dquantity dp = Part.quantity p
    /\ dyn_dedupe_key dp = Ok (Part.dedupe_key (Part.normalized p)).
Proof.
  intros E. injection E as <-. eexists. split; [reflexivity|].
  split; [reflexivity|].
  unfold dyn_dedupe_key, typed_part. cbn. rewrite !range_eta. reflexivity.
Qed.

(** X10.  Adding the same part a second time creates no second record:
    when the first add appended a record, the second one merges into it,
    and the record then holds twice the quantity under the same id.  (The
    bounds of the part are numbers and the database is valid.) *)
Theorem add_twice_merges (candidate : Part.t) (parts : list json)
  (o : outcome) (n : Z) :
  not_nan_part candidate = true ->
  valid_db py_str parts = true ->
  action_add py_str candidate parts = Ok o ->
  printed o = Added n ->
  exists d',
    action_add py_str candidate (parts_after o)
    = Ok {| parts_after := parts ++ [d']; saved := true;
            printed := Merged (Part.quantity candidate
                               + Part.quantity candidate) |}
    /\ record_id (-1) d' = Ok n
    /\ record_quantity d'
       = Ok (Part.quantity candidate + Part.quantity candidate).
Proof.
  intros Hnan Hdb Hadd Hn.
  destruct (action_add_appended candidate parts o n Hadd Hn)
    as (p & d & Hv & Hscan & Hd & -> & ->).
  clear Hadd Hn.
  destruct (validate_part_ok candidate p Hv) as (Hp & _).
  pose proof (merge_scan_none_no_match _ _ parts Hdb Hscan) as Hno.
  destruct (new_record_facts p _ d Hd) as [Hid Hqty].
  destruct (new_record_key p _ d Hd) as (dp & Hdp & Hq & Hk).
  assert (K : Part.dedupe_key (Part.normalized p) = Part.dedupe_key p).
  { unfold Part.dedupe_key. subst p.
    rewrite !(part_normalized_idem_b candidate Hnan). reflexivity. }
  rewrite K in Hk.
  assert (Q : Part.quantity p = Part.quantity candidate)
    by (subst p; reflexivity).
  cbn [parts_after]. unfold action_add. rewrite Hv. cbn [bind].
  rewrite (merge_scan_passes py_str _ _ parts [d] Hdb Hno).
  destruct (part_from_dict_setitem py_str d dp
              (dquantity dp + Part.quantity p) Hdp) as [d' Hs].
  rewrite (merge_scan_at_match py_str _ d [] dp d' _ Hdp Hk Hs).
  cbn [bind option_map]. rewrite Hq, Q in *.
  exists d'. split; [reflexivity|]. split.
  - rewrite (record_id_set_quantity (-1) _ d d' Hs). exact Hid.
  - destruct (setitem_quantity d (Part.quantity candidate)
                (Part.quantity candidate + Part.quantity candidate) Hqty)
      as (d2 & Hs2 & Hq2 & _).
    rewrite Hs in Hs2. injection Hs2 as <-. exact Hq2.
Qed.

End AddCompositions.

Lemma add_then_remove_restores_witness :
  action_remove [sample_record (JInt 1) 5; sample_sensor_record 3 2] 2 (Some 3)
  = Ok {| parts_after := [sample_record (JInt 1) 5]; saved := true;
          printed := HitZero |}.
Proof.
  apply (add_then_remove_restores sample_str sample_sensor
           [sample_record (JInt 1) 5]
           {| parts_after := [sample_record (JInt 1) 5; sample_sensor_record 3 2];
              saved := true; printed := Added 2 |} 2); reflexivity.
Defined.

Lemma add_twice_merges_witness :
  exists d',
    action_add sample_str sample_sensor
      [sample_record (JInt 1) 5; sample_sensor_record 3 2]
    = Ok {| parts_after := [sample_record (JInt 1) 5] ++ [d']; saved := true;
            printed := Merged (3 + 3) |}
    /\ record_id (-1) d' = Ok 2
    /\ record_quantity d' = Ok (3 + 3).
Proof.
  apply (add_twice_merges sample_str sample_sensor
           [sample_record (JInt 1) 5]
           {| parts_after := [sample_record (JInt 1) 5; sample_sensor_record 3 2];
              saved := true; printed := Added 2 |} 2); reflexivity.
Defined.

Lemma action_add_keeps_valid_witness :
  valid_db sample_str [sample_record (JInt 1) 5; sample_sensor_record 3 2]
  = true.
Proof.
  apply (action_add_keeps_valid sample_str sample_sensor
           [sample_record (JInt 1) 5]
           {| parts_after := [sample_record (JInt 1) 5; sample_sensor_record 3 2];
              saved := true; printed := Added 2 |}); reflexivity.
Defined.

(** ** What [parse_range] returns *)

Lemma binary_round_aux_sign (m e : Z) (l : location) :
  sign_clear (binary_round_aux PyFloat.prec PyFloat.emax false m e l) = true.
Proof.
  unfold binary_round_aux.
  destruct (shr_fexp PyFloat.prec PyFloat.emax m e l) as [mrs e'].
  destruct (shr_fexp PyFloat.prec PyFloat.emax
              (round_nearest_even (shr_m mrs) (loc_of_shr_record mrs)) e'
              loc_Exact) as [mrs' e''].
  destruct (shr_m mrs'); try reflexivity.
  destruct (e'' <=? PyFloat.emax - PyFloat.prec); reflexivity.
Qed.

Lemma of_decimal_sign (n k : Z) :
  sign_clear (PyFloat.of_decimal false n k) = true.
Proof.
  unfold PyFloat.of_decimal. destruct n; try reflexivity.
  destruct (0 <=? k).
  - unfold binary_round.
    destruct (shl_align _ _ _) as [mz ez]. apply binary_round_aux_sign.
  - destruct (SFdiv_core_binary _ _ _ _ _ _) as [[q e] l].
    apply binary_round_aux_sign.
Qed.

Lemma contains_drop_while (ch : ascii) (p : ascii -> bool) (s : string) :
  PyStr.contains ch s = false -> PyStr.contains ch (PyStr.drop_while p s) = false.
Proof.
  induction s as [|c s IH]; simpl; [auto|]. intros H.
  destruct (p c); [|exact H].
  apply orb_false_iff in H. apply IH. apply H.
Qed.

Lemma contains_drop_end (ch : ascii) (p : ascii -> bool) (s : string) :
  PyStr.contains ch s = false -> PyStr.contains ch (PyStr.drop_end p s) = false.
Proof.
  induction s as [|c s IH]; simpl; [auto|]. intros H.
  apply orb_false_iff in H. destruct H as [Hc Hs].
  destruct (p c && PyStr.is_empty (PyStr.drop_end p s)); [reflexivity|].
  simpl. rewrite Hc. apply IH. exact Hs.
Qed.

Lemma contains_remove_char (ch c0 : ascii) (s : string) :
  PyStr.contains ch s = false ->
  PyStr.contains ch (PyStr.remove_char c0 s) = false.
Proof.
  induction s as [|c s IH]; simpl; [auto|]. intros H.
  apply orb_false_iff in H. destruct H as [Hc Hs].
  destruct (Ascii.eqb c c0); simpl; [|rewrite Hc]; apply IH; exact Hs.
Qed.

Lemma split_sign_no_minus (s : string) :
  PyStr.contains "-" s = false -> fst (PyStr.split_sign s) = false.
Proof.
  destruct s as [|c s]; [reflexivity|]. simpl. intros H.
  apply orb_false_iff in H. destruct H as [Hc _]. revert Hc.
  destruct c as [[] [] [] [] [] [] [] []]; cbn; auto.
Qed.

(** [float] gives no negative number, and no negative zero, for a text
    without a minus sign. *)
Lemma of_string_sign (s : string) (x : PyFloat.float) :
  PyStr.contains "-" s = false ->
  PyFloat.of_string s = Some x -> sign_clear x = true.
Proof.
  intros Hs. unfold PyFloat.of_string.
  destruct (PyStr.underscores_ok _ _); [|discriminate].
  pose proof (split_sign_no_minus
                (PyStr.remove_char "_" (PyStr.strip_with PyStr.is_blank s))) as F.
  destruct (PyStr.split_sign _) as [sgn body]. simpl in F.
  rewrite F.
  - destruct (_ || _).
    { intros E. inversion E. reflexivity. }
    destruct (String.eqb _ "nan").
    { intros E. inversion E. reflexivity. }
    destruct (PyFloat.parse_decimal body) as [[n k]|]; [|discriminate].
    intros E. inversion E. apply of_decimal_sign.
  - apply contains_remove_char. unfold PyStr.strip_with.
    apply contains_drop_end, contains_drop_while. exact Hs.
Qed.

Lemma sign_clear_not_negative (x : PyFloat.float) :
  sign_clear x = true -> PyFloat.ltb x PyFloat.zero = false.
Proof.
  destruct x as [s|s| |s m e]; try reflexivity; destruct s; try discriminate;
    reflexivity.
Qed.

Lemma split_first_fst (ch : ascii) (s : string) :
  PyStr.contains ch (fst (PyStr.split_first ch s)) = false.
Proof.
  induction s as [|c s IH]; simpl; [reflexivity|].
  destruct (Ascii.eqb c ch) eqn:E; [reflexivity|].
  destruct (PyStr.split_first ch s) as [a b]. simpl in *.
  rewrite E. exact IH.
Qed.

(** What [parse_range] guarantees of a range it returns. *)
Lemma parse_range_facts (text unit : string) (r : RangeSpec.t) :
  parse_range text unit = Ok r ->
  PyFloat.ltb (RangeSpec.min r) PyFloat.zero = false
  /\ sign_clear (RangeSpec.min r) = true
  /\ RangeSpec.unit r = PyStr.strip unit
  /\ PyStr.is_empty (RangeSpec.unit r) = false
  /\ PyStr.trimmed (RangeSpec.unit r) = true
  /\ (PyStr.contains "-" (squeezed text) = false ->
      RangeSpec.max r = RangeSpec.min r).
Proof.
  unfold parse_range. fold (squeezed text).
  destruct (PyStr.is_empty (squeezed text)); [discriminate|].
  destruct (PyStr.is_empty (PyStr.strip unit)) eqn:U; [discriminate|].
  assert (G : forall lo hi,
             sign_clear lo = true ->
             (PyStr.contains "-" (squeezed text) = false -> hi = lo) ->
             Ok (RangeSpec.mk lo hi (PyStr.strip unit)) = Ok r ->
             PyFloat.ltb (RangeSpec.min r) PyFloat.zero = false
             /\ sign_clear (RangeSpec.min r) = true
             /\ RangeSpec.unit r = PyStr.strip unit
             /\ PyStr.is_empty (RangeSpec.unit r) = false
             /\ PyStr.trimmed (RangeSpec.unit r) = true
             /\ (PyStr.contains "-" (squeezed text) = false ->
                 RangeSpec.max r = RangeSpec.min r)).
  { intros lo hi Hlo Heq E. injection E as <-. cbn.
    repeat split; auto using sign_clear_not_negative, strip_trimmed. }
  destruct (PyStr.contains "-" (squeezed text)) eqn:C.
  - pose proof (split_first_fst "-" (squeezed text)) as F.
    destruct (PyStr.split_first "-" (squeezed text)) as [a b]. simpl in F.
    unfold py_float.
    destruct (PyFloat.of_string a) as [lo|] eqn:A; [|discriminate].
    destruct (PyFloat.of_string b) as [hi|]; [|discriminate]. cbn [bind].
    apply G; [exact (of_string_sign a lo F A) | discriminate].
  - unfold py_float.
    destruct (PyFloat.of_string (squeezed text)) as [lo|] eqn:A;
      [|discriminate].
    cbn [bind]. apply G; [exact (of_string_sign _ lo C A) | reflexivity].
Qed.

(** X11.  A range [parse_range] returns has a lower bound that is not
    negative (a minus sign can only be read as part of the upper bound), a
    unit that is the given unit stripped and not empty, and, when the text
    holds no '-', equal bounds. *)
Theorem parse_range_result (text unit : string) (r : RangeSpec.t) :
  parse_range text unit = Ok r ->
  PyFloat.ltb (RangeSpec.min r) PyFloat.zero = false
  /\ sign_clear (RangeSpec.min r) = true
  /\ RangeSpec.unit r = PyStr.strip unit
  /\ PyStr.is_empty (RangeSpec.unit r) = false
  /\ PyStr.trimmed (RangeSpec.unit r) = true
  /\ (PyStr.contains "-" (squeezed text) = false ->
      RangeSpec.max r = RangeSpec.min r).
Proof. exact (parse_range_facts text unit r). Qed.

Lemma parse_range_result_witness :
  PyFloat.ltb (PyFloat.of_Z 5) PyFloat.zero = false
  /\ sign_clear (PyFloat.of_Z 5) = true
  /\ "V" = PyStr.strip " V"
  /\ PyStr.is_empty "V" = false
  /\ PyStr.trimmed "V" = true
  /\ (PyStr.contains "-" (squeezed "5--3") = false ->
      PyFloat.of_Z (-3) = PyFloat.of_Z 5).
Proof.
  apply (parse_range_result "5--3" " V"
           (RangeSpec.mk (PyFloat.of_Z 5) (PyFloat.of_Z (-3)) "V")).
  reflexivity.
Defined.

(* ================================================================== *)
(** * Properties of the prompts *)

Lemma prompt_int_loop_spec (text : string) (default : Z)
  (lines : list string) (out : list echo) :
  match prompt_int_loop text default lines out with
  | Done n c =>
      0 < n
      /\ exists used line,
           lines = (used ++ line :: stdin c)%list
           /\ int_of_string (answered (fun s => s) (str_of_Z default) line)
              = Ok n
  | Failed _ => False
  | Eof => True
  end.
Proof.
  revert out. induction lines as [|line rest IH]; intros out; [exact I|].
  cbn [prompt_int_loop]. unfold prompt. cbn [stdin stdout].
  fold (answered (fun s : string => s) (str_of_Z default) line).
  assert (Step : forall o,
             match prompt_int_loop text default rest o with
             | Done m c =>
                 0 < m
                 /\ exists used l,
                      (line :: rest = used ++ l :: stdin c)%list
                      /\ int_of_string
                           (answered (fun s => s) (str_of_Z default) l) = Ok m
             | Failed _ => False
             | Eof => True
             end).
  { intros o. specialize (IH o).
    destruct (prompt_int_loop text default rest o) as [m c| |]; auto.
    destruct IH as (Hm & used & l & -> & Hl).
    split; [exact Hm|]. exists (line :: used), l. auto. }
  destruct (int_of_string (answered (fun s => s) (str_of_Z default) line))
    as [n|e] eqn:E; [|apply Step].
  destruct (n <=? 0) eqn:N; [apply Step|].
  apply Z.leb_gt in N. split; [exact N|].
  exists [], line. auto.
Qed.

(** X12.  [prompt_int] never raises on what is typed and never returns
    zero or a negative number: it ends at the end of the input, or with a
    positive integer, which is what the last line it read says (the
    default, when that line is blank). *)
Theorem prompt_int_positive (text : string) (default : Z) (c : console) :
  match prompt_int text default c with
  | Done n c' =>
      0 < n
      /\ exists used line,
           stdin c = (used ++ line :: stdin c')%list
           /\ int_of_string (answered (fun s => s) (str_of_Z default) line)
              = Ok n
  | Failed _ => False
  | Eof => True
  end.
Proof. apply prompt_int_loop_spec. Qed.

Lemma parse_range_dyn_facts (text : string) (unit : json) (r : RangeSpec.t) :
  parse_range_dyn text unit = Ok r ->
  sign_clear (RangeSpec.min r) = true
  /\ PyStr.is_empty (RangeSpec.unit r) = false
  /\ PyStr.trimmed (RangeSpec.unit r) = true.
Proof.
  unfold parse_range_dyn. destruct unit;
    try (destruct (PyStr.is_empty (squeezed text)); discriminate).
  intros H. destruct (parse_range_facts text s r H) as (_ & A & _ & B & C & _).
  auto.
Qed.

Lemma prompt_range_loop_spec (label def_range : string) (def_unit : json)
  (lines : list string) (out : list echo) :
  match prompt_range_loop label def_range def_unit lines out with
  | Done r c =>
      exists used l1 l2,
        lines = (used ++ l1 :: l2 :: stdin c)%list
        /\ parse_range_dyn (answered (fun s => s) def_range l1)
                           (answered JStr def_unit l2) = Ok r
  | Failed _ => False
  | Eof => True
  end.
Proof.
  revert out.
  assert (G : forall n (lines : list string),
             (List.length lines <= n)%nat -> forall out,
             match prompt_range_loop label def_range def_unit lines out with
             | Done r c =>
                 exists used l1 l2,
                   lines = (used ++ l1 :: l2 :: stdin c)%list
                   /\ parse_range_dyn (answered (fun s => s) def_range l1)
                                      (answered JStr def_unit l2) = Ok r
             | Failed _ => False
             | Eof => True
             end).
  { induction n as [|n IH]; intros [|l1 [|l2 rest]] Hlen out;
      try exact I; try (simpl in Hlen; lia).
    cbn [prompt_range_loop]. unfold io_bind, prompt, io_ret.
    cbn [stdin stdout].
    fold (answered (fun s : string => s) def_range l1).
    fold (answered JStr def_unit l2).
    destruct (parse_range_dyn _ _) as [x|e] eqn:E.
    - exists [], l1, l2. auto.
    - match goal with
      | |- context [prompt_range_loop _ _ _ rest ?o] =>
          specialize (IH rest ltac:(simpl in Hlen; lia) o);
          destruct (prompt_range_loop label def_range def_unit rest o)
            as [r c| |]; auto
      end.
      destruct IH as (used & a & b & -> & Hp).
      exists (l1 :: l2 :: used), a, b. auto. }
  intros out. apply (G (List.length lines)). lia.
Qed.

(** X13.  [prompt_range] never raises on what is typed: it ends at the end
    of the input or with a range [parse_range] accepted for a pair of
    answers.  That range has a lower bound that is not negative and a
    stripped unit that is not empty. *)
Theorem prompt_range_accepts (label def_range : string) (def_unit : json)
  (c : console) :
  match prompt_range label def_range def_unit c with
  | Done r c' =>
      (exists used l1 l2,
         stdin c = (used ++ l1 :: l2 :: stdin c')%list
         /\ parse_range_dyn (answered (fun s => s) def_range l1)
                            (answered JStr def_unit l2) = Ok r)
      /\ sign_clear (RangeSpec.min r) = true
      /\ PyStr.is_empty (RangeSpec.unit r) = false
      /\ PyStr.trimmed (RangeSpec.unit r) = true
  | Failed _ => False
  | Eof => True
  end.
Proof.
  unfold prompt_range.
  pose proof (prompt_range_loop_spec label def_range def_unit
                (stdin c) (stdout c)) as H.
  destruct (prompt_range_loop _ _ _ _ _) as [r c'| |]; auto.
  split; [exact H|].
  destruct H as (used & l1 & l2 & _ & Hp).
  apply (parse_range_dyn_facts _ _ r Hp).
Qed.

(** ** Add from the prompts *)

Lemma py_int_raise (v : json) (e : exn) :
  py_int v = Raise e -> exists c, e = Builtin c.
Proof.
  destruct v; simpl; try discriminate;
    try (intros H; inversion H; eauto; fail).
  - destruct x; simpl; try discriminate; intros H; inversion H; eauto.
  - unfold int_of_string.
    destruct (PyStr.underscores_ok _ _); [|intros H; inversion H; eauto].
    destruct (PyStr.split_sign _) as [neg body].
    destruct (PyStr.span _ _) as [ds rest].
    destruct (_ || _); [intros H; inversion H; eauto | discriminate].
Qed.

Lemma record_quantity_raise (d : json) (e : exn) :
  record_quantity d = Raise e -> exists c, e = Builtin c.
Proof.
  unfold record_quantity, py_get. destruct d; cbn [bind];
    try (intros H; inversion H; eauto; fail).
  apply py_int_raise.
Qed.

Ltac inv_raise :=
  match goal with
  | H : Raise _ = Raise _ |- _ => inversion H; subst; eauto
  | H : Ok _ = Raise _ |- _ => discriminate H
  end.

Lemma merge_scan_raise (py_str : json -> string)
  (k : string * string * string * string) (qty : Z) (parts : list json)
  (e : exn) :
  merge_scan py_str k qty parts = Raise e -> exists c, e = Builtin c.
Proof.
  induction parts as [|x parts IH]; [discriminate|].
  cbn [merge_scan].
  assert (C : (r <- merge_scan py_str k qty parts ;;
               Ok (option_map (fun '(l, n) => (x :: l, n)) r)) = Raise e ->
              exists c, e = Builtin c).
  { destruct (merge_scan py_str k qty parts) as [r|e'];
      [discriminate|]. cbn. intros H. inversion H. subst. auto. }
  destruct (part_from_dict py_str x) as [dp|]; [|exact C].
  unfold dyn_dedupe_key. destruct (typed_part dp); cbn [bind];
    [|intros H; inversion H; eauto].
  destruct (key_eqb _ k); [|exact C].
  fold (record_quantity x).
  destruct (record_quantity x) as [q|e'] eqn:Q; cbn [bind].
  - unfold py_setitem. destruct x; cbn [bind]; try discriminate;
      intros H; inversion H; eauto.
  - intros H. inversion H. subst. apply (record_quantity_raise x e Q).
Qed.

Lemma validate_part_raise (p : Part.t) (e : exn) :
  0 < Part.quantity p ->
  validate_part p = Raise e ->
  e <> ValueError "quantity must be > 0".
Proof.
  intros Hq. unfold validate_part.
  assert (Q : (Part.quantity (Part.normalized p) <=? 0) = false)
    by (apply Z.leb_gt; exact Hq).
  rewrite Q.
  repeat match goal with
         | |- (if ?b then _ else _) = _ -> _ => destruct b
         end;
    intros H; inversion H; discriminate.
Qed.

Lemma action_add_raise (py_str : json -> string) (p : Part.t)
  (parts : list json) (e : exn) :
  0 < Part.quantity p ->
  action_add py_str p parts = Raise e ->
  e <> ValueError "quantity must be > 0".
Proof.
  intros Hq. unfold action_add.
  destruct (validate_part p) as [q|e'] eqn:V; cbn [bind].
  - destruct (merge_scan py_str _ _ parts) as [[[l t]|]|e'] eqn:M;
      cbn [bind]; try discriminate.
    intros H. inversion H. subst.
    destruct (merge_scan_raise _ _ _ _ _ M) as [c ->]. discriminate.
  - intros H. inversion H. subst. apply (validate_part_raise p e Hq V).
Qed.

Lemma prompt_never_fails {A : Type} (entered : string -> A) (text : string)
  (default : option A) (c : console) :
  match prompt entered text default c with
  | Failed _ => False
  | _ => True
  end.
Proof.
  unfold prompt. destruct (stdin c); [exact I|]. destruct default; exact I.
Qed.

(** X14.  Interactive add cannot fail on the quantity: when [action_add]
    raises after its prompts, the error is not the quantity message of
    [validate_part], since [prompt_int] hands over a positive number. *)
Theorem action_add_prompted_quantity (py_str : json -> string)
  (parts : list json) (c : console) :
  match action_add_prompted py_str parts c with
  | Failed e => e <> ValueError "quantity must be > 0"
  | _ => True
  end.
Proof.
  unfold action_add_prompted, io_bind.
  pose proof (prompt_never_fails (fun s : string => s)
                "Category (Power/Sensor/Conductor/etc)" None c) as P1.
  destruct (prompt _ _ None c) as [category c1| |]; try contradiction; auto.
  pose proof (prompt_never_fails (fun s : string => s) "Name" None c1) as P2.
  destruct (prompt _ _ None c1) as [name c2| |]; try contradiction; auto.
  pose proof (prompt_range_loop_spec "Voltage" "1-24" (JStr "V")
                (stdin c2) (stdout c2)) as V.
  fold (prompt_range "Voltage" "1-24" (JStr "V") c2) in V.
  destruct (prompt_range "Voltage" "1-24" (JStr "V") c2)
    as [voltage c3| |]; try contradiction; auto.
  pose proof (prompt_range_loop_spec "Current" "0-1" (JStr "A")
                (stdin c3) (stdout c3)) as I.
  fold (prompt_range "Current" "0-1" (JStr "A") c3) in I.
  destruct (prompt_range "Current" "0-1" (JStr "A") c3)
    as [current c4| |]; try contradiction; auto.
  pose proof (prompt_int_loop_spec "Quantity" 1 (stdin c4) (stdout c4)) as Q.
  fold (prompt_int "Quantity" 1 c4) in Q.
  destruct (prompt_int "Quantity" 1 c4) as [qty c5| |];
    try contradiction; auto.
  destruct Q as [Hq _].
  pose proof (prompt_never_fails (fun s : string => s) "Notes (optional)"
                (Some "") c5) as P3.
  destruct (prompt _ _ (Some _) c5) as [notes c6| |]; try contradiction; auto.
  unfold io_lift.
  destruct (action_add py_str _ parts) as [o|e] eqn:A; auto.
  eapply action_add_raise; [|exact A]. exact Hq.
Qed.

(** ** Edit *)

Lemma dict_get_app (k : string) (a b : list (string * json)) :
  dict_get k (a ++ b)
  = match dict_get k a with
    | Some v => Some v
    | None => dict_get k b
    end.
Proof.
  induction a as [|[k' v'] a IH]; simpl; [reflexivity|].
  destruct (String.eqb k k'); [reflexivity | exact IH].
Qed.

(** After [dst.update(src)] a key holds what [src] gives it (the last
    entry, should [src] repeat the key), and what it held when [src] has
    no such key. *)
Lemma dict_get_update (k : string) (src dst : list (string * json)) :
  dict_get k (dict_update src dst)
  = match dict_get k (rev src) with
    | Some v => Some v
    | None => dict_get k dst
    end.
Proof.
  unfold dict_update. revert dst.
  induction src as [|[k0 v0] src IH]; intros dst; [reflexivity|].
  cbn [fold_left fst snd rev]. rewrite IH, dict_get_app.
  destruct (dict_get k (rev src)); [reflexivity|].
  cbn [dict_get]. destruct (String.eqb k k0) eqn:E.
  - apply String.eqb_eq in E. subst k0. apply dict_get_set_same.
  - apply dict_get_set_other. apply String.eqb_neq. exact E.
Qed.

Section EditFacts.

Variable py_str : json -> string.

(** What [d.update(part_to_dict(p))] leaves in the record: the id and
    every field that is none of the part's are kept, and the record
    decodes as the record of [p] alone does. *)
Lemma py_update_part (d d' : json) (p : Part.t) :
  py_update d (part_to_dict p) = Ok d' ->
  (forall a, record_id a d' = record_id a d)
  /\ (forall k default, existsb (String.eqb k) part_keys = false ->
        py_get d' k default = py_get d k default)
  /\ part_from_dict py_str d' = part_from_dict py_str (part_to_dict p).
Proof.
  remember (part_to_dict p) as src eqn:S. unfold py_update.
  destruct d as [| | | | | |dst]; try discriminate.
  destruct src as [| | | | | |kv]; try discriminate.
  intros E. injection E as <-.
  unfold part_to_dict in S. injection S as S.
  split; [|split].
  - intros a. unfold record_id, py_get. rewrite dict_get_update.
    subst kv. reflexivity.
  - intros k default Hk. unfold py_get. rewrite dict_get_update.
    subst kv. cbn [rev app dict_get]. cbn [existsb part_keys] in Hk.
    repeat (apply orb_false_iff in Hk; destruct Hk as [? Hk]).
    repeat match goal with
           | H : String.eqb k _ = false |- _ => rewrite H; clear H
           end.
    reflexivity.
  - unfold part_from_dict, py_getitem, py_get.
    rewrite !dict_get_update. subst kv. reflexivity.
Qed.

Lemma validate_entered_ok (category name : json) (v i : RangeSpec.t)
  (q : Z) (notes : string) (updated : Part.t) :
  validate_entered category name v i q notes = Ok updated ->
  exists entered, validate_part entered = Ok updated.
Proof.
  unfold validate_entered.
  destruct (str_value category), (str_value name); try discriminate.
  eauto.
Qed.

Ltac io_next H :=
  unfold io_bind at 1 in H;
  match type of H with
  | match io_lift ?r ?c with _ => _ end = _ =>
      let E := fresh "E" in
      destruct r eqn:E; cbn [io_lift] in H; [|discriminate H]
  | match ?m ?c with _ => _ end = _ =>
      let E := fresh "E" in
      destruct (m c) eqn:E; [|discriminate H|discriminate H]
  end.

(** X15.  When [action_edit] prints Updated, it has rewritten one record,
    the first with the requested id, in its place, and saved: the record
    keeps its id and every field that is not one of the six of a part,
    those six are the ones of a part that passed validation, and no other
    record is touched. *)
Theorem action_edit_updates (parts : list json) (id_ : Z) (c c' : console)
  (o : edit_outcome) :
  action_edit py_str parts id_ c = Done o c' ->
  edit_updated o = true ->
  exists pre d post updated entered d',
    parts = (pre ++ d :: post)%list
    /\ forallb (passed_over id_) pre = true
    /\ record_id (-1) d = Ok id_
    /\ validate_part entered = Ok updated
    /\ edit_parts o = (pre ++ d' :: post)%list
    /\ edit_saved o = true
    /\ record_id (-1) d' = Ok id_
    /\ (forall k default, existsb (String.eqb k) part_keys = false ->
          py_get d' k default = py_get d k default)
    /\ part_from_dict py_str d' = part_from_dict py_str (part_to_dict updated).
Proof.
  revert o. induction parts as [|d rest IH]; intros o H Hu.
  { cbn in H. injection H as <- _. discriminate Hu. }
  cbn [action_edit] in H. io_next H.
  destruct (a =? id_) eqn:N.
  - apply Z.eqb_eq in N. subst a.
    do 11 (io_next H). unfold io_ret in H. injection H as <- _.
    match goal with
    | V : validate_entered _ _ _ _ _ _ = Ok ?u,
      U : py_update d (part_to_dict ?u) = Ok ?d' |- _ =>
        destruct (validate_entered_ok _ _ _ _ _ _ _ V) as [entered Hv];
        destruct (py_update_part d d' u U) as (Hid & Hk & Hd);
        exists [], d, rest, u, entered, d'
    end.
    cbn [edit_parts edit_saved app forallb].
    rewrite Hid. auto 10.
  - io_next H. unfold io_ret in H. injection H as <- <-.
    cbn [edit_updated] in Hu.
    match goal with
    | IH' : forall o, Done ?o0 _ = Done o _ -> _ |- _ =>
        destruct (IH' o0 eq_refl Hu)
          as (pre & d0 & post & u & entered & d' & -> & Hp & Hi & Hv & Hparts
              & Hs & Hi' & Hk & Hd);
        exists (d :: pre), d0, post, u, entered, d'
    end.
    cbn [edit_parts edit_saved app forallb]. unfold passed_over at 1.
    match goal with E : record_id (-1) d = Ok _ |- _ => rewrite E end.
    rewrite N, Hp, Hparts. auto 10.
Qed.

(** X16.  When no stored record has the requested id, [action_edit] asks
    nothing, saves nothing and leaves the records as they are. *)
Theorem action_edit_not_found (parts : list json) (id_ : Z) (c : console) :
  forallb (passed_over id_) parts = true ->
  action_edit py_str parts id_ c
  = Done {| edit_parts := parts; edit_saved := false; edit_updated := false |}
         c.
Proof.
  induction parts as [|d rest IH]; intros H; [reflexivity|].
  simpl in H. apply andb_true_iff in H. destruct H as [Hd Hrest].
  unfold passed_over in Hd. cbn [action_edit]. unfold io_bind at 1.
  destruct (record_id (-1) d) as [n|]; [|discriminate]. cbn [io_lift].
  apply negb_true_iff in Hd. rewrite Hd. unfold io_bind.
  rewrite (IH Hrest). reflexivity.
Qed.

End EditFacts.

Lemma action_edit_updates_witness :
  exists o c',
    action_edit sample_show [sample_record (JInt 1) 5] 1 sample_answers
    = Done o c'
    /\ edit_updated o = true
    /\ exists pre d post updated entered d',
         [sample_record (JInt 1) 5] = (pre ++ d :: post)%list
         /\ forallb (passed_over 1) pre = true
         /\ record_id (-1) d = Ok 1
         /\ validate_part entered = Ok updated
         /\ edit_parts o = (pre ++ d' :: post)%list
         /\ edit_saved o = true
         /\ record_id (-1) d' = Ok 1
         /\ (forall k default, existsb (String.eqb k) part_keys = false ->
               py_get d' k default = py_get d k default)
         /\ part_from_dict sample_show d'
            = part_from_dict sample_show (part_to_dict updated).
Proof.
  eexists _, _. split; [vm_compute; reflexivity|].
  split; [reflexivity|].
  eapply (action_edit_updates sample_show [sample_record (JInt 1) 5] 1
            sample_answers);
    [vm_compute; reflexivity | reflexivity].
Defined.

Lemma action_edit_not_found_witness :
  forallb (passed_over 7) [sample_record (JInt 1) 5] = true
  /\ action_edit sample_show [sample_record (JInt 1) 5] 7 sample_answers
     = Done {| edit_parts := [sample_record (JInt 1) 5]; edit_saved := false;
               edit_updated := false |} sample_answers.
Proof.
  split; [vm_compute; reflexivity|].
  apply (action_edit_not_found sample_show [sample_record (JInt 1) 5] 7
           sample_answers).
  vm_compute; reflexivity.
Defined.

(* ================================================================== *)
(** * Properties of the tables *)

Lemma repeat_char_length (c : ascii) (n : nat) :
  String.length (PyStr.repeat_char c n) = n.
Proof. induction n; simpl; congruence. Qed.

Lemma ljust_length (s : string) (w : nat) :
  (String.length s <= w)%nat -> String.length (ljust s w) = w.
Proof.
  intros H. unfold ljust. rewrite append_length, repeat_char_length. lia.
Qed.

Lemma join_length (sep : string) (a b : list string) :
  Forall2 (fun x y => String.length x = String.length y) a b ->
  String.length (join sep a) = String.length (join sep b).
Proof.
  induction 1 as [|x y a b Hxy Hab IH]; [reflexivity|].
  destruct Hab as [|x' y' a' b' Hx' Hab'].
  - exact Hxy.
  - change (String.length (x ++ sep ++ join sep (x' :: a'))
            = String.length (y ++ sep ++ join sep (y' :: b'))).
    rewrite !append_length, Hxy, IH. reflexivity.
Qed.

Section TableFacts.

Variable py_str : json -> string.

Lemma fits_self (r : list json) : fits py_str (map (cell_width py_str) r) r.
Proof. induction r; constructor; auto. Qed.

Lemma fits_length (ws : list nat) (row : list json) :
  fits py_str ws row -> List.length ws = List.length row.
Proof. induction 1; simpl; congruence. Qed.

Lemma fits_zip_max_l (r : list json) (ws : list nat) :
  List.length r = List.length ws ->
  fits py_str (zip_max (map (cell_width py_str) r) ws) r.
Proof.
  revert ws. induction r as [|x r IH]; intros [|w ws] H;
    try discriminate; simpl; constructor.
  - lia.
  - apply IH. simpl in H. congruence.
Qed.

Lemma fits_zip_max_r (a ws : list nat) (row : list json) :
  fits py_str ws row -> List.length a = List.length ws ->
  fits py_str (zip_max a ws) row.
Proof.
  intros F. revert a. induction F as [|w cell ws row Hw F IH];
    intros [|x a] H; try discriminate; simpl; constructor.
  - lia.
  - apply IH. simpl in H. congruence.
Qed.

Lemma widths_zip_cons (r : list json) (cols : list (list json)) :
  map (fun col => list_max (map (cell_width py_str) col)) (zip_cons r cols)
  = zip_max (map (cell_width py_str) r)
            (map (fun col => list_max (map (cell_width py_str) col)) cols).
Proof.
  revert cols. induction r as [|x r IH]; intros [|col cols]; simpl;
    try reflexivity.
  rewrite IH. reflexivity.
Qed.

Lemma widths_single (r : list json) :
  widths py_str [r] = map (cell_width py_str) r.
Proof.
  unfold widths. simpl. rewrite map_map. apply map_ext.
  intros x. simpl. apply Nat.max_0_r.
Qed.

Lemma widths_cons (r r2 : list json) (rs : list (list json)) :
  widths py_str (r :: r2 :: rs)
  = zip_max (map (cell_width py_str) r) (widths py_str (r2 :: rs)).
Proof. unfold widths. cbn [columns]. apply widths_zip_cons. Qed.

(** In a table whose rows all have [n] cells there are [n] widths, and
    every row fits them. *)
Lemma widths_fit (n : nat) (r : list json) (rs : list (list json)) :
  Forall (fun row => List.length row = n) (r :: rs) ->
  List.length (widths py_str (r :: rs)) = n
  /\ Forall (fits py_str (widths py_str (r :: rs))) (r :: rs).
Proof.
  revert r. induction rs as [|r2 rs IH]; intros r H.
  - rewrite widths_single. inversion H. subst. rewrite length_map.
    split; [reflexivity|]. constructor; [apply fits_self | constructor].
  - inversion H as [|? ? Hr Hrest]. subst.
    destruct (IH r2 Hrest) as [Hlen Hfits].
    rewrite widths_cons.
    assert (L : List.length r = List.length (widths py_str (r2 :: rs)))
      by congruence.
    split.
    + rewrite <- (fits_length _ r (fits_zip_max_l r _ L)). reflexivity.
    + constructor; [apply fits_zip_max_l; exact L|].
      apply Forall_forall. intros row Hin.
      rewrite Forall_forall in Hfits.
      apply fits_zip_max_r; [apply Hfits; exact Hin|].
      rewrite length_map. exact L.
Qed.

Lemma pad_cells_fits (ws : list nat) (row : list json) :
  fits py_str ws row ->
  exists cells,
    pad_cells py_str ws row = Some cells
    /\ String.length (join "  " cells) = String.length (rule ws).
Proof.
  intros F.
  assert (G : exists cells,
             pad_cells py_str ws row = Some cells
             /\ Forall2 (fun x y => String.length x = String.length y) cells
                  (map (fun w => PyStr.repeat_char "-" w) ws)).
  { induction F as [|w cell ws row Hw F IH].
    - exists []. split; [reflexivity | constructor].
    - destruct IH as (cells & Hc & Hl). simpl. rewrite Hc.
      eexists. split; [reflexivity|]. constructor; [|exact Hl].
      rewrite ljust_length by exact Hw.
      rewrite repeat_char_length. reflexivity. }
  destruct G as (cells & Hc & Hl). exists cells. split; [exact Hc|].
  apply join_length. exact Hl.
Qed.

Lemma pad_rows_fits (ws : list nat) (rows : list (list json)) :
  Forall (fits py_str ws) rows ->
  exists lines,
    pad_rows py_str ws rows = Some lines
    /\ List.length lines = List.length rows
    /\ Forall (fun l => String.length l = String.length (rule ws)) lines.
Proof.
  induction 1 as [|row rows Hrow Hrows IH].
  - exists []. repeat split; constructor.
  - destruct IH as (lines & Hl & Hn & Hw).
    destruct (pad_cells_fits ws row Hrow) as (cells & Hc & Hcw).
    simpl. rewrite Hc, Hl. eexists. split; [reflexivity|].
    split; [simpl; congruence|]. constructor; assumption.
Qed.

(** The lines of a table whose rows have the same number of cells. *)
Lemma print_table_lines (n : nat) (r : list json) (rs : list (list json)) :
  Forall (fun row => List.length row = n) (r :: rs) ->
  exists lines,
    print_table py_str (r :: rs) = Some lines
    /\ List.length lines = S (S (List.length rs))
    /\ Forall (fun l => String.length l
                        = String.length (rule (widths py_str (r :: rs)))) lines.
Proof.
  intros H. destruct (widths_fit n r rs H) as [_ Hfits].
  inversion Hfits as [|? ? Hr Hrs]. subst.
  destruct (pad_cells_fits _ r Hr) as (cells & Hc & Hcw).
  destruct (pad_rows_fits _ rs Hrs) as (lines & Hl & Hn & Hw).
  unfold print_table. rewrite Hc, Hl. eexists. split; [reflexivity|].
  split; [simpl; congruence|].
  constructor; [exact Hcw|]. constructor; [reflexivity | exact Hw].
Qed.

(** X17.  [print_table] aligns its columns: for a table whose rows all
    have as many cells as its first, it raises no IndexError and prints one
    line per row plus the rule under the first, all of the same length. *)
Theorem print_table_aligned (r : list json) (rs : list (list json)) :
  Forall (fun row => List.length row = List.length r) rs ->
  exists lines w,
    print_table py_str (r :: rs) = Some lines
    /\ List.length lines = S (S (List.length rs))
    /\ Forall (fun l => String.length l = w) lines.
Proof.
  intros H.
  destruct (print_table_lines (List.length r) r rs) as (lines & Hp & Hn & Hw).
  - constructor; [reflexivity | exact H].
  - exists lines, (String.length (rule (widths py_str (r :: rs)))). auto.
Qed.

End TableFacts.

Lemma print_table_aligned_witness :
  exists lines w,
    print_table sample_show
      ([JStr "ID"; JStr "Name"] :: [[JStr "1"; JStr "10k"]; [JInt 2; JStr "DHT22"]])
    = Some lines
    /\ List.length lines = S (S (List.length [[JStr "1"; JStr "10k"];
                                              [JInt 2; JStr "DHT22"]]))
    /\ Forall (fun l => String.length l = w) lines.
Proof.
  apply (print_table_aligned sample_show [JStr "ID"; JStr "Name"]
           [[JStr "1"; JStr "10k"]; [JInt 2; JStr "DHT22"]]).
  repeat constructor.
Defined.


(** ** Listing and searching *)

Section ListFacts.

Variable py_str : json -> string.

Lemma part_from_dict_is_dict (d : json) (p : DynPart) :
  part_from_dict py_str d = Ok p -> exists kv, d = JDict kv.
Proof. destruct d; try discriminate. eauto. Qed.

Lemma table_row_cells (d : json) (p : DynPart) (row : list json) :
  table_row py_str d p = Ok row -> List.length row = 6%nat.
Proof.
  unfold table_row.
  destruct (py_get d "id" (JStr "")); [|discriminate]. cbn [bind].
  destruct (dyn_fmt (dvoltage p)); [|discriminate]. cbn [bind].
  destruct (dyn_fmt (dcurrent p)); [|discriminate]. cbn [bind].
  intros H. injection H as <-. reflexivity.
Qed.

Lemma table_row_formats (d : json) (p : DynPart) (v c : string) :
  part_from_dict py_str d = Ok p ->
  dyn_fmt (dvoltage p) = Ok v -> dyn_fmt (dcurrent p) = Ok c ->
  exists row, table_row py_str d p = Ok row.
Proof.
  intros Hd Hv Hc. destruct (part_from_dict_is_dict d p Hd) as [kv ->].
  unfold table_row. cbn [py_get bind]. rewrite Hv, Hc. cbn [bind]. eauto.
Qed.

Lemma list_rows_cells (category : option string) (parts : list json)
  (rows : list (list json)) :
  list_rows py_str category parts = Ok rows ->
  Forall (fun row => List.length row = 6%nat) rows
  /\ (List.length rows <= List.length parts)%nat.
Proof.
  revert rows. induction parts as [|d rest IH]; intros rows H.
  { injection H as <-. split; [constructor | reflexivity]. }
  cbn [list_rows] in H.
  destruct (part_from_dict py_str d) as [p|e].
  2:{ destruct (IH rows H). split; [assumption | simpl; lia]. }
  destruct (other_category category p) as [[|]|]; cbn [bind] in H;
    [ destruct (IH rows H); split; [assumption | simpl; lia] | | discriminate ].
  destruct (table_row py_str d p) as [row|] eqn:R; [|discriminate].
  cbn [bind] in H.
  destruct (list_rows py_str category rest) as [rows'|]; [|discriminate].
  cbn [bind] in H. injection H as <-. destruct (IH rows' eq_refl).
  split; [constructor; [exact (table_row_cells d p row R) | assumption]|].
  simpl. lia.
Qed.

(** The table under the header. *)
Lemma header_table (rows : list (list json)) :
  Forall (fun row => List.length row = 6%nat) rows ->
  exists lines w,
    print_table py_str (table_header :: rows) = Some lines
    /\ List.length lines = S (S (List.length rows))
    /\ Forall (fun l => String.length l = w) lines.
Proof.
  intros H.
  destruct (print_table_lines py_str 6 table_header rows) as (lines & A & B & C).
  - constructor; [reflexivity | exact H].
  - eauto.
Qed.

(** X18.  When [action_list] returns, it has printed a table and never the
    words for no results, also for an empty inventory: the header, the
    rule, and one line for each record it shows, all of the same length;
    it shows at most the stored records. *)
Theorem action_list_prints (parts : list json) (category : option string)
  (r : option (list string)) :
  action_list py_str parts category = Ok r ->
  exists rows lines w,
    list_rows py_str category parts = Ok rows
    /\ r = Some lines
    /\ List.length lines = S (S (List.length rows))
    /\ (List.length rows <= List.length parts)%nat
    /\ Forall (fun l => String.length l = w) lines.
Proof.
  unfold action_list.
  destruct (list_rows py_str category parts) as [rows|] eqn:L; [|discriminate].
  cbn [bind]. intros H. injection H as <-.
  destruct (list_rows_cells category parts rows L) as [C N].
  destruct (header_table rows C) as (lines & w & P & Q & R).
  exists rows, lines, w. auto.
Qed.

Lemma valid_record_formats (d : json) (p : DynPart) :
  valid_record py_str d = true -> part_from_dict py_str d = Ok p ->
  exists c v i,
    str_value (dcategory p) = Some c
    /\ dyn_fmt (dvoltage p) = Ok v /\ dyn_fmt (dcurrent p) = Ok i.
Proof.
  unfold valid_record. intros V D. rewrite D in V.
  apply andb_true_iff in V. destruct V as [V _].
  unfold typed_part in V. unfold dyn_fmt.
  destruct (str_value (dcategory p)) as [c|]; [|discriminate].
  destruct (str_value (dname p)); [|discriminate].
  destruct (typed_range (dvoltage p)); [|discriminate].
  destruct (typed_range (dcurrent p)); [|discriminate].
  eauto 7.
Qed.

(** X19.  On a valid database [action_list] does not fail, whatever the
    category asked for; with no category, or an empty one, it shows every
    record that [part_from_dict] accepts and passes over the others. *)
Theorem action_list_valid (parts : list json) (category : option string) :
  valid_db py_str parts = true ->
  exists rows lines,
    list_rows py_str category parts = Ok rows
    /\ action_list py_str parts category = Ok (Some lines)
    /\ (category = None \/ category = Some "" ->
        List.length rows = List.length (filter (decodes py_str) parts)).
Proof.
  intros V.
  assert (L : exists rows,
             list_rows py_str category parts = Ok rows
             /\ (category = None \/ category = Some "" ->
                 List.length rows
                 = List.length (filter (decodes py_str) parts))).
  { induction parts as [|d rest IH]; [exists []; auto|].
    cbn [valid_db forallb] in V. apply andb_true_iff in V.
    destruct V as [Vd Vrest]. destruct (IH Vrest) as (rows & Hr & Hn).
    cbn [list_rows filter]. unfold decodes at 1.
    destruct (part_from_dict py_str d) as [p|e] eqn:D; [|eauto].
    destruct (valid_record_formats d p Vd D) as (c & v & i & Hc & Hv & Hi).
    destruct (table_row_formats d p v i D Hv Hi) as [row Hrow].
    assert (O : exists b, other_category category p = Ok b
                          /\ (category = None \/ category = Some ""
                              -> b = false)).
    { unfold other_category. destruct category as [k|]; [|eauto].
      destruct (PyStr.is_empty k) eqn:E; [eauto|]. rewrite Hc.
      eexists. split; [reflexivity|].
      intros [N|N]; [discriminate|]. injection N as ->. discriminate E. }
    destruct O as (b & Hb & Hfalse). rewrite Hb. cbn [bind].
    destruct b.
    - exists rows. split; [exact Hr|]. intros N.
      specialize (Hfalse N). discriminate.
    - rewrite Hrow, Hr. cbn [bind]. eexists. split; [reflexivity|].
      intros N. simpl. rewrite (Hn N). reflexivity. }
  destruct L as (rows & Hr & Hn).
  destruct (list_rows_cells category parts rows Hr) as [C _].
  destruct (header_table rows C) as (lines & w & P & _).
  exists rows, lines. unfold action_list. rewrite Hr. cbn [bind].
  rewrite P. auto.
Qed.

Lemma search_rows_no_keywords (category : option string) (parts : list json) :
  search_rows py_str [] category parts = list_rows py_str category parts.
Proof.
  induction parts as [|d rest IH]; [reflexivity|].
  cbn [search_rows list_rows].
  destruct (part_from_dict py_str d) as [p|e] eqn:D; [|exact IH].
  destruct (other_category category p) as [[|]|]; cbn [bind];
    [exact IH | | reflexivity].
  destruct (part_from_dict_is_dict d p D) as [kv ->].
  unfold matches_keywords, haystack, table_row. cbn [py_get bind].
  destruct (dyn_fmt (dvoltage p)); [|reflexivity]. cbn [bind].
  destruct (dyn_fmt (dcurrent p)); [|reflexivity]. cbn [bind forallb].
  rewrite IH. reflexivity.
Qed.

(** X20.  A search with no keyword, as the command loop runs for a line
    that holds the category flag only, is the list of that category: the
    same lines, or the same error. *)
Theorem action_search_no_keywords (parts : list json)
  (category : option string) :
  action_search py_str parts [] category = action_list py_str parts category.
Proof.
  unfold action_search, action_list. rewrite search_rows_no_keywords.
  reflexivity.
Qed.

Lemma search_rows_listed (keywords : list string) (category : option string)
  (parts : list json) (shown : list (list json)) :
  search_rows py_str keywords category parts = Ok shown ->
  exists listed,
    list_rows py_str category parts = Ok listed
    /\ incl shown listed
    /\ (List.length shown <= List.length listed)%nat.
Proof.
  revert shown. induction parts as [|d rest IH]; intros shown H.
  { injection H as <-. exists []. repeat split; auto. apply incl_refl. }
  cbn [search_rows] in H. cbn [list_rows].
  destruct (part_from_dict py_str d) as [p|e] eqn:D; [|exact (IH shown H)].
  destruct (other_category category p) as [[|]|]; cbn [bind] in *;
    [exact (IH shown H) | | discriminate].
  destruct (matches_keywords py_str p keywords) as [found|] eqn:M;
    [|discriminate].
  cbn [bind] in H.
  assert (R : exists row, table_row py_str d p = Ok row).
  { unfold matches_keywords, haystack in M.
    destruct (dyn_fmt (dvoltage p)) as [v|] eqn:Hv; [|discriminate].
    destruct (dyn_fmt (dcurrent p)) as [c|] eqn:Hc; [|discriminate].
    exact (table_row_formats d p v c D Hv Hc). }
  destruct R as [row R]. rewrite R in *. cbn [bind] in *.
  destruct found.
  - destruct (search_rows py_str keywords category rest) as [rows|];
      [|discriminate].
    cbn [bind] in H. injection H as <-.
    destruct (IH rows eq_refl) as (listed & -> & I & N). cbn [bind].
    exists (row :: listed). split; [reflexivity|]. split.
    + intros x [<-|Hx]; [left; reflexivity | right; exact (I x Hx)].
    + simpl. lia.
  - destruct (IH shown H) as (listed & -> & I & N). cbn [bind].
    exists (row :: listed). split; [reflexivity|]. split.
    + apply incl_tl. exact I.
    + simpl. lia.
Qed.

(** X21.  When [action_search] returns, the list of the same category
    does not fail either, and the search shows no row the list does not
    show; it prints the same kind of table: the header, the rule and one
    line for each row, all of the same length, never the words for no
    results. *)
Theorem action_search_prints (parts : list json) (keywords : list string)
  (category : option string) (r : option (list string)) :
  action_search py_str parts keywords category = Ok r ->
  exists shown listed lines w,
    search_rows py_str keywords category parts = Ok shown
    /\ list_rows py_str category parts = Ok listed
    /\ incl shown listed
    /\ (List.length shown <= List.length listed)%nat
    /\ r = Some lines
    /\ List.length lines = S (S (List.length shown))
    /\ Forall (fun l => String.length l = w) lines.
Proof.
  unfold action_search.
  destruct (search_rows py_str keywords category parts) as [shown|] eqn:S;
    [|discriminate].
  cbn [bind]. intros H. injection H as <-.
  destruct (search_rows_listed keywords category parts shown S)
    as (listed & L & I & N).
  destruct (list_rows_cells category parts listed L) as [C _].
  assert (C' : Forall (fun row => List.length row = 6%nat) shown).
  { rewrite Forall_forall in *. intros x Hx. apply C, I, Hx. }
  destruct (header_table shown C') as (lines & w & P & Q & R).
  exists shown, listed, lines, w. auto 10.
Qed.

End ListFacts.

Lemma action_list_prints_witness :
  exists r rows lines w,
    action_list sample_show sample_stock (Some "sensor") = Ok r
    /\ list_rows sample_show (Some "sensor") sample_stock = Ok rows
    /\ r = Some lines
    /\ List.length lines = S (S (List.length rows))
    /\ (List.length rows <= List.length sample_stock)%nat
    /\ Forall (fun l => String.length l = w) lines.
Proof.
  eexists. 
  assert (H : action_list sample_show sample_stock (Some "sensor")
              = Ok (Some ["ID  Category  Name   Voltage  Current  Qty";
                          "--  --------  -----  -------  -------  ---";
                          "2   Sensor    DHT22  0V       0A       3  "]))
    by (vm_compute; reflexivity).
  destruct (action_list_prints sample_show sample_stock (Some "sensor") _ H)
    as (rows & lines & w & A).
  exists rows, lines, w. split; [exact H | exact A].
Defined.

Lemma action_list_valid_witness :
  valid_db sample_show sample_stock = true
  /\ exists rows lines,
       list_rows sample_show None sample_stock = Ok rows
       /\ action_list sample_show sample_stock None = Ok (Some lines)
       /\ (@None string = None \/ None = Some "" ->
           List.length rows
           = List.length (filter (decodes sample_show) sample_stock)).
Proof.
  split; [vm_compute; reflexivity|].
  apply (action_list_valid sample_show sample_stock None).
  vm_compute; reflexivity.
Defined.

Lemma action_search_prints_witness :
  exists r shown listed lines w,
    action_search sample_show sample_stock ["dht"] None = Ok r
    /\ search_rows sample_show ["dht"] None sample_stock = Ok shown
    /\ list_rows sample_show None sample_stock = Ok listed
    /\ incl shown listed
    /\ (List.length shown <= List.length listed)%nat
    /\ r = Some lines
    /\ List.length lines = S (S (List.length shown))
    /\ Forall (fun l => String.length l = w) lines.
Proof.
  assert (H : action_search sample_show sample_stock ["dht"] None
              = Ok (Some ["ID  Category  Name   Voltage  Current  Qty";
                          "--  --------  -----  -------  -------  ---";
                          "2   Sensor    DHT22  0V       0A       3  "]))
    by (vm_compute; reflexivity).
  destruct (action_search_prints sample_show sample_stock ["dht"] None _ H)
    as (shown & listed & lines & w & A).
  eexists. exists shown, listed, lines, w. split; [exact H | exact A].
Defined.


(** ** Keywords *)

Lemma lower_app (a b : string) :
  PyStr.lower (a ++ b) = PyStr.lower a ++ PyStr.lower b.
Proof. induction a; simpl; congruence. Qed.

Lemma starts_with_app (k a b : string) :
  starts_with k a = true -> starts_with k (a ++ b) = true.
Proof.
  revert a. induction k as [|x k IH]; intros a H; [reflexivity|].
  destruct a as [|y a]; [discriminate|]. simpl in *.
  apply andb_true_iff in H. destruct H as [E H].
  rewrite E. exact (IH a H).
Qed.

Lemma is_infix_app_l (k a b : string) :
  is_infix k a = true -> is_infix k (a ++ b) = true.
Proof.
  induction a as [|y a IH]; intros H.
  - destruct k; [destruct b; reflexivity | discriminate].
  - cbn [is_infix] in H. apply orb_true_iff in H.
    change (is_infix k (String y a ++ b))
      with (starts_with k (String y a ++ b) || is_infix k (a ++ b)).
    apply orb_true_iff. destruct H as [H|H].
    + left. apply starts_with_app. exact H.
    + right. exact (IH H).
Qed.

Lemma is_infix_app_r (k a b : string) :
  is_infix k b = true -> is_infix k (a ++ b) = true.
Proof.
  intros H. induction a as [|y a IH]; [exact H|].
  change (is_infix k (String y a ++ b))
    with (starts_with k (String y a ++ b) || is_infix k (a ++ b)).
  rewrite IH. apply orb_true_r.
Qed.

(** X22.  [matches_keywords] finds a part by any text that stands in its
    category, its name, its notes or one of its two formatted ranges,
    whatever the case of either: when each keyword, lower-cased, is part of
    one of these five texts, lower-cased, the part matches. *)
Theorem matches_keywords_finds (py_str : json -> string) (p : DynPart)
  (keywords : list string) (v c : string) :
  dyn_fmt (dvoltage p) = Ok v ->
  dyn_fmt (dcurrent p) = Ok c ->
  forallb
    (fun k =>
       existsb (fun text => is_infix (PyStr.lower k) (PyStr.lower text))
         [str_of py_str (dcategory p); str_of py_str (dname p); dnotes p; v; c])
    keywords = true ->
  matches_keywords py_str p keywords = Ok true.
Proof.
  intros Hv Hc H. unfold matches_keywords, haystack.
  rewrite Hv, Hc. cbn [bind]. f_equal.
  rewrite forallb_forall in *. intros k Hk. specialize (H k Hk).
  cbn [existsb] in H. rewrite !lower_app.
  repeat (apply orb_true_iff in H; destruct H as [H|H]);
    try discriminate H.
  - apply is_infix_app_l. exact H.
  - do 2 apply is_infix_app_r. apply is_infix_app_l. exact H.
  - do 4 apply is_infix_app_r. apply is_infix_app_l. exact H.
  - do 6 apply is_infix_app_r. apply is_infix_app_l. exact H.
  - do 8 apply is_infix_app_r. exact H.
Qed.

Lemma matches_keywords_finds_witness :
  exists p,
    part_from_dict sample_show (sample_sensor_record 3 2) = Ok p
    /\ matches_keywords sample_show p ["dht"; "SENS"; "0v"] = Ok true.
Proof.
  eexists. split; [vm_compute; reflexivity|].
  apply (matches_keywords_finds sample_show _ ["dht"; "SENS"; "0v"] "0V" "0A");
    vm_compute; reflexivity.
Defined.

(** ** The flags of search *)

Lemma parse_search_keywords (ks rest : list string) (category : option string)
  (keywords : list string) :
  ~ In "--cat" ks -> rest <> [] ->
  parse_search (ks ++ rest) category keywords
  = parse_search rest category (keywords ++ ks).
Proof.
  revert keywords. induction ks as [|a ks IH]; intros keywords N R.
  { rewrite app_nil_r. reflexivity. }
  change ((a :: ks) ++ rest)%list with (a :: (ks ++ rest))%list.
  cbn [parse_search].
  destruct (ks ++ rest)%list as [|c rest'] eqn:E.
  { apply app_eq_nil in E. destruct E as [_ E]. contradiction. }
  destruct (String.eqb a "--cat") eqn:A.
  { apply String.eqb_eq in A. subst a. exfalso. apply N. left. reflexivity. }
  rewrite IH; [|intros I; apply N; right; exact I | exact R].
  rewrite <- app_assoc. reflexivity.
Qed.

Lemma parse_search_plain (ks : list string) (category : option string)
  (keywords : list string) :
  ~ In "--cat" ks ->
  parse_search ks category keywords = (category, (keywords ++ ks)%list).
Proof.
  revert keywords. induction ks as [|a ks IH]; intros keywords N.
  { rewrite app_nil_r. reflexivity. }
  cbn [parse_search]. destruct ks as [|c ks'] eqn:E; [reflexivity|].
  destruct (String.eqb a "--cat") eqn:A.
  { apply String.eqb_eq in A. subst a. exfalso. apply N. left. reflexivity. }
  rewrite IH; [|intros I; apply N; right; exact I].
  rewrite <- app_assoc. reflexivity.
Qed.

(** X23.  The category flag of search may stand anywhere among the
    keywords: the token after it is the category, whatever it is, and the
    other tokens are the keywords, in their order.  A flag that is the last
    token has no category after it and is a keyword itself. *)
Theorem parse_search_flag (ks1 ks2 : list string) (c : string) :
  ~ In "--cat" ks1 -> ~ In "--cat" ks2 ->
  parse_search (ks1 ++ "--cat" :: c :: ks2) None []
  = (Some c, (ks1 ++ ks2)%list)
  /\ parse_search (ks1 ++ ["--cat"]) None []
     = (None, (ks1 ++ ["--cat"])%list).
Proof.
  intros N1 N2. split.
  - rewrite parse_search_keywords; [|exact N1 | discriminate].
    cbn [parse_search String.eqb Ascii.eqb Bool.eqb app].
    rewrite parse_search_plain by exact N2. reflexivity.
  - rewrite parse_search_keywords; [|exact N1 | discriminate].
    reflexivity.
Qed.

Lemma parse_search_flag_witness :
  parse_search (["dht"] ++ "--cat" :: "Sensor" :: ["22"]) None []
  = (Some "Sensor", (["dht"] ++ ["22"])%list)
  /\ parse_search (["dht"] ++ ["--cat"]) None []
     = (None, (["dht"] ++ ["--cat"])%list).
Proof.
  apply (parse_search_flag ["dht"] ["22"] "Sensor");
    intros [H|[]]; discriminate H.
Defined.


(** ** Add, then show *)

Section ShowFacts.

Variable py_str : json -> string.

Lemma action_show_passes (pre rest : list json) (id_ : Z) :
  forallb (passed_over id_) pre = true ->
  action_show py_str (pre ++ rest) id_ = action_show py_str rest id_.
Proof.
  induction pre as [|x pre IH]; intros H; [reflexivity|].
  simpl in H. apply andb_true_iff in H. destruct H as [Hx Hpre].
  unfold passed_over in Hx. rewrite <- (IH Hpre).
  unfold action_show. simpl app. cbn [bind].
  destruct (record_id (-1) x) as [n|]; [|discriminate]. cbn [bind].
  apply negb_true_iff in Hx. rewrite Hx. reflexivity.
Qed.

(** What [action_show] prints for the record of a part under an id. *)
Lemma action_show_new_record (p : Part.t) (n : Z) (d : json) :
  (forall s, py_str (JStr s) = s) ->
  Part.normalized p = p ->
  py_setitem (part_to_dict p) "id" (JInt n) = Ok d ->
  action_show py_str [d] n
  = Ok (Shown (["ID:       " ++ py_str (JInt n);
                "Category: " ++ Part.category p;
                "Name:     " ++ Part.name p;
                "Voltage:  " ++ RangeSpec.fmt (Part.voltage p);
                "Current:  " ++ RangeSpec.fmt (Part.current p);
                "Quantity: " ++ py_str (JInt (Part.quantity p))]
               ++ (if PyStr.is_empty (Part.notes p) then []
                   else ["Notes:    " ++ Part.notes p]))).
Proof.
  intros Hstr N E. unfold part_to_dict in E. rewrite N in E.
  injection E as <-.
  unfold action_show, record_id, part_from_dict, dyn_fmt, typed_range.
  cbn -[RangeSpec.fmt PyStr.is_empty String.append].
  rewrite Z.eqb_refl.
  cbn -[RangeSpec.fmt PyStr.is_empty String.append].
  rewrite !range_eta, !Hstr. reflexivity.
Qed.

(** X24.  The id that [action_add] announces for a new record is the one
    [action_show] finds it under: shown are that id and the fields of the
    validated part, with the notes line only when there are notes.  (The
    bounds of the part are numbers, the ids of the stored records convert,
    and [str] leaves a string as it is.) *)
Theorem add_then_show (candidate : Part.t) (parts : list json) (o : outcome)
  (n : Z) :
  (forall s, py_str (JStr s) = s) ->
  not_nan_part candidate = true ->
  forallb id_converts parts = true ->
  action_add py_str candidate parts = Ok o ->
  printed o = Added n ->
  exists p,
    validate_part candidate = Ok p
    /\ action_show py_str (parts_after o) n
       = Ok (Shown (["ID:       " ++ py_str (JInt n);
                     "Category: " ++ Part.category p;
                     "Name:     " ++ Part.name p;
                     "Voltage:  " ++ RangeSpec.fmt (Part.voltage p);
                     "Current:  " ++ RangeSpec.fmt (Part.current p);
                     "Quantity: " ++ py_str (JInt (Part.quantity p))]
                    ++ (if PyStr.is_empty (Part.notes p) then []
                        else ["Notes:    " ++ Part.notes p]))).
Proof.
  intros Hstr Hnan Hids Hadd Hn.
  destruct (action_add_appended py_str candidate parts o n Hadd Hn)
    as (p & d & Hv & _ & Hd & -> & ->).
  exists p. split; [exact Hv|].
  destruct (validate_part_ok candidate p Hv) as (Hp & _).
  cbn [parts_after].
  rewrite (action_show_passes parts [d] (next_id parts)
             (passed_over_next_id parts Hids)).
  apply action_show_new_record; [exact Hstr | | exact Hd].
  rewrite Hp. apply part_normalized_idem_b. exact Hnan.
Qed.

End ShowFacts.

Lemma add_then_show_witness :
  exists p,
    validate_part sample_sensor = Ok p
    /\ action_show sample_show
         (parts_after
            {| parts_after :=
                 [sample_record (JInt 1) 5; sample_sensor_record 3 2];
               saved := true; printed := Added 2 |}) 2
       = Ok (Shown (["ID:       " ++ sample_show (JInt 2);
                     "Category: " ++ Part.category p;
                     "Name:     " ++ Part.name p;
                     "Voltage:  " ++ RangeSpec.fmt (Part.voltage p);
                     "Current:  " ++ RangeSpec.fmt (Part.current p);
                     "Quantity: " ++ sample_show (JInt (Part.quantity p))]
                    ++ (if PyStr.is_empty (Part.notes p) then []
                        else ["Notes:    " ++ Part.notes p]))).
Proof.
  apply (add_then_show sample_show sample_sensor [sample_record (JInt 1) 5]);
    reflexivity.
Defined.


(** ** Integers and their decimal text *)

Lemma string_app_assoc (a b c : string) : ((a ++ b) ++ c = a ++ (b ++ c))%string.
Proof. induction a; simpl; congruence. Qed.

Lemma string_app_nil_r (a : string) : (a ++ "" = a)%string.
Proof. induction a; simpl; congruence. Qed.

Lemma digit_char_facts (d : Z) :
  0 <= d < 10 ->
  PyStr.is_digit (PyStr.digit_char d) = true
  /\ PyStr.digit_val (PyStr.digit_char d) = d.
Proof.
  intros H.
  assert (C : d = 0 \/ d = 1 \/ d = 2 \/ d = 3 \/ d = 4 \/ d = 5 \/ d = 6
              \/ d = 7 \/ d = 8 \/ d = 9) by lia.
  repeat (destruct C as [-> | C]; [split; reflexivity|]).
  subst d. split; reflexivity.
Qed.

(** What a decimal digit is not. *)
Lemma is_digit_facts (c : ascii) :
  PyStr.is_digit c = true ->
  PyStr.is_blank c = false
  /\ Ascii.eqb c "_" = false
  /\ PyStr.split_sign (String c "") = (false, String c "").
Proof.
  destruct c as [[] [] [] [] [] [] [] []]; try discriminate;
    intros _; repeat split; reflexivity.
Qed.

Lemma digits_loop_spec (fuel : nat) (n : Z) (acc : string) :
  0 <= n < 10 ^ (Z.of_nat fuel + 1) ->
  exists ds,
    PyStr.digits_loop fuel n acc = (ds ++ acc)%string
    /\ PyStr.all_chars PyStr.is_digit ds = true
    /\ PyStr.is_empty ds = false
    /\ forall a r,
         PyStr.digits_value a (ds ++ r)
         = PyStr.digits_value (a * 10 ^ Z.of_nat (String.length ds) + n) r.
Proof.
  revert n acc.
  assert (One : forall n acc, 0 <= n < 10 ->
            exists ds,
              String (PyStr.digit_char (n mod 10)) acc = (ds ++ acc)%string
              /\ PyStr.all_chars PyStr.is_digit ds = true
              /\ PyStr.is_empty ds = false
              /\ forall a r,
                   PyStr.digits_value a (ds ++ r)
                   = PyStr.digits_value
                       (a * 10 ^ Z.of_nat (String.length ds) + n) r).
  { intros n acc H. rewrite Z.mod_small by exact H.
    destruct (digit_char_facts n H) as [D V].
    exists (String (PyStr.digit_char n) "").
    split; [reflexivity|]. split; [simpl; rewrite D; reflexivity|].
    split; [reflexivity|]. intros a r.
    cbn [append PyStr.digits_value String.length]. rewrite V.
    change (Z.of_nat 1) with 1. rewrite Z.pow_1_r. f_equal. lia. }
  induction fuel as [|fuel IH]; intros n acc H; cbn [PyStr.digits_loop].
  { apply One. simpl in H. lia. }
  destruct (n <? 10) eqn:L.
  { apply One. apply Z.ltb_lt in L. lia. }
  apply Z.ltb_ge in L.
  assert (B : 0 <= n / 10 < 10 ^ (Z.of_nat fuel + 1)).
  { split; [apply Z.div_pos; lia|].
    apply Z.div_lt_upper_bound; [lia|].
    replace (Z.of_nat (S fuel) + 1) with (Z.succ (Z.of_nat fuel + 1)) in H
      by lia.
    rewrite Z.pow_succ_r in H by lia. lia. }
  destruct (IH (n / 10) (String (PyStr.digit_char (n mod 10)) acc) B)
    as (ds & E & A & _ & V).
  assert (M : 0 <= n mod 10 < 10) by (apply Z.mod_pos_bound; lia).
  destruct (digit_char_facts (n mod 10) M) as [D W].
  exists (ds ++ String (PyStr.digit_char (n mod 10)) "")%string.
  split; [rewrite E, string_app_assoc; reflexivity|].
  split; [rewrite all_chars_app, A; simpl; rewrite D; reflexivity|].
  split; [destruct ds; reflexivity|].
  intros a r. rewrite string_app_assoc, V. cbn [append PyStr.digits_value].
  rewrite W, append_length. cbn [String.length].
  f_equal.
  replace (Z.of_nat (String.length ds + 1)) with (Z.succ (Z.of_nat (String.length ds)))
    by lia.
  rewrite Z.pow_succ_r by lia.
  pose proof (Z.div_mod n 10). lia.
Qed.

Lemma digits_of_spec (n : Z) :
  0 <= n ->
  PyStr.all_chars PyStr.is_digit (PyStr.digits_of n) = true
  /\ PyStr.is_empty (PyStr.digits_of n) = false
  /\ PyStr.digits_value 0 (PyStr.digits_of n) = n.
Proof.
  intros H. unfold PyStr.digits_of.
  assert (B : 0 <= n < 10 ^ (Z.of_nat (Z.to_nat (Z.log2 n)) + 1)).
  { split; [exact H|]. pose proof (Z.log2_nonneg n) as L.
    rewrite Z2Nat.id by exact L.
    destruct (Z.eq_dec n 0) as [->|N]; [reflexivity|].
    assert (P : 0 < n) by lia.
    destruct (Z.log2_spec n P) as [_ U].
    replace (Z.succ (Z.log2 n)) with (Z.log2 n + 1) in U by lia.
    pose proof (Z.pow_le_mono_l 2 10 (Z.log2 n + 1)). lia. }
  destruct (digits_loop_spec _ n "" B) as (ds & E & A & N & V).
  rewrite E, string_app_nil_r. split; [exact A|]. split; [exact N|].
  specialize (V 0 ""%string). rewrite string_app_nil_r in V. rewrite V.
  reflexivity.
Qed.

(** Facts about a run of digits. *)
Lemma digits_strip (ds : string) :
  PyStr.all_chars PyStr.is_digit ds = true ->
  PyStr.drop_end PyStr.is_blank ds = ds
  /\ PyStr.remove_char "_" ds = ds
  /\ PyStr.span PyStr.is_digit ds = (ds, ""%string)
  /\ forall prev, Ascii.eqb prev "_" = false ->
                  PyStr.underscores_ok prev ds = true.
Proof.
  induction ds as [|c ds IH]; intros H.
  { repeat split; try reflexivity. intros prev P. simpl. rewrite P.
    reflexivity. }
  simpl in H. apply andb_true_iff in H. destruct H as [Hc Hs].
  destruct (IH Hs) as (A & B & C & D).
  destruct (is_digit_facts c Hc) as (F1 & F2 & _).
  repeat split.
  - cbn [PyStr.drop_end]. rewrite A, F1. reflexivity.
  - cbn [PyStr.remove_char]. rewrite B.
    destruct (Ascii.eqb c "_") eqn:E; [discriminate|]. reflexivity. 
  - cbn [PyStr.span]. rewrite Hc, C. reflexivity.
  - intros prev P. cbn [PyStr.underscores_ok]. rewrite F2, P, (D c F2).
    reflexivity.
Qed.

Lemma int_of_digits (ds : string) :
  PyStr.all_chars PyStr.is_digit ds = true ->
  PyStr.is_empty ds = false ->
  int_of_string ds = Ok (PyStr.digits_value 0 ds)
  /\ int_of_string (String "-" ds) = Ok (- PyStr.digits_value 0 ds).
Proof.
  intros A N. destruct (digits_strip ds A) as (S1 & S2 & S3 & S4).
  destruct ds as [|c r]; [discriminate|].
  assert (Hc : PyStr.is_digit c = true).
  { simpl in A. apply andb_true_iff in A. apply A. }
  destruct (is_digit_facts c Hc) as (F1 & F2 & F3).
  unfold int_of_string, PyStr.strip_with. split.
  - cbn [PyStr.drop_while]. rewrite F1, S1, (S4 "000"%char eq_refl), S2.
    replace (PyStr.split_sign (String c r)) with (false, String c r).
    + rewrite S3. reflexivity.
    + revert F3. clear. destruct c as [[] [] [] [] [] [] [] []];
        intros F; try discriminate F; reflexivity.
  - cbn [PyStr.drop_while PyStr.is_blank PyStr.code]. 
    change (PyStr.is_blank "-") with false. cbv iota.
    change (PyStr.drop_end PyStr.is_blank (String "-" (String c r)))
      with (if false && PyStr.is_empty
                          (PyStr.drop_end PyStr.is_blank (String c r))
            then ""%string
            else String "-" (PyStr.drop_end PyStr.is_blank (String c r))).
    cbn [andb]. rewrite S1.
    change (PyStr.underscores_ok "000" (String "-" (String c r)))
      with (true && PyStr.underscores_ok "-" (String c r)).
    rewrite (S4 "-"%char eq_refl). cbn [andb].
    change (PyStr.remove_char "_" (String "-" (String c r)))
      with (String "-" (PyStr.remove_char "_" (String c r))).
    rewrite S2. cbn [PyStr.split_sign]. rewrite S3. reflexivity.
Qed.

(** [int(str(n))] is [n]. *)
Lemma int_of_str (n : Z) : int_of_string (str_of_Z n) = Ok n.
Proof.
  unfold str_of_Z. destruct (n <? 0) eqn:L.
  - apply Z.ltb_lt in L.
    destruct (digits_of_spec (- n)) as (A & N & V); [lia|].
    destruct (int_of_digits _ A N) as [_ E]. rewrite E, V. f_equal. lia.
  - apply Z.ltb_ge in L.
    destruct (digits_of_spec n L) as (A & N & V).
    destruct (int_of_digits _ A N) as [E _]. rewrite E, V. reflexivity.
Qed.


(** ** Answers left blank *)

Lemma same_float_eq (a b : PyFloat.float) : same_float a b = true -> a = b.
Proof.
  destruct a as [s|s| |s m e], b as [t|t| |t m' e']; try discriminate;
    simpl; intros H.
  - apply Bool.eqb_prop in H. congruence.
  - apply Bool.eqb_prop in H. congruence.
  - reflexivity.
  - apply andb_true_iff in H. destruct H as [H E].
    apply andb_true_iff in H. destruct H as [S M].
    apply Bool.eqb_prop in S. apply Pos.eqb_eq in M. apply Z.eqb_eq in E.
    congruence.
Qed.

Lemma prints_back_facts (x : PyFloat.float) :
  prints_back x = true ->
  PyStr.contains "-" (PyFloat.fmt_g x) = false
  /\ PyFloat.of_string (PyFloat.fmt_g x) = Some x.
Proof.
  unfold prints_back. intros H. apply andb_true_iff in H.
  destruct H as [C R]. apply negb_true_iff in C. split; [exact C|].
  destruct (PyFloat.of_string (PyFloat.fmt_g x)) as [y|]; [|discriminate].
  rewrite (same_float_eq y x R). reflexivity.
Qed.

(** Two bounds that compare equal and print without a sign are the same. *)
Lemma eqb_prints_back (a b : PyFloat.float) :
  PyFloat.eqb a b = true -> prints_back a = true -> prints_back b = true ->
  a = b.
Proof.
  intros E A B.
  destruct (prints_back_facts a A) as [Ca _].
  destruct (prints_back_facts b B) as [Cb _].
  clear A B. unfold PyFloat.eqb, SFeqb in E.
  destruct a as [[]|[]| |[] m e], b as [[]|[]| |[] m' e']; simpl in E;
    try discriminate E; try reflexivity;
    try (discriminate Ca); try (discriminate Cb);
    (destruct (Z.compare e e') eqn:Z; try discriminate E;
     apply Z.compare_eq in Z; subst e';
     destruct (Pos.compare_cont Eq m m') eqn:P; try discriminate E;
     apply Pos.compare_eq in P; subst m'; reflexivity).
Qed.

(** The default text of [action_edit] for an entered range parses back to
    that range. *)
Lemma parse_range_default_exact (r : RangeSpec.t) :
  entered_range r = true ->
  parse_range (range_default r) (RangeSpec.unit r) = Ok r.
Proof.
  unfold entered_range. intros H.
  apply andb_true_iff in H. destruct H as [H S].
  apply andb_true_iff in H. destruct H as [H U].
  apply andb_true_iff in H. destruct H as [A B].
  apply String.eqb_eq in S. apply negb_true_iff in U.
  destruct (prints_back_facts _ A) as [Dlo Rlo].
  destruct (prints_back_facts _ B) as [Dhi Rhi].
  pose proof (plain_fmt_g (RangeSpec.min r)) as Plo.
  pose proof (plain_fmt_g (RangeSpec.max r)) as Phi.
  assert (Ne : PyStr.is_empty (PyFloat.fmt_g (RangeSpec.min r)) = false).
  { destruct (PyFloat.fmt_g (RangeSpec.min r)); [discriminate Rlo | reflexivity]. }
  assert (Pd : PyStr.all_chars plain (range_default r) = true).
  { unfold range_default. destruct (negb _); [|exact Plo].
    rewrite !all_chars_app, Plo, Phi. reflexivity. }
  unfold parse_range.
  rewrite (plain_strip _ Pd), (plain_lower _ Pd), (plain_remove_space _ Pd).
  rewrite S, U. unfold range_default.
  destruct (PyFloat.eqb (RangeSpec.min r) (RangeSpec.max r)) eqn:E;
    cbn [negb].
  - rewrite Ne, Dlo. unfold py_float. rewrite Rlo. cbn [bind].
    rewrite (eqb_prints_back _ _ E A B) at 2. rewrite range_eta. reflexivity.
  - assert (Ne2 : PyStr.is_empty
                    (PyFloat.fmt_g (RangeSpec.min r) ++ "-"
                     ++ PyFloat.fmt_g (RangeSpec.max r)) = false).
    { destruct (PyFloat.fmt_g (RangeSpec.min r)); [discriminate Ne | reflexivity]. }
    rewrite Ne2, contains_app. cbn [append PyStr.contains].
    rewrite Ascii.eqb_refl, orb_true_r.
    rewrite (split_first_app "-" _ _ Dlo). unfold py_float.
    rewrite Rlo, Rhi. cbn [bind]. rewrite range_eta. reflexivity.
Qed.

Lemma prompt_blank {A : Type} (entered : string -> A) (text : string)
  (default : A) (line : string) (rest : list string) (out : list echo) :
  blank line = true ->
  prompt entered text (Some default) {| stdin := line :: rest; stdout := out |}
  = Done default {| stdin := rest; stdout := out ++ [Asked text] |}.
Proof. unfold blank, prompt. cbn [stdin stdout]. intros ->. reflexivity. Qed.

Lemma prompt_int_blank (text : string) (default : Z) (line : string)
  (rest : list string) (out : list echo) :
  0 < default -> blank line = true ->
  prompt_int text default {| stdin := line :: rest; stdout := out |}
  = Done default {| stdin := rest; stdout := out ++ [Asked text] |}.
Proof.
  intros P B. unfold prompt_int. cbn [stdin stdout prompt_int_loop].
  rewrite (prompt_blank _ _ _ _ _ _ B), int_of_str.
  apply Z.leb_gt in P. rewrite P. reflexivity.
Qed.

Lemma prompt_range_blank (label def_range unit : string) (r : RangeSpec.t)
  (l1 l2 : string) (rest : list string) (out : list echo) :
  blank l1 = true -> blank l2 = true ->
  parse_range def_range unit = Ok r ->
  prompt_range label def_range (JStr unit)
    {| stdin := l1 :: l2 :: rest; stdout := out |}
  = Done r {| stdin := rest;
              stdout := (out ++ [Asked (label ++ " range (e.g. 1-24)")])
                        ++ [Asked (label ++ " unit (e.g. V, mA, A)")] |}.
Proof.
  intros B1 B2 P. unfold prompt_range.
  cbn [stdin stdout prompt_range_loop]. unfold io_bind.
  rewrite (prompt_blank _ _ _ _ _ _ B1), (prompt_blank _ _ _ _ _ _ B2).
  unfold io_ret. cbn [parse_range_dyn]. rewrite P. reflexivity.
Qed.

Section BlankFacts.

Variable py_str : json -> string.

Lemma action_edit_passes (pre l : list json) (id_ : Z) (c : console) :
  forallb (passed_over id_) pre = true ->
  action_edit py_str (pre ++ l) id_ c
  = match action_edit py_str l id_ c with
    | Done o c' =>
        Done {| edit_parts := pre ++ edit_parts o; edit_saved := edit_saved o;
                edit_updated := edit_updated o |} c'
    | Failed e => Failed e
    | Eof => Eof
    end.
Proof.
  induction pre as [|x pre IH]; intros H.
  - simpl. destruct (action_edit py_str l id_ c) as [[]| |]; reflexivity.
  - simpl in H. apply andb_true_iff in H. destruct H as [Hx Hpre].
    unfold passed_over in Hx. simpl app. cbn [action_edit].
    unfold io_bind at 1.
    destruct (record_id (-1) x) as [k|]; [|discriminate]. cbn [io_lift].
    apply negb_true_iff in Hx. rewrite Hx. unfold io_bind.
    rewrite (IH Hpre).
    destruct (action_edit py_str l id_ c) as [[]| |]; reflexivity.
Qed.

Lemma range_default_of_record (r : RangeSpec.t) :
  dyn_range_default {| dmin := JFloat (RangeSpec.min r);
                       dmax := JFloat (RangeSpec.max r);
                       dunit := JStr (RangeSpec.unit r) |}
  = Ok (range_default r).
Proof. destruct r. reflexivity. Qed.

(** X26.  An edit in which every prompt is answered with a blank line
    changes nothing: for a record as [action_add] writes it, of a part that
    passes validation unchanged and whose ranges are as entered (bounds
    that print back, units not empty), [action_edit] reads eight lines,
    saves, and leaves every record as it was. *)
Theorem action_edit_blank (p : Part.t) (n : Z) (d : json)
  (pre post : list json) (blanks rest : list string) (out : list echo) :
  (forall s, py_str (JStr s) = s) ->
  validate_part p = Ok p ->
  entered_range (Part.voltage p) = true ->
  entered_range (Part.current p) = true ->
  py_setitem (part_to_dict p) "id" (JInt n) = Ok d ->
  forallb (passed_over n) pre = true ->
  List.length blanks = 8%nat ->
  forallb blank blanks = true ->
  exists out',
    action_edit py_str (pre ++ d :: post) n
      {| stdin := blanks ++ rest; stdout := out |}
    = Done {| edit_parts := pre ++ d :: post; edit_saved := true;
              edit_updated := true |}
           {| stdin := rest; stdout := out' |}.
Proof.
  intros Hstr Hv Ev Ei Hd Hpre Hlen Hblank.
  destruct (validate_part_ok p p Hv) as (N & _ & _ & Hq & _).
  destruct (new_record_facts p n d Hd) as [Hid _].
  assert (D : part_from_dict py_str d
              = Ok {| dcategory := JStr (Part.category p);
                      dname := JStr (Part.name p);
                      dvoltage :=
                        {| dmin := JFloat (RangeSpec.min (Part.voltage p));
                           dmax := JFloat (RangeSpec.max (Part.voltage p));
                           dunit := JStr (RangeSpec.unit (Part.voltage p)) |};
                      dcurrent :=
                        {| dmin := JFloat (RangeSpec.min (Part.current p));
                           dmax := JFloat (RangeSpec.max (Part.current p));
                           dunit := JStr (RangeSpec.unit (Part.current p)) |};
                      dquantity := Part.quantity p;
                      dnotes := Part.notes p |}).
  { revert Hd. unfold part_to_dict. rewrite <- N. intros Hd.
    injection Hd as <-. unfold part_from_dict. cbn. rewrite Hstr.
    reflexivity. }
  assert (U : py_update d (part_to_dict p) = Ok d).
  { injection Hd as <-. reflexivity. }
  assert (V : validate_entered (JStr (Part.category p)) (JStr (Part.name p))
                (Part.voltage p) (Part.current p) (Part.quantity p)
                (Part.notes p) = Ok p).
  { unfold validate_entered. cbn [str_value].
    transitivity (validate_part p); [|exact Hv].
    f_equal. destruct p; reflexivity. }
  destruct blanks as [|l1 [|l2 [|l3 [|l4 [|l5 [|l6 [|l7 [|l8 [|]]]]]]]]];
    try discriminate Hlen.
  cbn [forallb] in Hblank.
  repeat (apply andb_true_iff in Hblank;
          let B := fresh "B" in destruct Hblank as [B Hblank]).
  rewrite (action_edit_passes pre (d :: post) n _ Hpre).
  cbn [action_edit app]. unfold io_bind, io_lift, io_ret.
  rewrite Hid. cbv beta iota. rewrite Z.eqb_refl, D. cbv beta iota.
  cbn [dcategory dname dvoltage dcurrent dquantity dnotes dunit].
  rewrite !(prompt_blank JStr) by assumption.
  rewrite !range_default_of_record.
  rewrite (prompt_range_blank "Voltage" _ _ (Part.voltage p))
    by (try assumption; apply parse_range_default_exact; exact Ev).
  rewrite (prompt_range_blank "Current" _ _ (Part.current p))
    by (try assumption; apply parse_range_default_exact; exact Ei).
  rewrite (prompt_int_blank "Quantity") by assumption.
  rewrite (prompt_blank (fun s : string => s)) by assumption.
  rewrite V, U. cbn [edit_parts edit_saved edit_updated].
  eexists. reflexivity.
Qed.

End BlankFacts.

Lemma action_edit_blank_witness :
  exists out',
    action_edit sample_show
      ([] ++ sample_supply_record :: [sample_record (JInt 2) 5]) 1
      {| stdin := ["  "; ""; ""; ""; ""; ""; ""; ""] ++ ["list"];
         stdout := [] |}
    = Done {| edit_parts := [] ++ sample_supply_record
                                  :: [sample_record (JInt 2) 5];
              edit_saved := true; edit_updated := true |}
           {| stdin := ["list"]; stdout := out' |}.
Proof.
  apply (action_edit_blank sample_show sample_supply 1 sample_supply_record
           [] [sample_record (JInt 2) 5]
           ["  "; ""; ""; ""; ""; ""; ""; ""] ["list"] []);
    vm_compute; reflexivity.
Defined.


(** X27.  A blank line at [prompt_int] stands for the default, which goes
    through [str] and [int] unchanged: a positive default is returned, and
    for any other the prompt says so and asks again. *)
Theorem prompt_int_default (text : string) (default : Z) (line : string)
  (rest : list string) (out : list echo) :
  blank line = true ->
  prompt_int text default {| stdin := line :: rest; stdout := out |}
  = if 0 <? default
    then Done default {| stdin := rest; stdout := out ++ [Asked text] |}
    else prompt_int text default
           {| stdin := rest;
              stdout := (out ++ [Asked text])
                        ++ [Told "Enter a positive integer."] |}.
Proof.
  intros B. unfold prompt_int at 1. cbn [stdin stdout prompt_int_loop].
  rewrite (prompt_blank _ _ _ _ _ _ B), int_of_str. cbn [stdout].
  rewrite Z.leb_antisym. destruct (0 <? default); reflexivity.
Qed.

Lemma prompt_int_default_witness :
  blank " " = true
  /\ prompt_int "Quantity" 3 {| stdin := [" "; "9"]; stdout := [] |}
     = if 0 <? 3
       then Done 3 {| stdin := ["9"]; stdout := [] ++ [Asked "Quantity"] |}
       else prompt_int "Quantity" 3
              {| stdin := ["9"];
                 stdout := ([] ++ [Asked "Quantity"])
                           ++ [Told "Enter a positive integer."] |}.
Proof.
  split; [reflexivity|].
  apply (prompt_int_default "Quantity" 3 " " ["9"] []). reflexivity.
Defined.
